(** * Simple Tasks API

    A shallow embedding of the two variants of the service:
    [src/src/index.ts] (differentiated HTTP statuses, module [Index]) and
    its sibling [src/unnamed/part_000] (every handler answers 200, errors
    travel in the body; module [Part000]).

    Handlers are sequential programs over a [World] (the two Prisma tables
    and the upload directory).  The interleaving of concurrent requests at
    the [await] points is outside this model, and so are the Swagger
    plugin and the start of the server, which none of the properties below
    involves. *)

From Stdlib Require Import ZArith Ascii String.
From stdpp Require Import base option list strings gmap fin_maps pretty.

Local Open Scope string_scope.
Local Open Scope Z_scope.

(** ** JavaScript values as the handlers see them *)

(** A [File] of the Web API, as the multipart parser hands it over.  [size]
    is the byte length the object reports; the bytes are carried apart so
    that a large upload stays a small term. *)
Module File.
Record t := mk { name : string; type : string; size : Z; bytes : string }.
End File.

Inductive jsval :=
| JUndefined
| JNull
| JBool (b : bool)
| JNum (n : Z)
| JStr (s : string)
| JFile (f : File.t).

#[global] Instance File_eq_dec : EqDecision File.t.
Proof. solve_decision. Defined.
#[global] Instance jsval_eq_dec : EqDecision jsval.
Proof. solve_decision. Defined.

(** A parsed JSON or multipart body: property name to value. *)
Abbreviation jsobj := (gmap string jsval).

(** [o.k]: a missing property reads as [undefined]. *)
Definition prop (o : jsobj) (k : string) : jsval := default JUndefined (o !! k).

(** ToBoolean, as [!v] and [if (v)] use it. *)
Definition truthy (v : jsval) : bool :=
  match v with
  | JUndefined | JNull => false
  | JBool b => b
  | JNum n => negb (n =? 0)
  | JStr s => negb (String.eqb s "")
  | JFile _ => true
  end.

(** [v !== undefined] *)
Definition defined (v : jsval) : bool :=
  match v with JUndefined => false | _ => true end.

(** [typeof v === 'boolean'] *)
Definition is_boolean (v : jsval) : bool :=
  match v with JBool _ => true | _ => false end.

(** ** Strings *)

(** [s.split(sep)] for a one-character separator: every occurrence of [sep]
    ends a piece, so two separators in a row yield an empty piece and the
    empty string yields one empty piece. *)
Fixpoint split (sep : ascii) (s : string) : list string :=
  match s with
  | EmptyString => [""]
  | String c s' =>
      if decide (c = sep) then "" :: split sep s'
      else match split sep s' with
           | [] => [String c ""]
           | w :: ws => String c w :: ws
           end
  end.

(** ASCII case folding, for stating what matching a title up to case
    means. *)
Definition lower_ascii (c : ascii) : ascii :=
  let n := nat_of_ascii c in
  if (65 <=? n)%nat && (n <=? 90)%nat then ascii_of_nat (n + 32) else c.

Fixpoint lower (s : string) : string :=
  match s with
  | EmptyString => EmptyString
  | String c s' => String (lower_ascii c) (lower s')
  end.

(** ** Data model *)

Module User.
Record t := mk { id : Z; email : string; password : string; image : string }.
End User.

Module Task.
Record t := mk
  { id : Z; userId : Z; title : string; date : string; isChecked : bool }.
End Task.

(** [interface JwtUserPayload] *)
Module JwtUserPayload.
Record t := mk { id : Z; email : string }.
End JwtUserPayload.

#[global] Instance User_eq_dec : EqDecision User.t.
Proof. solve_decision. Defined.
#[global] Instance Task_eq_dec : EqDecision Task.t.
Proof. solve_decision. Defined.
#[global] Instance JwtUserPayload_eq_dec : EqDecision JwtUserPayload.t.
Proof. solve_decision. Defined.

(** What a request can read and write: the [User] and [Task] tables, keyed
    by primary key, with their autoincrement counters, and the directories
    and files under the working directory. *)
Record World := mkWorld
  { users : gmap Z User.t;
    user_seq : Z;
    tasks : gmap Z Task.t;
    task_seq : Z;
    dirs : gset string;
    files : gmap string string }.

(** What a request reads from its surroundings: [Date.now()] in
    milliseconds and the randomness bcrypt draws its salt from. *)
Record Env := mkEnv { now : Z; entropy : string }.

(** The parts of the Elysia context the handlers destructure.  Query and
    path parameters are strings by construction. *)
Record Context := mkContext
  { headers : gmap string string;
    body : jsobj;
    query : gmap string string;
    params : gmap string string }.

(** ** Responses *)

Inductive Body :=
| BError (error : string)
| BMessage (message : string)
| BTask (task : Task.t)
| BTasks (tasks : list Task.t)
| BProfile (email image : string) (total completed : Z)
| BImage (message image : string)
| BInvalid
| BFailure (e : string).

Record Response := mkResponse { code : Z; payload : Body }.

(** [status(code, body)], and a plain [return body]. *)
Definition status (c : Z) (b : Body) : Response := mkResponse c b.
Definition ok (b : Body) : Response := mkResponse 200 b.

(** The error taxonomy.  The two variants encode an error differently (by
    status, or in a 200 body), so a response is classified by its body:
    the fixed messages of the handlers, the framework's schema report and
    an uncaught exception. *)
Inductive Outcome :=
| Success | Validation | Unauthorized | Conflict | NotFound | UpstreamFailure.

Definition outcome (r : Response) : Outcome :=
  match payload r with
  | BError m =>
      if decide (m = "Unauthorized") then Unauthorized
      else if decide (m = "Task not found") then NotFound
      else if decide (m = "User not found") then NotFound
      else if decide (m = "User exists") then Conflict
      else if decide (m ∈ ["Invalid task data"; "Email and password required";
                           "No image file uploaded"]) then Validation
      else UpstreamFailure
  | BInvalid => Validation
  | BFailure _ => UpstreamFailure
  | _ => Success
  end.

(** ** Control flow of a handler *)

(** One step of an [async] handler: go on with a value, [return] a
    response early, or throw. *)
Inductive Step (A : Type) :=
| Next (a : A)
| Return (r : Response)
| Throw (e : string).
Arguments Next {A} a.
Arguments Return {A} r.
Arguments Throw {A} e.

Definition Handler (A : Type) : Type := Env -> World -> Step A * World.

Definition ret {A} (a : A) : Handler A := fun _ w => (Next a, w).

Definition bind {A B} (m : Handler A) (k : A -> Handler B) : Handler B :=
  fun e w =>
    match m e w with
    | (Next a, w') => k a e w'
    | (Return r, w') => (Return r, w')
    | (Throw x, w') => (Throw x, w')
    end.

Notation "x <- m ;; k" := (bind m (fun x => k))
  (at level 20, m at level 99, k at level 200, only parsing).
Notation "m ;; k" := (bind m (fun _ => k))
  (at level 100, k at level 200, right associativity, only parsing).

Definition reply {A} (r : Response) : Handler A := fun _ w => (Return r, w).
Definition throw {A} (x : string) : Handler A := fun _ w => (Throw x, w).

(** [try { m } catch { h }] *)
Definition try_catch {A} (m h : Handler A) : Handler A :=
  fun e w =>
    match m e w with
    | (Throw _, w') => h e w'
    | r => r
    end.
Definition get_world : Handler World := fun _ w => (Next w, w).
Definition put_world (w : World) : Handler unit := fun _ _ => (Next tt, w).
Definition Date_now : Handler Z := fun e w => (Next (now e), w).
Definition random_bytes : Handler string := fun e w => (Next (entropy e), w).

(** [if (c) return r;] *)
Definition return_if (c : bool) (r : Response) : Handler unit :=
  if c then reply r else ret tt.

(** What the framework sends for a handler that has run: its response, or
    500 for an exception nobody caught. *)
Definition respond (h : Handler Response) (e : Env) (w : World)
  : Response * World :=
  match h e w with
  | (Next r, w') => (r, w')
  | (Return r, w') => (r, w')
  | (Throw x, w') => (status 500 (BFailure x), w')
  end.

(** Single-field updates of the world. *)
Definition set_users (f : gmap Z User.t -> gmap Z User.t) (w : World) : World :=
  mkWorld (f (users w)) (user_seq w) (tasks w) (task_seq w) (dirs w) (files w).
Definition set_user_seq (n : Z) (w : World) : World :=
  mkWorld (users w) n (tasks w) (task_seq w) (dirs w) (files w).
Definition set_tasks (f : gmap Z Task.t -> gmap Z Task.t) (w : World) : World :=
  mkWorld (users w) (user_seq w) (f (tasks w)) (task_seq w) (dirs w) (files w).
Definition set_task_seq (n : Z) (w : World) : World :=
  mkWorld (users w) (user_seq w) (tasks w) n (dirs w) (files w).
Definition set_dirs (f : gset string -> gset string) (w : World) : World :=
  mkWorld (users w) (user_seq w) (tasks w) (task_seq w) (f (dirs w)) (files w).
Definition set_files (f : gmap string string -> gmap string string) (w : World)
  : World :=
  mkWorld (users w) (user_seq w) (tasks w) (task_seq w) (dirs w) (f (files w)).

(** ** Collaborators

    The libraries the handlers call are not part of the repository.  Each
    is taken as an interface; what the handlers rely on beyond the
    signature is written as a definition over it. *)

(** *** jsonwebtoken *)

Module jwt.

(** The registered and private claims of a token this service issues. *)
Record Claims := mkClaims { id : Z; email : string; iat : Z; exp : Z }.

(** The compact serialisation and the MAC are left to the library:
    [parse] splits a token into its claims and its signature ([None] for a
    string that is no token), [mac secret claims] is the signature the
    holder of [secret] computes for [claims]. *)
Class Codec := mkCodec
  { parse : string -> option (Claims * string);
    mac : string -> Claims -> string }.

(** Modelled from the spec: [jwt.verify] of the jsonwebtoken package, which
    is not among the sources.  Section 4.2: it checks signature integrity
    and expiry, yields the decoded identity on success and fails on a
    malformed token, a bad signature or an elapsed expiry; an expiry equal
    to the current time counts as elapsed.  The clock is read in whole
    seconds, as the claims are. *)
Definition verify `{Codec} (token secretOrPublicKey : string)
  : Handler JwtUserPayload.t :=
  clockTimestamp <- Date_now;;
  match parse token with
  | None => throw "JsonWebTokenError: jwt malformed"
  | Some (claims, signature) =>
      if decide (signature = mac secretOrPublicKey claims) then
        if decide (clockTimestamp / 1000 < exp claims) then
          ret (JwtUserPayload.mk (id claims) (email claims))
        else throw "TokenExpiredError: jwt expired"
      else throw "JsonWebTokenError: invalid signature"
  end.

End jwt.

(** *** bcryptjs *)

Module bcrypt.

(** Modelled from the spec: the hash of the bcryptjs package, which is not
    among the sources.  Section 4.1: a salted one-way digest; section 8:
    the stored digest differs from the plaintext. *)
Class Digest := mkDigest
  { digest : string -> Z -> string -> string;
    digest_opaque : forall plaintext rounds salt,
        digest plaintext rounds salt <> plaintext }.

(** [bcrypt.hash(s, rounds)]; anything but a string is an illegal
    argument. *)
Definition hash `{Digest} (s : jsval) (rounds : Z) : Handler string :=
  match s with
  | JStr plaintext => salt <- random_bytes;; ret (digest plaintext rounds salt)
  | _ => throw "Error: Illegal arguments"
  end.

End bcrypt.

(** *** The language and the runtime *)

(** [Number(s)] on a string, where the result is an integer; [None] stands
    for [NaN] and for every number that is not an integer. *)
Class Ecma := mkEcma { StringToNumber : string -> option Z }.

Definition Number `{Ecma} (v : option string) : option Z := v ≫= StringToNumber.

(** [path.extname] of node:path. *)
Class NodePath := mkNodePath { extname : string -> string }.

(** node:fs/promises, with paths relative to [process.cwd()]. *)
Module fs.

Definition mkdir (dir : string) : Handler unit :=
  w <- get_world;; put_world (set_dirs (union {[dir]}) w).

Definition writeFile (path data : string) : Handler unit :=
  w <- get_world;; put_world (set_files <[path := data]> w).

End fs.

(** *** The Prisma client

    The generated client and the schema are not among the sources; the
    operations below follow section 6 of the specification.  Arguments
    arrive untyped ([body as {...}] is only a cast), and the client refuses
    a value of the wrong type before it reaches the database. *)

Module prisma.

Definition string_arg (v : jsval) : Handler string :=
  match v with
  | JStr s => ret s
  | _ => throw "PrismaClientValidationError"
  end.

Definition boolean_arg (v : jsval) : Handler bool :=
  match v with
  | JBool b => ret b
  | _ => throw "PrismaClientValidationError"
  end.

Definition int_arg (v : option Z) : Handler Z :=
  match v with
  | Some n => ret n
  | None => throw "PrismaClientValidationError"
  end.

Definition optional {A} (arg : jsval -> Handler A) (v : option jsval)
  : Handler (option A) :=
  match v with
  | Some x => a <- arg x;; ret (Some a)
  | None => ret None
  end.

(** The rows of a table, in the order the store yields them. *)
Definition rows {A} (table : gmap Z A) : list A := (map_to_list table).*2.

Definition by_email (e : string) (table : gmap Z User.t) : option User.t :=
  snd <$> list_find (fun u => User.email u = e) (rows table).

Inductive QueryMode := default_mode | insensitive.

Record StringFilter := mkStringFilter { contains : string; mode : QueryMode }.

Record TaskWhereInput := mkTaskWhereInput
  { userId : Z; date : option string; title : option StringFilter }.

Record TaskCreateInput := mkTaskCreateInput
  { create_title : jsval;
    create_date : jsval;
    create_isChecked : jsval;
    create_userId : Z }.

Record TaskUpdateInput := mkTaskUpdateInput
  { update_title : option jsval;
    update_date : option jsval;
    update_isChecked : option jsval }.

(** A row satisfies the owner and date conditions of [where] when it
    satisfies each one present. *)
Definition task_matches (where_ : TaskWhereInput) (row : Task.t) : bool :=
  bool_decide (Task.userId row = userId where_)
  && from_option (fun d => bool_decide (Task.date row = d)) true (date where_).

Module user.

(** Modelled from the spec: [user.findByEmail(email) -> User | none],
    written [findUnique({ where: { email } })]. *)
Definition findUnique_email (email : jsval) : Handler (option User.t) :=
  e <- string_arg email;;
  w <- get_world;;
  ret (by_email e (users w)).

(** Modelled from the spec: [user.findById(id, includeTasks: true)],
    written [findUnique({ where: { id }, include: { tasks: true } })]: the
    user together with the tasks that refer to it. *)
Definition findUnique_id_include_tasks (id : Z)
  : Handler (option (User.t * list Task.t)) :=
  w <- get_world;;
  let tasks_of_user :=
    filter (fun row => Task.userId row = id) (rows (tasks w)) in
  ret ((fun u => (u, tasks_of_user)) <$> users w !! id).

(** Modelled from the spec: [user.create({email, passwordHash, image})],
    with the uniqueness constraint on [email] enforced by the store. *)
Definition create (email : jsval) (password image : string) : Handler User.t :=
  e <- string_arg email;;
  w <- get_world;;
  match by_email e (users w) with
  | Some _ => throw "PrismaClientKnownRequestError: P2002"
  | None =>
      let u := User.mk (user_seq w) e password image in
      put_world (set_user_seq (user_seq w + 1) (set_users <[user_seq w := u]> w));;
      ret u
  end.

(** Modelled from the spec: [user.updateImage(id, path) -> User], written
    [update({ where: { id }, data: { image } })]. *)
Definition update_image (id : Z) (image : string) : Handler User.t :=
  w <- get_world;;
  match users w !! id with
  | None => throw "PrismaClientKnownRequestError: P2025"
  | Some u =>
      let u' := User.mk (User.id u) (User.email u) (User.password u) image in
      put_world (set_users <[id := u']> w);;
      ret u'
  end.

End user.

Module task.

(** Modelled from the spec: [task.create({title, date, isChecked, userId})],
    the id assigned by the store. *)
Definition create (data : TaskCreateInput) : Handler Task.t :=
  title <- string_arg (create_title data);;
  date <- string_arg (create_date data);;
  isChecked <- boolean_arg (create_isChecked data);;
  w <- get_world;;
  let row := Task.mk (task_seq w) (create_userId data) title date isChecked in
  put_world (set_task_seq (task_seq w + 1) (set_tasks <[task_seq w := row]> w));;
  ret row.

(** Modelled from the spec: [task.findById(id) -> Task | none], written
    [findUnique({ where: { id } })]. *)
Definition findUnique (id : option Z) : Handler (option Task.t) :=
  i <- int_arg id;;
  w <- get_world;;
  ret (tasks w !! i).

(** Modelled from the spec: [task.update(id, partialFields) -> Task]: a
    field absent from [data] keeps its value. *)
Definition update (id : option Z) (data : TaskUpdateInput) : Handler Task.t :=
  i <- int_arg id;;
  title <- optional string_arg (update_title data);;
  date <- optional string_arg (update_date data);;
  isChecked <- optional boolean_arg (update_isChecked data);;
  w <- get_world;;
  match tasks w !! i with
  | None => throw "PrismaClientKnownRequestError: P2025"
  | Some row =>
      let row' := Task.mk (Task.id row) (Task.userId row)
                    (default (Task.title row) title)
                    (default (Task.date row) date)
                    (default (Task.isChecked row) isChecked) in
      put_world (set_tasks <[i := row']> w);;
      ret row'
  end.

(** Modelled from the spec: [task.findMany({userId, date?, ...})], on the
    client of the SQLite database src/README.md names.  That client's
    string filters take no [mode]: a [where] whose title filter carries
    one is refused as any ill-typed argument is, before the table is
    read. *)
Definition findMany (where_ : TaskWhereInput) : Handler (list Task.t) :=
  match title where_ with
  | Some _ => throw "PrismaClientValidationError"
  | None =>
      w <- get_world;;
      ret (filter (fun row => task_matches where_ row) (rows (tasks w)))
  end.

End task.

End prisma.

(** *** Elysia: schemas and routes *)

Inductive t_Schema :=
| t_String
| t_Boolean
| t_File (type : list string) (maxSize : Z)
| t_Optional (s : t_Schema).

(** Modelled from the spec: the check Elysia runs for a declared schema.
    Section 4.5: a file is accepted when its content type is on the
    allow-list and its size does not exceed the maximum. *)
Fixpoint t_check (s : t_Schema) (v : jsval) : bool :=
  match s, v with
  | t_String, JStr _ => true
  | t_Boolean, JBool _ => true
  | t_File type maxSize, JFile f =>
      bool_decide (File.type f ∈ type) && (File.size f <=? maxSize)
  | t_Optional _, JUndefined => true
  | t_Optional s', _ => t_check s' v
  | _, _ => false
  end.

(** [t.Object({ k: schema, ... })] *)
Definition t_Object := list (string * t_Schema).

Definition t_validate (o : t_Object) (b : jsobj) : bool :=
  forallb (fun '(k, s) => t_check s (prop b k)) o.

(** The options object of a route: the schemas of the parts it declares. *)
Record RouteSchema := mkRouteSchema
  { body_schema : option t_Object;
    query_schema : option t_Object;
    params_schema : option t_Object }.

Definition valid_request (sch : RouteSchema) (ctx : Context) : bool :=
  from_option (fun o => t_validate o (body ctx)) true (body_schema sch)
  && from_option (fun o => t_validate o (JStr <$> query ctx)) true (query_schema sch)
  && from_option (fun o => t_validate o (JStr <$> params ctx)) true (params_schema sch).

(** Modelled from the spec: a request is validated once at the boundary,
    before the handler runs (sections 4.5 and 9); a request that fails its
    schema is answered by the framework, with status 422, and the handler
    is not called. *)
Definition route (sch : RouteSchema) (handler : Context -> Handler Response)
  (ctx : Context) (e : Env) (w : World) : Response * World :=
  if valid_request sch ctx then respond (handler ctx) e w
  else (status 422 BInvalid, w).

(** ** The service *)

Definition JWT_SECRET : string := "supersecretkey".

(** [getUserFromToken], the same text in both files. *)
Definition getUserFromToken `{jwt.Codec} (token : option string)
  : Handler (option JwtUserPayload.t) :=
  match token with
  | None => ret None
  | Some token =>
      if negb (truthy (JStr token)) then ret None
      else
        try_catch
          (decoded <- jwt.verify token JWT_SECRET;; ret (Some decoded))
          (ret None)
  end.

(** [if (q)] on a query parameter. *)
Definition given (q : option string) : bool :=
  match q with
  | Some s => truthy (JStr s)
  | None => false
  end.

(** [file.name] where [file] may be any value of a multipart field. *)
Definition name_of (file : jsval) : jsval :=
  match file with
  | JFile f => JStr (File.name f)
  | _ => JUndefined
  end.

(** The protected routes both variants serve. *)
Inductive Route :=
| POST_tasks
| GET_tasks
| PATCH_tasks_id
| GET_profile
| POST_profile_image.

(** The route options, the same in both files up to the encoding of the
    response schema, which no handler output violates. *)
Definition post_tasks_schema : RouteSchema :=
  mkRouteSchema
    (Some [("title", t_String); ("date", t_String); ("isChecked", t_Boolean)])
    None None.

Definition get_tasks_schema : RouteSchema :=
  mkRouteSchema None
    (Some [("date", t_Optional t_String); ("search", t_Optional t_String)])
    None.

Definition patch_tasks_schema : RouteSchema :=
  mkRouteSchema
    (Some [("title", t_Optional t_String); ("date", t_Optional t_String);
           ("isChecked", t_Optional t_Boolean)])
    None
    (Some [("id", t_String)]).

Definition get_profile_schema : RouteSchema := mkRouteSchema None None None.

Definition post_profile_image_schema : RouteSchema :=
  mkRouteSchema
    (Some [("image", t_File ["image/jpeg"; "image/png"; "image/gif"]
                            (5 * 1024 * 1024))])
    None None.

Definition register_schema : RouteSchema :=
  mkRouteSchema (Some [("email", t_String); ("password", t_String)]) None None.

Definition schema_of (r : Route) : RouteSchema :=
  match r with
  | POST_tasks => post_tasks_schema
  | GET_tasks => get_tasks_schema
  | PATCH_tasks_id => patch_tasks_schema
  | GET_profile => get_profile_schema
  | POST_profile_image => post_profile_image_schema
  end.

(** *** src/src/index.ts *)

Module Index.
Section Handlers.
Context `{jwt.Codec, Ecma, NodePath}.

Definition post_tasks (ctx : Context) : Handler Response :=
  let authHeader := headers ctx !! "authorization" in
  let token := authHeader ≫= (fun h => split " " h !! 1%nat) in
  userPayload <- getUserFromToken token;;
  match userPayload with
  | None => reply (status 401 (BError "Unauthorized"))
  | Some userPayload =>
      let title := prop (body ctx) "title" in
      let date := prop (body ctx) "date" in
      let isChecked := prop (body ctx) "isChecked" in
      return_if (negb (truthy title) || negb (truthy date)
                 || negb (is_boolean isChecked))
                (status 400 (BError "Invalid task data"));;
      task <- prisma.task.create
                (prisma.mkTaskCreateInput title date isChecked
                   (JwtUserPayload.id userPayload));;
      ret (ok (BTask task))
  end.

Definition get_tasks (ctx : Context) : Handler Response :=
  let authHeader := headers ctx !! "authorization" in
  let token := authHeader ≫= (fun h => split " " h !! 1%nat) in
  userPayload <- getUserFromToken token;;
  match userPayload with
  | None => reply (status 401 (BError "Unauthorized"))
  | Some userPayload =>
      let date := query ctx !! "date" in
      let search := query ctx !! "search" in
      let where_ :=
        prisma.mkTaskWhereInput (JwtUserPayload.id userPayload)
          (if given date then date else None)
          (if given search
           then (fun s => prisma.mkStringFilter s prisma.insensitive) <$> search
           else None) in
      tasks <- prisma.task.findMany where_;;
      ret (ok (BTasks tasks))
  end.

Definition patch_tasks (ctx : Context) : Handler Response :=
  let authHeader := headers ctx !! "authorization" in
  let token := authHeader ≫= (fun h => split " " h !! 1%nat) in
  userPayload <- getUserFromToken token;;
  match userPayload with
  | None => reply (status 401 (BError "Unauthorized"))
  | Some userPayload =>
      let id := Number (params ctx !! "id") in
      task <- prisma.task.findUnique id;;
      return_if
        (match task with
         | None => true
         | Some task =>
             bool_decide (Task.userId task <> JwtUserPayload.id userPayload)
         end)
        (status 404 (BError "Task not found"));;
      let title := prop (body ctx) "title" in
      let date := prop (body ctx) "date" in
      let isChecked := prop (body ctx) "isChecked" in
      updated <- prisma.task.update id
                   (prisma.mkTaskUpdateInput
                      (if defined title then Some title else None)
                      (if defined date then Some date else None)
                      (if defined isChecked then Some isChecked else None));;
      ret (ok (BTask updated))
  end.

Definition get_profile (ctx : Context) : Handler Response :=
  let authHeader := headers ctx !! "authorization" in
  let token := authHeader ≫= (fun h => split " " h !! 1%nat) in
  userPayload <- getUserFromToken token;;
  match userPayload with
  | None => reply (status 401 (BError "Unauthorized"))
  | Some userPayload =>
      user <- prisma.user.findUnique_id_include_tasks
                (JwtUserPayload.id userPayload);;
      match user with
      | None => reply (status 404 (BError "User not found"))
      | Some (user, user_tasks) =>
          let total := Z.of_nat (length user_tasks) in
          let completed :=
            Z.of_nat (length (filter (fun task => Task.isChecked task) user_tasks)) in
          ret (ok (BProfile (User.email user) (User.image user) total completed))
      end
  end.

Definition post_profile_image (ctx : Context) : Handler Response :=
  let authHeader := headers ctx !! "authorization" in
  let token := authHeader ≫= (fun h => split " " h !! 1%nat) in
  userPayload <- getUserFromToken token;;
  match userPayload with
  | None => reply (status 401 (BError "Unauthorized"))
  | Some userPayload =>
      let file := prop (body ctx) "image" in
      return_if (negb (truthy file) || negb (truthy (name_of file)))
                (status 400 (BError "No image file uploaded"));;
      match file with
      | JFile file =>
          let uploadsDir := "uploads" in
          try_catch (fs.mkdir uploadsDir) (ret tt);;
          let ext := extname (File.name file) in
          timestamp <- Date_now;;
          let filename :=
            "user_" +:+ pretty (JwtUserPayload.id userPayload) +:+ "_"
            +:+ pretty timestamp +:+ ext in
          let filepath := uploadsDir +:+ "/" +:+ filename in
          fs.writeFile filepath (File.bytes file);;
          let relativePath := "uploads/" +:+ filename in
          prisma.user.update_image (JwtUserPayload.id userPayload) relativePath;;
          ret (ok (BImage "Image updated" relativePath))
      | _ => throw "TypeError"
      end
  end.

Definition handler_of (r : Route) : Context -> Handler Response :=
  match r with
  | POST_tasks => post_tasks
  | GET_tasks => get_tasks
  | PATCH_tasks_id => patch_tasks
  | GET_profile => get_profile
  | POST_profile_image => post_profile_image
  end.

(** The application: each route validated against its schema, then
    handled. *)
Definition app (r : Route) : Context -> Env -> World -> Response * World :=
  route (schema_of r) (handler_of r).

End Handlers.
End Index.

(** *** src/unnamed/part_000 *)

Module Part000.
Section Handlers.
Context `{jwt.Codec, Ecma, NodePath}.

Definition post_tasks (ctx : Context) : Handler Response :=
  let authHeader := headers ctx !! "authorization" in
  let token := authHeader ≫= (fun h => split " " h !! 1%nat) in
  userPayload <- getUserFromToken token;;
  match userPayload with
  | None => reply (ok (BError "Unauthorized"))
  | Some userPayload =>
      let title := prop (body ctx) "title" in
      let date := prop (body ctx) "date" in
      let isChecked := prop (body ctx) "isChecked" in
      return_if (negb (truthy title) || negb (truthy date)
                 || negb (is_boolean isChecked))
                (ok (BError "Invalid task data"));;
      task <- prisma.task.create
                (prisma.mkTaskCreateInput title date isChecked
                   (JwtUserPayload.id userPayload));;
      ret (ok (BTask task))
  end.

Definition get_tasks (ctx : Context) : Handler Response :=
  let authHeader := headers ctx !! "authorization" in
  let token := authHeader ≫= (fun h => split " " h !! 1%nat) in
  userPayload <- getUserFromToken token;;
  match userPayload with
  | None => reply (ok (BError "Unauthorized"))
  | Some userPayload =>
      let date := query ctx !! "date" in
      let search := query ctx !! "search" in
      let where_ :=
        prisma.mkTaskWhereInput (JwtUserPayload.id userPayload)
          (if given date then date else None)
          (if given search
           then (fun s => prisma.mkStringFilter s prisma.insensitive) <$> search
           else None) in
      tasks <- prisma.task.findMany where_;;
      ret (ok (BTasks tasks))
  end.

Definition patch_tasks (ctx : Context) : Handler Response :=
  let authHeader := headers ctx !! "authorization" in
  let token := authHeader ≫= (fun h => split " " h !! 1%nat) in
  userPayload <- getUserFromToken token;;
  match userPayload with
  | None => reply (ok (BError "Unauthorized"))
  | Some userPayload =>
      let id := Number (params ctx !! "id") in
      task <- prisma.task.findUnique id;;
      return_if
        (match task with
         | None => true
         | Some task =>
             bool_decide (Task.userId task <> JwtUserPayload.id userPayload)
         end)
        (ok (BError "Task not found"));;
      let title := prop (body ctx) "title" in
      let date := prop (body ctx) "date" in
      let isChecked := prop (body ctx) "isChecked" in
      updated <- prisma.task.update id
                   (prisma.mkTaskUpdateInput
                      (if defined title then Some title else None)
                      (if defined date then Some date else None)
                      (if defined isChecked then Some isChecked else None));;
      ret (ok (BTask updated))
  end.

Definition get_profile (ctx : Context) : Handler Response :=
  let authHeader := headers ctx !! "authorization" in
  let token := authHeader ≫= (fun h => split " " h !! 1%nat) in
  userPayload <- getUserFromToken token;;
  match userPayload with
  | None => reply (ok (BError "Unauthorized"))
  | Some userPayload =>
      user <- prisma.user.findUnique_id_include_tasks
                (JwtUserPayload.id userPayload);;
      match user with
      | None => reply (ok (BError "User not found"))
      | Some (user, user_tasks) =>
          let total := Z.of_nat (length user_tasks) in
          let completed :=
            Z.of_nat (length (filter (fun task => Task.isChecked task) user_tasks)) in
          ret (ok (BProfile (User.email user) (User.image user) total completed))
      end
  end.

Definition post_profile_image (ctx : Context) : Handler Response :=
  let authHeader := headers ctx !! "authorization" in
  let token := authHeader ≫= (fun h => split " " h !! 1%nat) in
  userPayload <- getUserFromToken token;;
  match userPayload with
  | None => reply (ok (BError "Unauthorized"))
  | Some userPayload =>
      let file := prop (body ctx) "image" in
      return_if (negb (truthy file) || negb (truthy (name_of file)))
                (ok (BError "No image file uploaded"));;
      match file with
      | JFile file =>
          let uploadsDir := "uploads" in
          try_catch (fs.mkdir uploadsDir) (ret tt);;
          let ext := extname (File.name file) in
          timestamp <- Date_now;;
          let filename :=
            "user_" +:+ pretty (JwtUserPayload.id userPayload) +:+ "_"
            +:+ pretty timestamp +:+ ext in
          let filepath := uploadsDir +:+ "/" +:+ filename in
          fs.writeFile filepath (File.bytes file);;
          let relativePath := "uploads/" +:+ filename in
          prisma.user.update_image (JwtUserPayload.id userPayload) relativePath;;
          ret (ok (BImage "Image updated" relativePath))
      | _ => throw "TypeError"
      end
  end.

Definition register `{bcrypt.Digest} (ctx : Context) : Handler Response :=
  let email := prop (body ctx) "email" in
  let password := prop (body ctx) "password" in
  return_if (negb (truthy email) || negb (truthy password))
            (ok (BError "Email and password required"));;
  existing <- prisma.user.findUnique_email email;;
  return_if (bool_decide (is_Some existing)) (ok (BError "User exists"));;
  hashedPassword <- bcrypt.hash password 10;;
  prisma.user.create email hashedPassword "";;
  ret (ok (BMessage "Registered successfully")).

Definition app_register `{bcrypt.Digest}
  : Context -> Env -> World -> Response * World :=
  route register_schema register.

Definition handler_of (r : Route) : Context -> Handler Response :=
  match r with
  | POST_tasks => post_tasks
  | GET_tasks => get_tasks
  | PATCH_tasks_id => patch_tasks
  | GET_profile => get_profile
  | POST_profile_image => post_profile_image
  end.

(** The application: each route validated against its schema, then
    handled. *)
Definition app (r : Route) : Context -> Env -> World -> Response * World :=
  route (schema_of r) (handler_of r).

End Handlers.
End Part000.


(** *** POST /login, in both files *)

(** Modelled from the spec: the issuing side of the jsonwebtoken package,
    which is not among the sources.  Section 4.2: [issue] produces a
    signed, self-contained token string; [compact] stands for the compact
    serialisation, which [jwt.parse] reads back, and a token is never the
    empty string. *)
Class Issuer `{jwt.Codec} := mkIssuer
  { compact : jwt.Claims -> string -> string;
    parse_compact : forall claims signature,
        jwt.parse (compact claims signature) = Some (claims, signature);
    compact_not_empty : forall claims signature, compact claims signature <> "" }.

(** Modelled from the spec: [jwt.sign(payload, secret, { expiresIn })],
    with [expiresIn] in seconds.  Section 4.2: the token carries the
    payload, an issued-at time and an expiry of issued-at plus the time to
    live, and is signed with the secret. *)
Definition jwt_sign `{Issuer} (payload : JwtUserPayload.t)
  (secretOrPrivateKey : string) (expiresIn : Z) : Handler string :=
  timestamp <- Date_now;;
  let iat := timestamp / 1000 in
  let claims :=
    jwt.mkClaims (JwtUserPayload.id payload) (JwtUserPayload.email payload)
                 iat (iat + expiresIn) in
  ret (compact claims (jwt.mac secretOrPrivateKey claims)).

(** [expiresIn: '7d'] and [expiresIn: '1h'], in seconds. *)
Definition span_7d : Z := 7 * 24 * 60 * 60.
Definition span_1h : Z := 60 * 60.

(** Modelled from the spec: [bcrypt.compare] of the bcryptjs package.
    Section 4.1: [verify(plaintext, digest)] recomputes with the embedded
    salt; section 8: it accepts the plaintext a digest was made from. *)
Class Comparer `{bcrypt.Digest} := mkComparer
  { compare : string -> string -> bool;
    compare_digest : forall plaintext rounds salt,
        compare plaintext (bcrypt.digest plaintext rounds salt) = true }.

(** [bcrypt.compare(s, hash)]; anything but a string is an illegal
    argument. *)
Definition bcrypt_compare `{Comparer} (s : jsval) (hash : string) : Handler bool :=
  match s with
  | JStr plaintext => ret (compare plaintext hash)
  | _ => throw "Error: Illegal arguments"
  end.

(** What POST /login sends: [{token}] under 200, or a refusal. *)
Inductive LoginAnswer :=
| Token (token : string)
| Refused (r : Response).

Definition answer_login (h : Handler string) (e : Env) (w : World)
  : LoginAnswer * World :=
  match h e w with
  | (Next token, w') => (Token token, w')
  | (Return r, w') => (Refused r, w')
  | (Throw x, w') => (Refused (status 500 (BFailure x)), w')
  end.

Definition login_schema : RouteSchema :=
  mkRouteSchema (Some [("email", t_String); ("password", t_String)]) None None.

Definition login_route (handler : Context -> Handler string)
  (ctx : Context) (e : Env) (w : World) : LoginAnswer * World :=
  if valid_request login_schema ctx then answer_login (handler ctx) e w
  else (Refused (status 422 BInvalid), w).

Section LoginHandlers.
Context `{jwt.Codec, bcrypt.Digest, !Issuer, !Comparer}.

(** POST /login of src/src/index.ts. *)
Definition index_login (ctx : Context) : Handler string :=
  let email := prop (body ctx) "email" in
  let password := prop (body ctx) "password" in
  return_if (negb (truthy email) || negb (truthy password))
            (status 400 (BError "Email and password required"));;
  existingUser <- prisma.user.findUnique_email email;;
  match existingUser with
  | None =>
      hashedPassword <- bcrypt.hash password 10;;
      newUser <- prisma.user.create email hashedPassword "";;
      token <- jwt_sign (JwtUserPayload.mk (User.id newUser) (User.email newUser))
                        JWT_SECRET span_7d;;
      ret token
  | Some existingUser =>
      valid <- bcrypt_compare password (User.password existingUser);;
      return_if (negb valid) (status 400 (BError "Invalid credentials"));;
      token <- jwt_sign (JwtUserPayload.mk (User.id existingUser)
                                           (User.email existingUser))
                        JWT_SECRET span_7d;;
      ret token
  end.

(** POST /login of src/unnamed/part_000. *)
Definition part000_login (ctx : Context) : Handler string :=
  let email := prop (body ctx) "email" in
  let password := prop (body ctx) "password" in
  user <- prisma.user.findUnique_email email;;
  match user with
  | None => reply (ok (BError "Invalid credentials"))
  | Some user =>
      valid <- bcrypt_compare password (User.password user);;
      return_if (negb valid) (ok (BError "Invalid credentials"));;
      token <- jwt_sign (JwtUserPayload.mk (User.id user) (User.email user))
                        JWT_SECRET span_1h;;
      ret token
  end.

Definition index_login_app : Context -> Env -> World -> LoginAnswer * World :=
  login_route index_login.

Definition part000_login_app : Context -> Env -> World -> LoginAnswer * World :=
  login_route part000_login.

(** The token [jwt_sign] makes for a user at time [now e]. *)
Definition token_for (user : User.t) (e : Env) (expiresIn : Z) : string :=
  let iat := now e / 1000 in
  let claims := jwt.mkClaims (User.id user) (User.email user) iat (iat + expiresIn) in
  compact claims (jwt.mac JWT_SECRET claims).

End LoginHandlers.

(** ** Reading a request *)

(** The token the handlers pass to [getUserFromToken]:
    [headers['authorization']?.split(' ')[1]]. *)
Definition bearer (ctx : Context) : option string :=
  headers ctx !! "authorization" ≫= (fun h => split " " h !! 1%nat).

(** The identity a token stands for at time [now e]: the token is there
    and not empty, it parses, its signature is the one [JWT_SECRET] gives
    its claims, and its expiry lies strictly ahead. *)
Definition verified `{jwt.Codec} (e : Env) (token : option string)
  : option JwtUserPayload.t :=
  match token with
  | None => None
  | Some token =>
      if decide (token = "") then None
      else match jwt.parse token with
           | None => None
           | Some (claims, signature) =>
               if decide (signature = jwt.mac JWT_SECRET claims
                          /\ now e / 1000 < jwt.exp claims)
               then Some (JwtUserPayload.mk (jwt.id claims) (jwt.email claims))
               else None
           end
  end.

Definition caller `{jwt.Codec} (e : Env) (ctx : Context)
  : option JwtUserPayload.t :=
  verified e (bearer ctx).

(** ** Concrete collaborators, for evaluating the handlers *)

Module Fixture.

(** Two tokens: user 1 until second 2000, user 2 until second 3000, both
    signed; a third with the claims of user 1 and a wrong signature. *)
Definition parse (token : string) : option (jwt.Claims * string) :=
  if decide (token = "t1") then Some (jwt.mkClaims 1 "a@example.com" 1000 2000, "mac")
  else if decide (token = "t2") then Some (jwt.mkClaims 2 "b@example.com" 1000 3000, "mac")
  else if decide (token = "t1x") then Some (jwt.mkClaims 1 "a@example.com" 1000 2000, "forged")
  else None.

Definition mac (secret : string) (claims : jwt.Claims) : string :=
  if decide (secret = JWT_SECRET) then "mac" else "other".

Definition codec : jwt.Codec := jwt.mkCodec parse mac.

(** [Number] on strings of decimal digits; any other string counts as
    [NaN] here. *)
Fixpoint digits (s : string) (acc : Z) : option Z :=
  match s with
  | EmptyString => Some acc
  | String c s' =>
      let n := Z.of_nat (nat_of_ascii c) in
      if (48 <=? n) && (n <=? 57) then digits s' (10 * acc + (n - 48)) else None
  end.

Definition ecma : Ecma := mkEcma (fun s => digits s 0).

(** [path.extname] on plain file names: from the last dot on. *)
Fixpoint from_last_dot (s : string) : option string :=
  match s with
  | EmptyString => None
  | String c s' =>
      match from_last_dot s' with
      | Some ext => Some ext
      | None => if decide (c = "."%char) then Some s else None
      end
  end.

Definition nodepath : NodePath := mkNodePath (fun s => default "" (from_last_dot s)).

Definition digest (plaintext : string) (rounds : Z) (salt : string) : string :=
  String "$" (plaintext +:+ salt).

Lemma length_append (s1 s2 : string) :
  String.length (s1 +:+ s2) = (String.length s1 + String.length s2)%nat.
Proof.
  induction s1 as [|c s1 IH]; [reflexivity|].
  change (String c s1 +:+ s2) with (String c (s1 +:+ s2)).
  cbn [String.length]. now rewrite IH.
Qed.

Lemma digest_differs (plaintext : string) (rounds : Z) (salt : string) :
  digest plaintext rounds salt <> plaintext.
Proof.
  unfold digest. intros Heq.
  apply (f_equal String.length) in Heq. cbn [String.length] in Heq.
  rewrite length_append in Heq. lia.
Qed.

Definition bcrypt : bcrypt.Digest := bcrypt.mkDigest digest digest_differs.

(** Users 1 and 2; task 1 of user 1, task 2 of user 2, alike in title and
    date. *)
Definition alice : User.t := User.mk 1 "a@example.com" "$secret1" "".
Definition bob : User.t := User.mk 2 "b@example.com" "$secret2" "".
Definition task1 : Task.t := Task.mk 1 1 "t" "2024-01-01" false.
Definition task2 : Task.t := Task.mk 2 2 "t" "2024-01-01" false.

Definition world : World :=
  mkWorld (<[1 := alice]> (<[2 := bob]> ∅)) 3
          (<[1 := task1]> (<[2 := task2]> ∅)) 3 ∅ ∅.

(** The same without task 2. *)
Definition world_without_task2 : World :=
  mkWorld (<[1 := alice]> (<[2 := bob]> ∅)) 3 (<[1 := task1]> ∅) 3 ∅ ∅.

(** User 1 with three tasks, two of them checked; one task of user 2. *)
Definition world_three_tasks : World :=
  mkWorld (<[1 := alice]> (<[2 := bob]> ∅)) 3
          (<[1 := Task.mk 1 1 "a" "2024-01-01" true]>
             (<[2 := Task.mk 2 1 "b" "2024-01-02" true]>
                (<[3 := Task.mk 3 1 "c" "2024-01-03" false]>
                   (<[4 := Task.mk 4 2 "d" "2024-01-04" true]> ∅)))) 5 ∅ ∅.

(** Second 1500 on the clock: both tokens are within their lifetime. *)
Definition env : Env := mkEnv 1500000 "salt".

Definition authorization (token : string) : gmap string string :=
  {[ "authorization" := "Bearer " +:+ token ]}.

Definition user1 : JwtUserPayload.t := JwtUserPayload.mk 1 "a@example.com".

(** Requests of user 1. *)
Definition patch_check (id : string) : Context :=
  mkContext (authorization "t1") {[ "isChecked" := JBool true ]} ∅
            {[ "id" := id ]}.

Definition list_with (q : gmap string string) : Context :=
  mkContext (authorization "t1") ∅ q ∅.

Definition create_with (b : jsobj) : Context :=
  mkContext (authorization "t1") b ∅ ∅.

Definition profile : Context := mkContext (authorization "t1") ∅ ∅ ∅.

Definition upload (f : File.t) : Context :=
  mkContext (authorization "t1") {[ "image" := JFile f ]} ∅ ∅.

(** Requests that carry no token. *)
Definition anonymous (b : jsobj) : Context := mkContext ∅ b ∅ ∅.

Definition registration (email password : string) : Context :=
  anonymous {[ "email" := JStr email; "password" := JStr password ]}.

End Fixture.

(** ** Concrete collaborators for login *)

Module Scenario.

(** A token codec that can issue: numbers in unary, strings behind their
    length. *)
Fixpoint tally (n : nat) (rest : string) : string :=
  match n with
  | O => String "." rest
  | S n' => String "1" (tally n' rest)
  end.

Fixpoint untally (s : string) : option (nat * string) :=
  match s with
  | EmptyString => None
  | String c s' =>
      if decide (c = "1"%char) then
        (fun '(n, rest) => (S n, rest)) <$> untally s'
      else if decide (c = "."%char) then Some (O, s')
      else None
  end.

Fixpoint cut (n : nat) (s : string) : option (string * string) :=
  match n with
  | O => Some ("", s)
  | S n' =>
      match s with
      | EmptyString => None
      | String c s' => (fun '(a, rest) => (String c a, rest)) <$> cut n' s'
      end
  end.

Definition put_Z (z : Z) (rest : string) : string :=
  tally (if z <? 0 then 1 else 0) (tally (Z.abs_nat z) rest).

Definition get_Z (s : string) : option (Z * string) :=
  '(sign, s1) ← untally s;
  '(magnitude, s2) ← untally s1;
  Some (match sign with
        | O => Z.of_nat magnitude
        | S _ => - Z.of_nat magnitude
        end, s2).

Definition put_string (s rest : string) : string :=
  tally (String.length s) (s +:+ rest).

Definition get_string (s : string) : option (string * string) :=
  '(n, s1) ← untally s; cut n s1.

Definition compact (claims : jwt.Claims) (signature : string) : string :=
  put_Z (jwt.id claims)
    (put_string (jwt.email claims)
       (put_Z (jwt.iat claims)
          (put_Z (jwt.exp claims) (put_string signature "")))).

Definition parse (token : string) : option (jwt.Claims * string) :=
  '(id, s1) ← get_Z token;
  '(email, s2) ← get_string s1;
  '(iat, s3) ← get_Z s2;
  '(exp, s4) ← get_Z s3;
  '(signature, _) ← get_string s4;
  Some (jwt.mkClaims id email iat exp, signature).

Definition mac (secret : string) (claims : jwt.Claims) : string :=
  "mac:" +:+ secret.

Definition codec : jwt.Codec := jwt.mkCodec parse mac.

Lemma untally_tally (n : nat) (rest : string) :
  untally (tally n rest) = Some (n, rest).
Proof. induction n as [|n IH]; [reflexivity|]. cbn. now rewrite IH. Qed.

Lemma cut_append (s rest : string) :
  cut (String.length s) (s +:+ rest) = Some (s, rest).
Proof.
  induction s as [|c s IH]; [reflexivity|].
  change (String c s +:+ rest) with (String c (s +:+ rest)). cbn.
  now rewrite IH.
Qed.

Lemma get_put_Z (z : Z) (rest : string) : get_Z (put_Z z rest) = Some (z, rest).
Proof.
  unfold get_Z, put_Z. rewrite untally_tally. cbn. rewrite untally_tally. cbn.
  destruct (Z.ltb_spec z 0); do 2 f_equal; lia.
Qed.

Lemma get_put_string (s rest : string) :
  get_string (put_string s rest) = Some (s, rest).
Proof.
  unfold get_string, put_string. rewrite untally_tally. cbn. apply cut_append.
Qed.

#[local] Arguments put_Z : simpl never.
#[local] Arguments get_Z : simpl never.
#[local] Arguments put_string : simpl never.
#[local] Arguments get_string : simpl never.

Lemma parse_compact (claims : jwt.Claims) (signature : string) :
  parse (compact claims signature) = Some (claims, signature).
Proof.
  unfold parse, compact. destruct claims as [id email iat exp]. cbn.
  rewrite get_put_Z. cbn. rewrite get_put_string. cbn.
  rewrite get_put_Z. cbn. rewrite get_put_Z. cbn.
  now rewrite get_put_string.
Qed.

Lemma compact_not_empty (claims : jwt.Claims) (signature : string) :
  compact claims signature <> "".
Proof. unfold compact, put_Z. now destruct (jwt.id claims <? 0). Qed.

Definition issuer : @Issuer codec :=
  @mkIssuer codec compact parse_compact compact_not_empty.

(** A digest is accepted for the plaintext it starts with. *)
Definition compare (plaintext hash : string) : bool :=
  String.prefix (String "$" plaintext) hash.

Lemma prefix_append (s rest : string) : String.prefix s (s +:+ rest) = true.
Proof.
  induction s as [|c s IH]; [now destruct rest|].
  change (String c s +:+ rest) with (String c (s +:+ rest)). cbn [String.prefix].
  destruct (ascii_dec c c); [exact IH | congruence].
Qed.

Lemma compare_digest (plaintext : string) (rounds : Z) (salt : string) :
  compare plaintext (Fixture.digest plaintext rounds salt) = true.
Proof.
  unfold compare, Fixture.digest.
  apply (prefix_append (String "$" plaintext) salt).
Qed.

Definition comparer : @Comparer Fixture.bcrypt :=
  @mkComparer Fixture.bcrypt compare compare_digest.

(** The fixture world after user 1 was removed behind the service's
    back. *)
Definition world_without_user1 : World :=
  mkWorld (<[2 := Fixture.bob]> ∅) 3 (tasks Fixture.world) 3 ∅ ∅.

(** A login of user 1, whose stored digest belongs to ["secret1"]. *)
Definition login (email password : string) : Context :=
  Fixture.anonymous {[ "email" := JStr email; "password" := JStr password ]}.

Definition index_login_app : Context -> Env -> World -> LoginAnswer * World :=
  @index_login_app codec Fixture.bcrypt issuer comparer.

Definition part000_login_app : Context -> Env -> World -> LoginAnswer * World :=
  @part000_login_app codec Fixture.bcrypt issuer comparer.

Definition token_for : User.t -> Env -> Z -> string := @token_for codec issuer.

(** A later moment, with other entropy. *)
Definition later : Env := mkEnv 1600000 "pepper".

Definition png : File.t := File.mk "me.png" "image/png" 5 "bytes".
Definition png' : File.t := File.mk "you.png" "image/png" 7 "more bytes".

Definition complete_task (title date : string) (isChecked : bool) : jsobj :=
  {[ "title" := JStr title; "date" := JStr date; "isChecked" := JBool isChecked ]}.

End Scenario.


(** ** Vocabulary of the properties *)

(** The task a partial update leaves behind: a field the body carries
    takes the body's value, any other keeps its own. *)
Definition merged (task : Task.t) (b : jsobj) : Task.t :=
  Task.mk (Task.id task) (Task.userId task)
    (match prop b "title" with JStr s => s | _ => Task.title task end)
    (match prop b "date" with JStr s => s | _ => Task.date task end)
    (match prop b "isChecked" with JBool c => c | _ => Task.isChecked task end).

(** What GET /tasks promises about a row, as the specification words it: any date
    filter that is present must match. *)
Definition listed_as_claimed
  (w : World) (u : JwtUserPayload.t) (ctx : Context) (row : Task.t) : Prop :=
  (exists i, tasks w !! i = Some row) /\
  Task.userId row = JwtUserPayload.id u /\
  (forall d, query ctx !! "date" = Some d -> Task.date row = d) /\
  (forall s, query ctx !! "search" = Some s ->
             exists pre post, lower (Task.title row) = pre +:+ lower s +:+ post).

(** What a listing without a search term selects: the caller's rows, with
    an empty date filter counting as none. *)
Definition listed
  (w : World) (u : JwtUserPayload.t) (ctx : Context) (row : Task.t) : Prop :=
  (exists i, tasks w !! i = Some row) /\
  Task.userId row = JwtUserPayload.id u /\
  (forall d, query ctx !! "date" = Some d -> d <> "" -> Task.date row = d).

(** How part_000 encodes an answer of index.ts: an [{error}] body sent
    under 400, 401 or 404 goes out under 200; anything else as it is. *)
Definition flatten (r : Response) : Response :=
  match payload r with
  | BError _ => if bool_decide (code r ∈ [400; 401; 404]) then ok (payload r) else r
  | _ => r
  end.

Definition flatten_return {A} (s : Step A * World) : Step A * World :=
  match s with
  | (Return r, w) => (Return (flatten r), w)
  | _ => s
  end.

(** A step that never leaves the handler by [return]: every call into a
    collaborator is one. *)
Definition proceeds {A} (m : Handler A) : Prop :=
  forall e w r w', m e w <> (Return r, w').


(** The path an upload is stored under. *)
Definition upload_path `{NodePath} (u : JwtUserPayload.t) (e : Env) (file : File.t)
  : string :=
  "uploads/user_" +:+ pretty (JwtUserPayload.id u) +:+ "_" +:+ pretty (now e)
  +:+ extname (File.name file).

(** The world after an upload has been written, before the user row is
    touched. *)
Definition with_upload `{NodePath} (u : JwtUserPayload.t) (e : Env) (file : File.t)
  (w : World) : World :=
  set_files <[upload_path u e file := File.bytes file]>
    (set_dirs (union {["uploads"]}) w).

Definition with_image (image : string) (user : User.t) : User.t :=
  User.mk (User.id user) (User.email user) (User.password user) image.

Section EffectVocabulary.
Context `{jwt.Codec, Ecma, NodePath}.

(** Every way a request to a protected route can leave the world. *)
Inductive Effect (ctx : Context) (e : Env) (w : World) : Route -> World -> Prop :=
| nothing (r : Route) : Effect ctx e w r w
| task_created (u : JwtUserPayload.t) (title date : string) (isChecked : bool) :
    caller e ctx = Some u ->
    prop (body ctx) "title" = JStr title -> title <> "" ->
    prop (body ctx) "date" = JStr date -> date <> "" ->
    prop (body ctx) "isChecked" = JBool isChecked ->
    Effect ctx e w POST_tasks
      (set_task_seq (task_seq w + 1)
         (set_tasks
            <[task_seq w :=
                Task.mk (task_seq w) (JwtUserPayload.id u) title date isChecked]>
            w))
| task_patched (u : JwtUserPayload.t) (i : Z) (task : Task.t) :
    caller e ctx = Some u ->
    Number (params ctx !! "id") = Some i ->
    tasks w !! i = Some task ->
    Task.userId task = JwtUserPayload.id u ->
    valid_request patch_tasks_schema ctx = true ->
    Effect ctx e w PATCH_tasks_id (set_tasks <[i := merged task (body ctx)]> w)
| file_orphaned (u : JwtUserPayload.t) (file : File.t) :
    caller e ctx = Some u ->
    prop (body ctx) "image" = JFile file ->
    File.name file <> "" ->
    users w !! JwtUserPayload.id u = None ->
    Effect ctx e w POST_profile_image (with_upload u e file w)
| image_replaced (u : JwtUserPayload.t) (file : File.t) (user : User.t) :
    caller e ctx = Some u ->
    prop (body ctx) "image" = JFile file ->
    File.name file <> "" ->
    users w !! JwtUserPayload.id u = Some user ->
    Effect ctx e w POST_profile_image
      (set_users <[JwtUserPayload.id u := with_image (upload_path u e file) user]>
         (with_upload u e file w)).

End EffectVocabulary.

(** The world after a registration that went through. *)
Definition with_user (email password : string) (w : World) : World :=
  set_user_seq (user_seq w + 1)
    (set_users <[user_seq w := User.mk (user_seq w) email password ""]> w).

(** The store's own bookkeeping: a row sits under its id, ids lie below the
    next id to be handed out, and no two users share an email. *)
Definition well_formed (w : World) : Prop :=
  (forall i user, users w !! i = Some user -> User.id user = i /\ i < user_seq w) /\
  (forall i task, tasks w !! i = Some task -> Task.id task = i /\ i < task_seq w) /\
  (forall i j u v, users w !! i = Some u -> users w !! j = Some v ->
                   User.email u = User.email v -> i = j).

(** [c] occurs in [s]. *)
Fixpoint occurs (c : ascii) (s : string) : bool :=
  match s with
  | EmptyString => false
  | String a s' => bool_decide (a = c) || occurs c s'
  end.

(** * Properties *)

(** ** Running a handler *)

Lemma truthy_JStr (s : string) : truthy (JStr s) = bool_decide (s <> "").
Proof.
  simpl. destruct (String.eqb_spec s "") as [->|Hne].
  - rewrite bool_decide_eq_false_2; [reflexivity | intros Hn; now apply Hn].
  - now rewrite bool_decide_eq_true_2.
Qed.

Section Authentication.
Context `{jwt.Codec}.

(** [getUserFromToken] neither throws nor touches the world; its result is
    [verified]. *)
Lemma getUserFromToken_run (token : option string) (e : Env) (w : World) :
  getUserFromToken token e w = (Next (verified e token), w).
Proof.
  unfold getUserFromToken, verified.
  destruct token as [t|]; [|reflexivity].
  rewrite truthy_JStr.
  destruct (decide (t = "")) as [->|Hne]; [reflexivity|].
  rewrite bool_decide_eq_true_2 by assumption. simpl.
  unfold try_catch, bind, jwt.verify, bind, Date_now.
  destruct (jwt.parse t) as [[claims signature]|]; [|reflexivity].
  destruct (decide (signature = jwt.mac JWT_SECRET claims)) as [Hs|Hs].
  - destruct (decide (now e / 1000 < jwt.exp claims)) as [Hx|Hx].
    + rewrite decide_True by (split; assumption). reflexivity.
    + rewrite decide_False by (intros [_ ?]; contradiction). reflexivity.
  - rewrite decide_False by (intros [? _]; contradiction). reflexivity.
Qed.

Lemma verified_Some (e : Env) (token : option string) (u : JwtUserPayload.t) :
  verified e token = Some u <->
  exists t claims signature,
    token = Some t /\ t <> "" /\
    jwt.parse t = Some (claims, signature) /\
    signature = jwt.mac JWT_SECRET claims /\
    now e / 1000 < jwt.exp claims /\
    u = JwtUserPayload.mk (jwt.id claims) (jwt.email claims).
Proof.
  unfold verified. split.
  - destruct token as [t|]; [|discriminate].
    destruct (decide (t = "")); [discriminate|].
    destruct (jwt.parse t) as [[claims signature]|] eqn:Hp; [|discriminate].
    destruct (decide _) as [[Hs Hx]|]; [|discriminate].
    intros [= <-]. exists t, claims, signature. split_and!; auto.
  - intros (t & claims & signature & -> & Hne & -> & Hs & Hx & ->).
    rewrite decide_False by assumption.
    rewrite decide_True by (split; assumption). reflexivity.
Qed.

(** C5.  [getUserFromToken] completes normally on every input and leaves
    the world alone; it yields an identity exactly when the token is
    present, not empty, well formed, signed with [JWT_SECRET] and not yet
    expired, and [null] in every other case; a token whose expiry equals
    the current time is expired. *)
Theorem getUserFromToken_total (token : option string) (e : Env) (w : World) :
  (exists result, getUserFromToken token e w = (Next result, w)) /\
  (forall u,
      getUserFromToken token e w = (Next (Some u), w) <->
      exists t claims signature,
        token = Some t /\ t <> "" /\
        jwt.parse t = Some (claims, signature) /\
        signature = jwt.mac JWT_SECRET claims /\
        now e / 1000 < jwt.exp claims /\
        u = JwtUserPayload.mk (jwt.id claims) (jwt.email claims)) /\
  (forall t claims signature,
      token = Some t ->
      jwt.parse t = Some (claims, signature) ->
      jwt.exp claims = now e / 1000 ->
      getUserFromToken token e w = (Next None, w)).
Proof.
  rewrite getUserFromToken_run. split; [eauto|]. split.
  - intros u. rewrite <- verified_Some. split.
    + intros [= ->]. reflexivity.
    + intros ->. reflexivity.
  - intros t claims signature -> Hp Hx.
    destruct (verified e (Some t)) as [u|] eqn:Hv; [|reflexivity].
    apply verified_Some in Hv
      as (t' & claims' & signature' & [= <-] & _ & Hp' & _ & Hlt & _).
    rewrite Hp in Hp'. injection Hp' as <- <-. lia.
Qed.

End Authentication.

(** The token with expiry 2000 is accepted in the last millisecond before
    second 2000 and refused from second 2000 on. *)
Lemma getUserFromToken_total_witness :
  @getUserFromToken Fixture.codec (Some "t1") (mkEnv 1999999 "") Fixture.world
  = (Next (Some (JwtUserPayload.mk 1 "a@example.com")), Fixture.world)
  /\ @getUserFromToken Fixture.codec (Some "t1") (mkEnv 2000000 "") Fixture.world
     = (Next None, Fixture.world).
Proof.
  split.
  - apply (proj1 (proj2 (@getUserFromToken_total Fixture.codec (Some "t1")
                           (mkEnv 1999999 "") Fixture.world))).
    exists "t1", (jwt.mkClaims 1 "a@example.com" 1000 2000), "mac".
    split; [reflexivity|]. split; [discriminate|]. split; [reflexivity|].
    split; [reflexivity|]. split; reflexivity.
  - apply (proj2 (proj2 (@getUserFromToken_total Fixture.codec (Some "t1")
                           (mkEnv 2000000 "") Fixture.world))
             "t1" (jwt.mkClaims 1 "a@example.com" 1000 2000) "mac");
      reflexivity.
Defined.

(** ** Tables *)

(** The rows of a table are the values stored under its keys. *)
Lemma elem_of_rows {A} (table : gmap Z A) (row : A) :
  row ∈ prisma.rows table <-> exists i, table !! i = Some row.
Proof.
  unfold prisma.rows. rewrite list_elem_of_fmap. split.
  - intros ([i x] & -> & Hin). exists i. now apply elem_of_map_to_list.
  - intros [i Hi]. exists (i, row). split; [reflexivity|].
    now apply elem_of_map_to_list.
Qed.

(** A query string always meets the schema of GET /tasks. *)
Lemma get_tasks_always_valid (ctx : Context) :
  valid_request get_tasks_schema ctx = true.
Proof.
  unfold valid_request, get_tasks_schema, t_validate, prop. cbn.
  rewrite !lookup_fmap.
  destruct (query ctx !! "date"), (query ctx !! "search"); reflexivity.
Qed.

Lemma given_Some (q : option string) :
  given q = true <-> exists s, q = Some s /\ s <> "".
Proof.
  destruct q as [s|]; cbn [given].
  - rewrite truthy_JStr, bool_decide_eq_true. split.
    + intros Hne. now exists s.
    + now intros (? & [= <-] & Hne).
  - split; [discriminate | now intros (? & ? & _)].
Qed.

(** ** Tasks *)

(** Every handler opens with the same three lines; [enter] runs them for a
    request whose caller is known. *)
Lemma run_auth `{jwt.Codec} {A} (token : option string)
  (k : option JwtUserPayload.t -> Handler A) (e : Env) (w : World) :
  bind (getUserFromToken token) k e w = k (verified e token) e w.
Proof. unfold bind. now rewrite getUserFromToken_run. Qed.

Ltac open_route :=
  unfold Index.app, Part000.app, route;
  cbn [schema_of Index.handler_of Part000.handler_of];
  unfold respond,
    Index.post_tasks, Index.get_tasks, Index.patch_tasks, Index.get_profile,
    Index.post_profile_image,
    Part000.post_tasks, Part000.get_tasks, Part000.patch_tasks,
    Part000.get_profile, Part000.post_profile_image;
  rewrite ?run_auth.

Ltac enter Hc :=
  open_route; unfold caller, bearer in Hc; rewrite Hc.

Section Tasks.
Context `{jwt.Codec, Ecma, NodePath}.

(** What the schema of PATCH leaves of the three body fields. *)
Lemma patch_body_fields (ctx : Context) :
  valid_request patch_tasks_schema ctx = true ->
  (prop (body ctx) "title" = JUndefined \/ exists s, prop (body ctx) "title" = JStr s) /\
  (prop (body ctx) "date" = JUndefined \/ exists s, prop (body ctx) "date" = JStr s) /\
  (prop (body ctx) "isChecked" = JUndefined
   \/ exists c, prop (body ctx) "isChecked" = JBool c).
Proof.
  unfold valid_request, patch_tasks_schema. cbn.
  intros Hv.
  repeat (apply andb_prop in Hv as [Hv ?]).
  destruct (prop (body ctx) "title"); try discriminate;
  destruct (prop (body ctx) "date"); try discriminate;
  destruct (prop (body ctx) "isChecked"); try discriminate; eauto 10.
Qed.

(** C1.  For a caller who is authenticated, a PATCH on an id no task has
    and a PATCH on the id of somebody else's task get the same answer, the
    Not-Found one (404 with "Task not found" in index.ts, the same body
    under 200 in part_000), and neither changes the world. *)
Theorem patch_not_found_hides_ownership
  (ctx : Context) (e : Env) (u : JwtUserPayload.t) (i : Z)
  (w_missing w_foreign : World) (task : Task.t) :
  valid_request patch_tasks_schema ctx = true ->
  caller e ctx = Some u ->
  Number (params ctx !! "id") = Some i ->
  tasks w_missing !! i = None ->
  tasks w_foreign !! i = Some task ->
  Task.userId task <> JwtUserPayload.id u ->
  let not_found := status 404 (BError "Task not found") in
  let not_found' := ok (BError "Task not found") in
  Index.app PATCH_tasks_id ctx e w_missing = (not_found, w_missing) /\
  Index.app PATCH_tasks_id ctx e w_foreign = (not_found, w_foreign) /\
  Part000.app PATCH_tasks_id ctx e w_missing = (not_found', w_missing) /\
  Part000.app PATCH_tasks_id ctx e w_foreign = (not_found', w_foreign) /\
  outcome not_found = NotFound /\
  outcome not_found' = NotFound.
Proof.
  intros Hv Hc Hn Hmissing Hforeign Hother.
  split_and!; try reflexivity; enter Hc; rewrite Hv, Hn; cbn;
    rewrite ?Hmissing, ?Hforeign; try reflexivity;
    rewrite bool_decide_eq_true_2 by assumption; reflexivity.
Qed.

(** C3.  A PATCH by the owner stores and returns the task with exactly
    the fields of the body replaced: a field the body lacks keeps its
    value, [id] and [userId] are never touched, and nothing else in the
    world changes. *)
Theorem patch_merges_present_fields
  (ctx : Context) (e : Env) (w : World) (u : JwtUserPayload.t) (i : Z)
  (task : Task.t) :
  valid_request patch_tasks_schema ctx = true ->
  caller e ctx = Some u ->
  Number (params ctx !! "id") = Some i ->
  tasks w !! i = Some task ->
  Task.userId task = JwtUserPayload.id u ->
  let updated := merged task (body ctx) in
  Index.app PATCH_tasks_id ctx e w
  = (ok (BTask updated), set_tasks <[i := updated]> w) /\
  Part000.app PATCH_tasks_id ctx e w
  = (ok (BTask updated), set_tasks <[i := updated]> w) /\
  Task.id updated = Task.id task /\
  Task.userId updated = Task.userId task /\
  (prop (body ctx) "title" = JUndefined /\ Task.title updated = Task.title task
   \/ exists s, prop (body ctx) "title" = JStr s /\ Task.title updated = s) /\
  (prop (body ctx) "date" = JUndefined /\ Task.date updated = Task.date task
   \/ exists s, prop (body ctx) "date" = JStr s /\ Task.date updated = s) /\
  (prop (body ctx) "isChecked" = JUndefined
   /\ Task.isChecked updated = Task.isChecked task
   \/ exists c, prop (body ctx) "isChecked" = JBool c
                /\ Task.isChecked updated = c).
Proof.
  intros Hv Hc Hn Ht Hown updated. subst updated.
  destruct (patch_body_fields ctx Hv) as (Htitle & Hdate & Hchecked).
  unfold merged.
  split_and!; try reflexivity.
  - enter Hc. rewrite Hv, Hn. cbn. rewrite Ht. cbn.
    rewrite bool_decide_eq_false_2 by (intros Hne; now apply Hne). cbn.
    destruct Htitle as [->|[? ->]], Hdate as [->|[? ->]],
      Hchecked as [->|[? ->]];
      unfold prisma.task.update, bind; cbn; rewrite Ht; reflexivity.
  - enter Hc. rewrite Hv, Hn. cbn. rewrite Ht. cbn.
    rewrite bool_decide_eq_false_2 by (intros Hne; now apply Hne). cbn.
    destruct Htitle as [->|[? ->]], Hdate as [->|[? ->]],
      Hchecked as [->|[? ->]];
      unfold prisma.task.update, bind; cbn; rewrite Ht; reflexivity.
  - destruct Htitle as [->|[s ->]]; [left|right; exists s]; auto.
  - destruct Hdate as [->|[s ->]]; [left|right; exists s]; auto.
  - destruct Hchecked as [->|[c ->]]; [left|right; exists c]; auto.
Qed.

(** A query parameter is not given exactly when it is absent or empty. *)
Lemma given_unset (q : option string) :
  given q = false <-> q = None \/ q = Some "".
Proof.
  split; [|now intros [-> | ->]].
  intros Hg. destruct q as [s|]; [right | now left].
  destruct (decide (s = "")) as [->|Hne]; [reflexivity|].
  assert (given (Some s) = true) by (apply given_Some; eauto). congruence.
Qed.

(** The [where] object of a GET /tasks without a search term selects the
    rows [listed]. *)
Lemma task_matches_listed
  (w : World) (u : JwtUserPayload.t) (ctx : Context) (row : Task.t) :
  let date := query ctx !! "date" in
  let where_ :=
    prisma.mkTaskWhereInput (JwtUserPayload.id u)
      (if given date then date else None) None in
  row ∈ filter (fun row => prisma.task_matches where_ row) (prisma.rows (tasks w))
  <-> listed w u ctx row.
Proof.
  cbv zeta. rewrite list_elem_of_filter, elem_of_rows.
  unfold listed, prisma.task_matches. cbn [prisma.userId prisma.date].
  rewrite !andb_True, bool_decide_spec.
  split.
  - intros [[Hu Hd] Hrow]. split_and!; [assumption..|].
    intros d Hq Hne. rewrite Hq in Hd.
    assert (given (Some d) = true) as Hg by (apply given_Some; eauto).
    rewrite Hg in Hd. cbn in Hd. now apply bool_decide_spec in Hd.
  - intros (Hrow & Hu & Hd). split_and!; [assumption| |assumption].
    destruct (given (query ctx !! "date")) eqn:Hg; [|exact I].
    apply given_Some in Hg as (d & Hq & Hne). rewrite Hq. cbn.
    apply bool_decide_spec. now apply Hd.
Qed.

(** C2 (amended).  GET /tasks without a search term (none, or an empty
    one) returns exactly the stored tasks that belong to the caller and
    meet the date filter: a non-empty [date] must equal the task's date,
    and a [date] that is the empty string filters nothing.  The world is
    left as it was. *)
Theorem get_tasks_lists_own_matching_tasks
  (ctx : Context) (e : Env) (w : World) (u : JwtUserPayload.t) :
  caller e ctx = Some u ->
  query ctx !! "search" = None \/ query ctx !! "search" = Some "" ->
  exists rows,
    Index.app GET_tasks ctx e w = (ok (BTasks rows), w) /\
    Part000.app GET_tasks ctx e w = (ok (BTasks rows), w) /\
    forall row, row ∈ rows <-> listed w u ctx row.
Proof.
  intros Hc Hs. apply given_unset in Hs. eexists. split_and!.
  - enter Hc. rewrite get_tasks_always_valid, Hs. reflexivity.
  - enter Hc. rewrite get_tasks_always_valid, Hs. reflexivity.
  - intros row. apply task_matches_listed.
Qed.

(** C6.  POST /tasks by an authenticated caller: a body whose [title] or
    [date] is missing or empty, or whose [isChecked] is not a boolean, is
    refused as a validation failure and the world stays as it was; a body
    with a non-empty [title] and [date] and a boolean [isChecked] stores a
    task with these values under the caller's id and returns it. *)
Theorem post_tasks_validates_then_creates
  (ctx : Context) (e : Env) (w : World) (u : JwtUserPayload.t) :
  caller e ctx = Some u ->
  ((prop (body ctx) "title" = JUndefined \/ prop (body ctx) "title" = JStr ""
    \/ prop (body ctx) "date" = JUndefined \/ prop (body ctx) "date" = JStr ""
    \/ (forall c, prop (body ctx) "isChecked" <> JBool c)) ->
   exists r r',
     Index.app POST_tasks ctx e w = (r, w) /\ outcome r = Validation /\
     Part000.app POST_tasks ctx e w = (r', w) /\ outcome r' = Validation) /\
  (forall title date isChecked,
      prop (body ctx) "title" = JStr title -> title <> "" ->
      prop (body ctx) "date" = JStr date -> date <> "" ->
      prop (body ctx) "isChecked" = JBool isChecked ->
      let task := Task.mk (task_seq w) (JwtUserPayload.id u) title date isChecked in
      let w' := set_task_seq (task_seq w + 1) (set_tasks <[task_seq w := task]> w) in
      Index.app POST_tasks ctx e w = (ok (BTask task), w') /\
      Part000.app POST_tasks ctx e w = (ok (BTask task), w') /\
      tasks w' !! task_seq w = Some task).
Proof.
  intros Hc. split.
  - intros Hbad.
    assert (negb (truthy (prop (body ctx) "title"))
            || negb (truthy (prop (body ctx) "date"))
            || negb (is_boolean (prop (body ctx) "isChecked")) = true) as Hcond.
    { destruct Hbad as [->|[->|[->|[->|Hb]]]]; try reflexivity.
      - now rewrite orb_true_r.
      - now rewrite orb_true_r.
      - destruct (prop (body ctx) "isChecked"); try now rewrite !orb_true_r.
        now destruct (Hb b). }
    destruct (valid_request post_tasks_schema ctx) eqn:Hv.
    + exists (status 400 (BError "Invalid task data")),
             (ok (BError "Invalid task data")).
      split_and!; try reflexivity; enter Hc; rewrite Hv; cbn; rewrite Hcond;
        reflexivity.
    + exists (status 422 BInvalid), (status 422 BInvalid).
      split_and!; try reflexivity; unfold Index.app, Part000.app, route;
        cbn [schema_of]; rewrite Hv; reflexivity.
  - intros title date isChecked Ht Htne Hd Hdne Hb task w'.
    assert (valid_request post_tasks_schema ctx = true) as Hv.
    { unfold valid_request, post_tasks_schema. cbn. now rewrite Ht, Hd, Hb. }
    assert (truthy (JStr title) = true) as Htt
        by (rewrite truthy_JStr; now apply bool_decide_eq_true).
    assert (truthy (JStr date) = true) as Htd
        by (rewrite truthy_JStr; now apply bool_decide_eq_true).
    split_and!.
    + enter Hc. rewrite Hv, Ht, Hd, Hb. cbn [bind return_if]. unfold bind at 1.
      rewrite Htt, Htd. reflexivity.
    + enter Hc. rewrite Hv, Ht, Hd, Hb. cbn [bind return_if]. unfold bind at 1.
      rewrite Htt, Htd. reflexivity.
    + subst w'. cbn. apply lookup_insert_eq.
Qed.

End Tasks.

(** User 1 patches id 2: in one world nobody has a task 2, in the other it
    is user 2's. *)
Lemma patch_not_found_hides_ownership_witness :
  let app := @Index.app Fixture.codec Fixture.ecma Fixture.nodepath in
  let app' := @Part000.app Fixture.codec Fixture.ecma Fixture.nodepath in
  let ctx := Fixture.patch_check "2" in
  let not_found := status 404 (BError "Task not found") in
  let not_found' := ok (BError "Task not found") in
  app PATCH_tasks_id ctx Fixture.env Fixture.world_without_task2
  = (not_found, Fixture.world_without_task2) /\
  app PATCH_tasks_id ctx Fixture.env Fixture.world = (not_found, Fixture.world) /\
  app' PATCH_tasks_id ctx Fixture.env Fixture.world_without_task2
  = (not_found', Fixture.world_without_task2) /\
  app' PATCH_tasks_id ctx Fixture.env Fixture.world = (not_found', Fixture.world) /\
  outcome not_found = NotFound /\
  outcome not_found' = NotFound.
Proof.
  apply (@patch_not_found_hides_ownership
           Fixture.codec Fixture.ecma Fixture.nodepath
           (Fixture.patch_check "2") Fixture.env Fixture.user1 2
           Fixture.world_without_task2 Fixture.world Fixture.task2);
    [vm_compute; reflexivity .. | discriminate].
Defined.

(** The task [{title: "t", date: "2024-01-01", isChecked: false}] patched
    with [{isChecked: true}]. *)
Lemma patch_merges_present_fields_witness :
  let updated := Task.mk 1 1 "t" "2024-01-01" true in
  @Index.app Fixture.codec Fixture.ecma Fixture.nodepath
    PATCH_tasks_id (Fixture.patch_check "1") Fixture.env Fixture.world
  = (ok (BTask updated), set_tasks <[1 := updated]> Fixture.world) /\
  @Part000.app Fixture.codec Fixture.ecma Fixture.nodepath
    PATCH_tasks_id (Fixture.patch_check "1") Fixture.env Fixture.world
  = (ok (BTask updated), set_tasks <[1 := updated]> Fixture.world).
Proof.
  pose proof (@patch_merges_present_fields
                Fixture.codec Fixture.ecma Fixture.nodepath
                (Fixture.patch_check "1") Fixture.env Fixture.world
                Fixture.user1 1 Fixture.task1
                eq_refl eq_refl eq_refl eq_refl eq_refl) as (HA & HB & _).
  split; [exact HA | exact HB].
Defined.

(** C2, as stated, fails: with [?date=] the date filter is present and
    empty, and user 1 still gets the task dated 2024-01-01. *)
Lemma get_tasks_empty_date_counterexample :
  let ctx := Fixture.list_with {[ "date" := "" ]} in
  @caller Fixture.codec Fixture.env ctx = Some Fixture.user1 /\
  query ctx !! "date" = Some "" /\
  @Index.app Fixture.codec Fixture.ecma Fixture.nodepath
    GET_tasks ctx Fixture.env Fixture.world
  = (ok (BTasks [Fixture.task1]), Fixture.world) /\
  @Part000.app Fixture.codec Fixture.ecma Fixture.nodepath
    GET_tasks ctx Fixture.env Fixture.world
  = (ok (BTasks [Fixture.task1]), Fixture.world) /\
  ~ listed_as_claimed Fixture.world Fixture.user1 ctx Fixture.task1.
Proof.
  cbv zeta. split_and!; try (vm_compute; reflexivity).
  intros (_ & _ & Hdate & _).
  specialize (Hdate "" eq_refl). discriminate.
Qed.

(** User 1 lists with a date and an empty search term. *)
Lemma get_tasks_lists_own_matching_tasks_witness :
  let ctx := Fixture.list_with {[ "date" := "2024-01-01"; "search" := "" ]} in
  exists rows,
    @Index.app Fixture.codec Fixture.ecma Fixture.nodepath
      GET_tasks ctx Fixture.env Fixture.world = (ok (BTasks rows), Fixture.world) /\
    @Part000.app Fixture.codec Fixture.ecma Fixture.nodepath
      GET_tasks ctx Fixture.env Fixture.world = (ok (BTasks rows), Fixture.world) /\
    forall row, row ∈ rows <-> listed Fixture.world Fixture.user1 ctx row.
Proof.
  apply (@get_tasks_lists_own_matching_tasks
           Fixture.codec Fixture.ecma Fixture.nodepath
           (Fixture.list_with {[ "date" := "2024-01-01"; "search" := "" ]})
           Fixture.env Fixture.world Fixture.user1);
    [reflexivity | right; vm_compute; reflexivity].
Defined.

(** User 1 creates a task, and fails to create one without [isChecked]. *)
Lemma post_tasks_validates_then_creates_witness :
  let app := @Index.app Fixture.codec Fixture.ecma Fixture.nodepath in
  let good :=
    Fixture.create_with
      {[ "title" := JStr "x"; "date" := JStr "2024-02-02";
         "isChecked" := JBool false ]} in
  let bad :=
    Fixture.create_with {[ "title" := JStr "x"; "date" := JStr "2024-02-02" ]} in
  let task := Task.mk 3 1 "x" "2024-02-02" false in
  app POST_tasks good Fixture.env Fixture.world
  = (ok (BTask task), set_task_seq 4 (set_tasks <[3 := task]> Fixture.world)) /\
  exists r, app POST_tasks bad Fixture.env Fixture.world = (r, Fixture.world)
            /\ outcome r = Validation.
Proof.
  cbv zeta. split.
  - apply (proj2 (@post_tasks_validates_then_creates
                    Fixture.codec Fixture.ecma Fixture.nodepath
                    (Fixture.create_with
                       {[ "title" := JStr "x"; "date" := JStr "2024-02-02";
                          "isChecked" := JBool false ]})
                    Fixture.env Fixture.world Fixture.user1 eq_refl)
             "x" "2024-02-02" false);
      [reflexivity | discriminate | reflexivity | discriminate | reflexivity].
  - destruct (proj1 (@post_tasks_validates_then_creates
                       Fixture.codec Fixture.ecma Fixture.nodepath
                       (Fixture.create_with
                          {[ "title" := JStr "x"; "date" := JStr "2024-02-02" ]})
                       Fixture.env Fixture.world Fixture.user1 eq_refl))
      as (r & _ & Hr & Ho & _).
    + right. right. right. right. intros c. discriminate.
    + exists r. split; assumption.
Defined.

(** ** The gate in front of every protected route *)

Section Protected.
Context `{jwt.Codec, Ecma, NodePath}.


(** Past the schema, a handler reads the headers only through the
    identity they stand for. *)
Lemma handlers_read_headers_through_caller
  (r : Route) (ctx ctx' : Context) (e : Env) (w : World) :
  body ctx' = body ctx -> query ctx' = query ctx -> params ctx' = params ctx ->
  caller e ctx' = caller e ctx ->
  Index.app r ctx' e w = Index.app r ctx e w /\
  Part000.app r ctx' e w = Part000.app r ctx e w.
Proof.
  destruct ctx as [h b q p], ctx' as [h' b' q' p']. cbn [body query params].
  intros -> -> -> Hc. unfold caller, bearer in Hc.
  split; destruct r; open_route; unfold valid_request;
    cbn [body query params headers] in *; rewrite Hc; reflexivity.
Qed.


End Protected.



(** ** Profile *)

(** Counting the filtered rows of a table is measuring the filtered
    table. *)
Lemma length_filter_rows {A} (P : A -> Prop) `{!forall x, Decision (P x)}
  (table : gmap Z A) :
  length (filter P (prisma.rows table))
  = size (filter (fun kv : Z * A => P kv.2) table).
Proof.
  rewrite map_filter_alt, map_size_list_to_map.
  - unfold prisma.rows. induction (map_to_list table) as [|[k x] l IH]; [reflexivity|].
    rewrite fmap_cons, !filter_cons. cbn [snd].
    destruct (decide (P x)); cbn [length]; now rewrite IH.
  - eapply sublist_NoDup; [apply (NoDup_fst_map_to_list table)|].
    apply fmap_sublist, sublist_filter.
Qed.

Lemma filter_checked (l : list Task.t) :
  filter (fun task => Is_true (Task.isChecked task)) l
  = filter (fun row => Task.isChecked row = true) l.
Proof. apply list_filter_iff. intros row. apply Is_true_true. Qed.

Section Profile.
Context `{jwt.Codec, Ecma, NodePath}.

(** C9.  GET /profile by an authenticated caller: when the caller's id is
    the key of a stored user, the answer carries that user's email and
    image, [total] is the number of stored tasks whose [userId] is the
    caller's id and [completed] the number of those that are checked;
    when it is not, the answer is Not-Found.  The world is left as it
    was. *)
Theorem get_profile_counts_tasks
  (ctx : Context) (e : Env) (w : World) (u : JwtUserPayload.t) :
  caller e ctx = Some u ->
  (forall user,
      users w !! JwtUserPayload.id u = Some user ->
      let mine :=
        filter (fun kv : Z * Task.t => Task.userId kv.2 = JwtUserPayload.id u)
               (tasks w) in
      let done :=
        filter (fun kv : Z * Task.t =>
                  Task.isChecked kv.2 = true
                  /\ Task.userId kv.2 = JwtUserPayload.id u)
               (tasks w) in
      let answer :=
        ok (BProfile (User.email user) (User.image user)
                     (Z.of_nat (size mine)) (Z.of_nat (size done))) in
      Index.app GET_profile ctx e w = (answer, w) /\
      Part000.app GET_profile ctx e w = (answer, w)) /\
  (users w !! JwtUserPayload.id u = None ->
   Index.app GET_profile ctx e w = (status 404 (BError "User not found"), w) /\
   Part000.app GET_profile ctx e w = (ok (BError "User not found"), w) /\
   outcome (status 404 (BError "User not found")) = NotFound /\
   outcome (ok (BError "User not found")) = NotFound).
Proof.
  intros Hc. split.
  - intros user Hu mine done answer. subst mine done answer.
    pose proof (length_filter_rows
                  (fun row => Task.userId row = JwtUserPayload.id u) (tasks w))
      as Hmine.
    pose proof (length_filter_rows
                  (fun row => Task.isChecked row = true
                              /\ Task.userId row = JwtUserPayload.id u) (tasks w))
      as Hdone.
    cbn beta in Hmine, Hdone. rewrite <- Hmine, <- Hdone.
    rewrite <- (list_filter_filter (fun row => Task.isChecked row = true)).
    split; enter Hc; cbn; rewrite Hu; cbn; now rewrite filter_checked.
  - intros Hu. split_and!; try reflexivity; enter Hc; cbn; rewrite Hu;
      reflexivity.
Qed.

(** C7.  POST /profile/image by an authenticated caller who sends a file:
    a file over 5 MiB or of a type off the allow-list is refused as a
    validation failure with the world as it was; a file within both
    limits, with a name, from a caller who is a stored user, is written
    under uploads/ and its relative path becomes the user's [image] and
    the answer; and whenever the world has changed, the file was within
    both limits. *)
Theorem upload_checked_before_any_write
  (ctx : Context) (e : Env) (w : World) (u : JwtUserPayload.t) (file : File.t) :
  caller e ctx = Some u ->
  prop (body ctx) "image" = JFile file ->
  let allowed := ["image/jpeg"; "image/png"; "image/gif"] in
  let limit := 5 * 1024 * 1024 in
  ((limit < File.size file \/ File.type file ∉ allowed) ->
   Index.app POST_profile_image ctx e w = (status 422 BInvalid, w) /\
   Part000.app POST_profile_image ctx e w = (status 422 BInvalid, w) /\
   outcome (status 422 BInvalid) = Validation) /\
  (File.size file <= limit ->
   File.type file ∈ allowed ->
   File.name file <> "" ->
   forall user,
     users w !! JwtUserPayload.id u = Some user ->
     let relativePath :=
       "uploads/user_" +:+ pretty (JwtUserPayload.id u) +:+ "_"
       +:+ pretty (now e) +:+ extname (File.name file) in
     let user' :=
       User.mk (User.id user) (User.email user) (User.password user)
               relativePath in
     let w' :=
       set_users <[JwtUserPayload.id u := user']>
         (set_files <[relativePath := File.bytes file]>
            (set_dirs (union {["uploads"]}) w)) in
     Index.app POST_profile_image ctx e w
     = (ok (BImage "Image updated" relativePath), w') /\
     Part000.app POST_profile_image ctx e w
     = (ok (BImage "Image updated" relativePath), w')) /\
  (forall r w',
      Index.app POST_profile_image ctx e w = (r, w')
      \/ Part000.app POST_profile_image ctx e w = (r, w') ->
      w' <> w ->
      File.size file <= limit /\ File.type file ∈ allowed).
Proof.
  intros Hc Hf allowed limit.
  assert (valid_request post_profile_image_schema ctx
          = bool_decide (File.type file ∈ allowed) && (File.size file <=? limit))
    as Hv.
  { unfold valid_request, post_profile_image_schema. cbn. rewrite Hf.
    cbn. now rewrite !andb_true_r. }
  assert ((limit < File.size file \/ File.type file ∉ allowed) ->
          Index.app POST_profile_image ctx e w = (status 422 BInvalid, w) /\
          Part000.app POST_profile_image ctx e w = (status 422 BInvalid, w))
    as Hrejected.
  { intros Hbad.
    assert (valid_request post_profile_image_schema ctx = false) as Hv'.
    { rewrite Hv. destruct Hbad as [Hbig|Htype].
      - apply andb_false_intro2. apply Z.leb_gt. exact Hbig.
      - apply andb_false_intro1. now apply bool_decide_eq_false. }
    unfold Index.app, Part000.app, route. cbn [schema_of]. now rewrite Hv'. }
  split_and!.
  - intros Hbad. destruct (Hrejected Hbad) as [HA HB]. now rewrite HA, HB.
  - intros Hsize Htype Hname user Hu relativePath user' w'.
    assert (valid_request post_profile_image_schema ctx = true) as Hv'.
    { rewrite Hv. apply andb_true_intro. split.
      - now apply bool_decide_eq_true.
      - now apply Z.leb_le. }
    assert (truthy (JStr (File.name file)) = true) as Hn
        by (rewrite truthy_JStr; now apply bool_decide_eq_true).
    split; enter Hc; rewrite Hv', Hf; cbn [name_of]; rewrite Hn;
      unfold prisma.user.update_image, bind; cbn; rewrite Hu; reflexivity.
  - intros r w' Hrun Hchanged.
    destruct (decide (File.size file <= limit)) as [Hsize|Hsize];
      destruct (decide (File.type file ∈ allowed)) as [Htype|Htype];
      try (split; assumption); exfalso; apply Hchanged.
    all: assert (limit < File.size file \/ File.type file ∉ allowed) as Hbad
        by (first [right; assumption | left; lia]).
    all: destruct (Hrejected Hbad) as [HA HB]; rewrite HA, HB in Hrun.
    all: destruct Hrun as [[= _ <-]|[= _ <-]]; reflexivity.
Qed.

End Profile.

(** A user uploads a small PNG; a 6 MiB PNG and a PDF are refused. *)
Lemma upload_checked_before_any_write_witness :
  let app := @Index.app Fixture.codec Fixture.ecma Fixture.nodepath in
  let png := File.mk "me.png" "image/png" 5 "bytes" in
  let big := File.mk "me.png" "image/png" (6 * 1024 * 1024) "bytes" in
  let pdf := File.mk "cv.pdf" "application/pdf" 5 "bytes" in
  let path := "uploads/user_1_1500000.png" in
  app POST_profile_image (Fixture.upload png) Fixture.env Fixture.world
  = (ok (BImage "Image updated" path),
     set_users <[1 := User.mk 1 "a@example.com" "$secret1" path]>
       (set_files <[path := "bytes"]>
          (set_dirs (union {["uploads"]}) Fixture.world))) /\
  app POST_profile_image (Fixture.upload big) Fixture.env Fixture.world
  = (status 422 BInvalid, Fixture.world) /\
  app POST_profile_image (Fixture.upload pdf) Fixture.env Fixture.world
  = (status 422 BInvalid, Fixture.world).
Proof.
  cbv zeta. split_and!.
  - apply (proj1 (proj2
             (@upload_checked_before_any_write
                Fixture.codec Fixture.ecma Fixture.nodepath
                (Fixture.upload (File.mk "me.png" "image/png" 5 "bytes"))
                Fixture.env Fixture.world Fixture.user1
                (File.mk "me.png" "image/png" 5 "bytes") eq_refl eq_refl))
             ltac:(vm_compute; discriminate)
             ltac:(vm_compute; set_solver)
             ltac:(discriminate)
             Fixture.alice eq_refl).
  - apply (proj1
             (@upload_checked_before_any_write
                Fixture.codec Fixture.ecma Fixture.nodepath
                (Fixture.upload (File.mk "me.png" "image/png" (6 * 1024 * 1024) "bytes"))
                Fixture.env Fixture.world Fixture.user1
                (File.mk "me.png" "image/png" (6 * 1024 * 1024) "bytes")
                eq_refl eq_refl)).
    left. reflexivity.
  - apply (proj1
             (@upload_checked_before_any_write
                Fixture.codec Fixture.ecma Fixture.nodepath
                (Fixture.upload (File.mk "cv.pdf" "application/pdf" 5 "bytes"))
                Fixture.env Fixture.world Fixture.user1
                (File.mk "cv.pdf" "application/pdf" 5 "bytes")
                eq_refl eq_refl)).
    right. cbn. rewrite !elem_of_cons, elem_of_nil.
    intros [?|[?|[?|[]]]]; discriminate.
Defined.

(** Tasks [ {isChecked: true}, {isChecked: true}, {isChecked: false} ] of
    user 1, next to a checked task of user 2: total 3, completed 2. *)
Lemma get_profile_counts_tasks_witness :
  @Index.app Fixture.codec Fixture.ecma Fixture.nodepath
    GET_profile Fixture.profile Fixture.env Fixture.world_three_tasks
  = (ok (BProfile "a@example.com" "" 3 2), Fixture.world_three_tasks) /\
  @Part000.app Fixture.codec Fixture.ecma Fixture.nodepath
    GET_profile Fixture.profile Fixture.env Fixture.world_three_tasks
  = (ok (BProfile "a@example.com" "" 3 2), Fixture.world_three_tasks).
Proof.
  exact (proj1 (@get_profile_counts_tasks
                  Fixture.codec Fixture.ecma Fixture.nodepath
                  Fixture.profile Fixture.env Fixture.world_three_tasks
                  Fixture.user1 eq_refl)
           Fixture.alice eq_refl).
Defined.

(** ** Registration *)

(** No stored user has the email. *)
Lemma by_email_None (email : string) (table : gmap Z User.t) :
  prisma.by_email email table = None <->
  forall i user, table !! i = Some user -> User.email user <> email.
Proof.
  unfold prisma.by_email. rewrite fmap_None, list_find_None, Forall_forall.
  split.
  - intros Hall i user Hi. apply Hall, elem_of_rows. now exists i.
  - intros Hall user [i Hi]%elem_of_rows. now apply (Hall i).
Qed.

(** Once a user with the email is stored, the lookup finds one. *)
Lemma by_email_insert (table : gmap Z User.t) (i : Z) (user : User.t) :
  is_Some (prisma.by_email (User.email user) (<[i := user]> table)).
Proof.
  destruct (prisma.by_email (User.email user) (<[i := user]> table)) eqn:Hfind;
    [eauto|].
  exfalso. eapply by_email_None; [exact Hfind | apply lookup_insert_eq | reflexivity].
Qed.

Section Registration.
Context `{bcrypt.Digest}.

(** C8 (amended).  For an email and passwords that are not empty, and an
    email no stored user has: the first POST /register stores a user with
    that email whose password is the bcrypt digest of the submitted one
    (cost 10), which is not the plaintext, and reports success; a second
    one for the same email answers [{error: "User exists"}], a Conflict,
    and leaves the store as the first one left it.  A registration whose
    email or password is the empty string is refused with
    [{error: "Email and password required"}], a validation failure, and
    nothing is stored. *)
Theorem register_twice_conflicts :
  (forall (first second : Context) (e1 e2 : Env) (w : World)
          (email password1 password2 : string),
      prop (body first) "email" = JStr email ->
      prop (body first) "password" = JStr password1 ->
      prop (body second) "email" = JStr email ->
      prop (body second) "password" = JStr password2 ->
      email <> "" -> password1 <> "" -> password2 <> "" ->
      (forall i user, users w !! i = Some user -> User.email user <> email) ->
      let hashedPassword := bcrypt.digest password1 10 (entropy e1) in
      let user := User.mk (user_seq w) email hashedPassword "" in
      let w1 :=
        set_user_seq (user_seq w + 1) (set_users <[user_seq w := user]> w) in
      Part000.app_register first e1 w
      = (ok (BMessage "Registered successfully"), w1) /\
      Part000.app_register second e2 w1 = (ok (BError "User exists"), w1) /\
      outcome (ok (BError "User exists")) = Conflict /\
      users w1 !! user_seq w = Some user /\
      User.password user <> password1) /\
  (forall (ctx : Context) (e : Env) (w : World) (email password : string),
      prop (body ctx) "email" = JStr email ->
      prop (body ctx) "password" = JStr password ->
      email = "" \/ password = "" ->
      Part000.app_register ctx e w
      = (ok (BError "Email and password required"), w) /\
      outcome (ok (BError "Email and password required")) = Validation).
Proof.
  assert (forall s, s <> "" -> truthy (JStr s) = true) as Htruthy
      by (intros s Hs; rewrite truthy_JStr; now apply bool_decide_eq_true).
  assert (forall ctx s p, prop (body ctx) "email" = JStr s ->
                          prop (body ctx) "password" = JStr p ->
                          valid_request register_schema ctx = true) as Hvalid.
  { intros ctx s p Hs Hp. unfold valid_request, register_schema. cbn.
    now rewrite Hs, Hp. }
  split.
  - intros first second e1 e2 w email password1 password2
           He1 Hp1 He2 Hp2 Hemail Hpw1 Hpw2 Hfresh hashedPassword user w1.
    apply by_email_None in Hfresh.
    split_and!.
    + unfold Part000.app_register, route.
      rewrite (Hvalid first email password1 He1 Hp1).
      unfold respond, Part000.register. rewrite He1, Hp1.
      rewrite (Htruthy email Hemail), (Htruthy password1 Hpw1).
      unfold prisma.user.findUnique_email, prisma.user.create, bind. cbn.
      rewrite Hfresh. cbn. rewrite Hfresh. reflexivity.
    + unfold Part000.app_register, route.
      rewrite (Hvalid second email password2 He2 Hp2).
      unfold respond, Part000.register. rewrite He2, Hp2.
      rewrite (Htruthy email Hemail), (Htruthy password2 Hpw2).
      unfold prisma.user.findUnique_email, bind. cbn.
      rewrite bool_decide_eq_true_2; [reflexivity|].
      apply (by_email_insert (users w) (user_seq w) user).
    + reflexivity.
    + apply lookup_insert_eq.
    + apply bcrypt.digest_opaque.
  - intros ctx e w email password He Hp Hempty. split; [|reflexivity].
    unfold Part000.app_register, route. rewrite (Hvalid ctx email password He Hp).
    unfold respond, Part000.register. rewrite He, Hp, !truthy_JStr.
    assert (negb (bool_decide (email <> ""))
            || negb (bool_decide (password <> "")) = true) as ->.
    { apply orb_true_iff.
      destruct Hempty as [-> | ->]; [left | right];
        now rewrite bool_decide_eq_false_2 by (intros Hne; now apply Hne). }
    reflexivity.
Qed.

End Registration.

(** C8, as stated, fails for the empty email and for the empty password:
    the first attempt does not succeed, and the second is not a
    Conflict. *)
Lemma register_empty_email_counterexample :
  let refused := ok (BError "Email and password required") in
  @Part000.app_register Fixture.bcrypt (Fixture.registration "" "pw")
    Fixture.env Fixture.world
  = (refused, Fixture.world) /\
  @Part000.app_register Fixture.bcrypt (Fixture.registration "c@example.com" "")
    Fixture.env Fixture.world
  = (refused, Fixture.world) /\
  outcome refused = Validation /\
  outcome refused <> Success /\
  outcome refused <> Conflict.
Proof. cbv zeta. split_and!; try (vm_compute; reflexivity); discriminate. Qed.

(** A new email registered twice, with different passwords; and a
    registration without a password. *)
Lemma register_twice_conflicts_witness :
  let user := User.mk 3 "c@example.com" "$pw1salt" "" in
  let w1 := set_user_seq 4 (set_users <[3 := user]> Fixture.world) in
  @Part000.app_register Fixture.bcrypt
    (Fixture.registration "c@example.com" "pw1") Fixture.env Fixture.world
  = (ok (BMessage "Registered successfully"), w1) /\
  @Part000.app_register Fixture.bcrypt
    (Fixture.registration "c@example.com" "pw2") Fixture.env w1
  = (ok (BError "User exists"), w1) /\
  @Part000.app_register Fixture.bcrypt
    (Fixture.registration "c@example.com" "") Fixture.env Fixture.world
  = (ok (BError "Email and password required"), Fixture.world).
Proof.
  pose proof (proj1 (@register_twice_conflicts Fixture.bcrypt)
                (Fixture.registration "c@example.com" "pw1")
                (Fixture.registration "c@example.com" "pw2")
                Fixture.env Fixture.env Fixture.world
                "c@example.com" "pw1" "pw2"
                eq_refl eq_refl eq_refl eq_refl
                ltac:(discriminate) ltac:(discriminate) ltac:(discriminate))
    as Hthm.
  destruct Hthm as (Hfirst & Hsecond & _).
  - apply by_email_None. vm_compute. reflexivity.
  - split_and!; [exact Hfirst | exact Hsecond |].
    apply (proj2 (@register_twice_conflicts Fixture.bcrypt)
             (Fixture.registration "c@example.com" "")
             Fixture.env Fixture.world "c@example.com" "");
      [reflexivity | reflexivity | right; reflexivity].
Defined.

(** ** The two variants *)

Lemma bind_agree {A B} (m : Handler A) (k k' : A -> Handler B) (e : Env) (w : World) :
  proceeds m ->
  (forall a w', k' a e w' = flatten_return (k a e w')) ->
  bind m k' e w = flatten_return (bind m k e w).
Proof.
  intros Hm Hk. unfold bind. specialize (Hm e w).
  destruct (m e w) as [[a|r|x] w']; [apply Hk | now destruct (Hm r w') | reflexivity].
Qed.

Lemma return_if_agree {B} (c : bool) (r r' : Response) (k k' : unit -> Handler B)
  (e : Env) (w : World) :
  flatten r = r' ->
  (forall w', k' tt e w' = flatten_return (k tt e w')) ->
  bind (return_if c r') k' e w = flatten_return (bind (return_if c r) k e w).
Proof.
  intros <- Hk. unfold bind, return_if. destruct c; [reflexivity | apply Hk].
Qed.

Lemma proceeds_ret {A} (a : A) : proceeds (ret a).
Proof. intros e w r w'. discriminate. Qed.

Lemma proceeds_throw {A} (x : string) : proceeds (@throw A x).
Proof. intros e w r w'. discriminate. Qed.

Lemma proceeds_bind {A B} (m : Handler A) (k : A -> Handler B) :
  proceeds m -> (forall a, proceeds (k a)) -> proceeds (bind m k).
Proof.
  intros Hm Hk e w r w'. unfold bind. specialize (Hm e w).
  destruct (m e w) as [[a|r0|x] w0]; [apply Hk | now destruct (Hm r0 w0) | discriminate].
Qed.

Lemma proceeds_try_catch {A} (m h : Handler A) :
  proceeds m -> proceeds h -> proceeds (try_catch m h).
Proof.
  intros Hm Hh e w r w'. unfold try_catch. specialize (Hm e w).
  destruct (m e w) as [[a|r0|x] w0]; [discriminate | apply Hm | apply Hh].
Qed.

Lemma proceeds_string_arg (v : jsval) : proceeds (prisma.string_arg v).
Proof. intros e w r w'. now destruct v. Qed.

Lemma proceeds_boolean_arg (v : jsval) : proceeds (prisma.boolean_arg v).
Proof. intros e w r w'. now destruct v. Qed.

Lemma proceeds_int_arg (v : option Z) : proceeds (prisma.int_arg v).
Proof. intros e w r w'. now destruct v. Qed.

Lemma proceeds_optional {A} (arg : jsval -> Handler A) (v : option jsval) :
  (forall x, proceeds (arg x)) -> proceeds (prisma.optional arg v).
Proof.
  intros Harg. destruct v as [x|]; cbn [prisma.optional].
  - apply proceeds_bind; [apply Harg | intros a; apply proceeds_ret].
  - apply proceeds_ret.
Qed.

Lemma proceeds_get_world : proceeds get_world.
Proof. intros e w r w'. discriminate. Qed.

Lemma proceeds_put_world (w0 : World) : proceeds (put_world w0).
Proof. intros e w r w'. discriminate. Qed.

Lemma proceeds_Date_now : proceeds Date_now.
Proof. intros e w r w'. discriminate. Qed.

Create HintDb proceeds.

#[local] Hint Resolve proceeds_ret proceeds_throw proceeds_string_arg
  proceeds_boolean_arg proceeds_int_arg proceeds_get_world proceeds_put_world
  proceeds_Date_now : proceeds.

Ltac solve_proceeds :=
  repeat first
    [ apply proceeds_bind; [|intros ?]
    | apply proceeds_try_catch
    | apply proceeds_optional; intros ?
    | solve [auto with proceeds]
    | match goal with |- proceeds (match ?x with _ => _ end) => destruct x end ].

Lemma proceeds_task_create (data : prisma.TaskCreateInput) :
  proceeds (prisma.task.create data).
Proof. unfold prisma.task.create. solve_proceeds. Qed.

Lemma proceeds_task_findUnique (id : option Z) :
  proceeds (prisma.task.findUnique id).
Proof. unfold prisma.task.findUnique. solve_proceeds. Qed.

Lemma proceeds_task_update (id : option Z) (data : prisma.TaskUpdateInput) :
  proceeds (prisma.task.update id data).
Proof. unfold prisma.task.update. solve_proceeds. Qed.

Lemma proceeds_task_findMany (where_ : prisma.TaskWhereInput) :
  proceeds (prisma.task.findMany where_).
Proof. unfold prisma.task.findMany. solve_proceeds. Qed.

Lemma proceeds_user_findUnique (id : Z) :
  proceeds (prisma.user.findUnique_id_include_tasks id).
Proof. unfold prisma.user.findUnique_id_include_tasks. solve_proceeds. Qed.

Lemma proceeds_user_update_image (id : Z) (image : string) :
  proceeds (prisma.user.update_image id image).
Proof. unfold prisma.user.update_image. solve_proceeds. Qed.

Lemma proceeds_mkdir (dir : string) : proceeds (fs.mkdir dir).
Proof. unfold fs.mkdir. solve_proceeds. Qed.

Lemma proceeds_writeFile (path data : string) : proceeds (fs.writeFile path data).
Proof. unfold fs.writeFile. solve_proceeds. Qed.

#[local] Hint Resolve proceeds_task_create proceeds_task_findUnique
  proceeds_task_update proceeds_task_findMany proceeds_user_findUnique
  proceeds_user_update_image proceeds_mkdir proceeds_writeFile : proceeds.

Section Variants.
Context `{jwt.Codec, Ecma, NodePath}.

Ltac agree :=
  repeat first
    [ reflexivity
    | apply return_if_agree; [reflexivity | intros ?]
    | apply bind_agree; [solve_proceeds | intros ? ?]
    | match goal with
      | |- context [match ?x with _ => _ end] => destruct x
      end ].

(** The handlers of part_000 are those of index.ts with every early
    [return] flattened. *)
Lemma handlers_agree (r : Route) (ctx : Context) (e : Env) (w : World) :
  Part000.handler_of r ctx e w = flatten_return (Index.handler_of r ctx e w).
Proof.
  destruct r; cbn [Part000.handler_of Index.handler_of];
    unfold Index.post_tasks, Index.get_tasks, Index.patch_tasks,
      Index.get_profile, Index.post_profile_image,
      Part000.post_tasks, Part000.get_tasks, Part000.patch_tasks,
      Part000.get_profile, Part000.post_profile_image;
    rewrite !run_auth; destruct (verified e _) as [u|]; agree.
Qed.

(** C10.  On every route both files serve, and so on POST /tasks,
    GET /tasks, PATCH /tasks/:id and GET /profile, the handler of index.ts
    and the handler of part_000 leave the same world and send the same
    body; the status is the same too, except that part_000 sends 200 where
    index.ts sends 400, 401 or 404 with an [{error}] body. *)
Theorem variants_agree_up_to_status
  (r : Route) (ctx : Context) (e : Env) (w : World) :
  (Part000.app r ctx e w).2 = (Index.app r ctx e w).2 /\
  payload (Part000.app r ctx e w).1 = payload (Index.app r ctx e w).1 /\
  (code (Part000.app r ctx e w).1 = code (Index.app r ctx e w).1
   \/ code (Part000.app r ctx e w).1 = 200
      /\ code (Index.app r ctx e w).1 ∈ [400; 401; 404]
      /\ exists message, payload (Index.app r ctx e w).1 = BError message).
Proof.
  unfold Part000.app, Index.app, route.
  destruct (valid_request (schema_of r) ctx); [|cbn; auto].
  unfold respond. rewrite handlers_agree.
  destruct (Index.handler_of r ctx e w) as [[a|a|x] w']; cbn; auto.
  unfold flatten. destruct (payload a) eqn:Hp; rewrite ?Hp; auto.
  destruct (bool_decide (code a ∈ [400; 401; 404])) eqn:Hcode; rewrite ?Hp; auto.
  apply bool_decide_eq_true in Hcode. cbn. eauto 10.
Qed.

End Variants.


(** * Further properties: what a request can change *)

Section Effects.
Context `{jwt.Codec, Ecma, NodePath}.

Lemma post_body_fields (ctx : Context) :
  valid_request post_tasks_schema ctx = true ->
  exists title date isChecked,
    prop (body ctx) "title" = JStr title /\
    prop (body ctx) "date" = JStr date /\
    prop (body ctx) "isChecked" = JBool isChecked.
Proof.
  unfold valid_request, post_tasks_schema. cbn. intros Hv.
  repeat (apply andb_prop in Hv as [Hv ?]).
  destruct (prop (body ctx) "title"); try discriminate;
    destruct (prop (body ctx) "date"); try discriminate;
    destruct (prop (body ctx) "isChecked"); try discriminate; eauto 10.
Qed.

Lemma upload_body_fields (ctx : Context) :
  valid_request post_profile_image_schema ctx = true ->
  exists file,
    prop (body ctx) "image" = JFile file /\
    File.type file ∈ ["image/jpeg"; "image/png"; "image/gif"] /\
    File.size file <= 5 * 1024 * 1024.
Proof.
  unfold valid_request, post_profile_image_schema. cbn. intros Hv.
  repeat (apply andb_prop in Hv as [Hv ?]).
  destruct (prop (body ctx) "image") as [| | | | |file]; try discriminate.
  cbn in Hv. apply andb_prop in Hv as [Htype Hsize].
  exists file. split_and!; [reflexivity | now apply bool_decide_eq_true in Htype |].
  now apply Z.leb_le in Hsize.
Qed.

Lemma truthy_nonempty (s : string) : s <> "" -> truthy (JStr s) = true.
Proof. intros Hs. rewrite truthy_JStr. now apply bool_decide_eq_true. Qed.

(** The two files change the world alike. *)
Lemma worlds_agree (r : Route) (ctx : Context) (e : Env) (w : World) :
  (Part000.app r ctx e w).2 = (Index.app r ctx e w).2.
Proof.
  unfold Part000.app, Index.app, route.
  destruct (valid_request (schema_of r) ctx); [|reflexivity].
  unfold respond. rewrite handlers_agree.
  now destruct (Index.handler_of r ctx e w) as [[a|a|x] w'].
Qed.

Lemma effect_of_index (r : Route) (ctx : Context) (e : Env) (w : World) :
  Effect ctx e w r (Index.app r ctx e w).2.
Proof.
  unfold Index.app, route.
  destruct (valid_request (schema_of r) ctx) eqn:Hv; [|constructor].
  destruct (caller e ctx) as [u|] eqn:Hc.
  2:{ destruct r; unfold respond; cbn [Index.handler_of];
      unfold Index.post_tasks, Index.get_tasks, Index.patch_tasks,
        Index.get_profile, Index.post_profile_image; rewrite run_auth;
      unfold caller, bearer in Hc; rewrite Hc; constructor. }
  pose proof Hc as Hc'. unfold caller, bearer in Hc'.
  destruct r; cbn [schema_of] in Hv; unfold respond; cbn [Index.handler_of].
  - (* POST /tasks *)
    destruct (post_body_fields ctx Hv) as (title & date & c & Ht & Hd & Hb).
    unfold Index.post_tasks. rewrite run_auth, Hc', Ht, Hd, Hb.
    destruct (decide (title = "")) as [->|Htne]; [constructor|].
    destruct (decide (date = "")) as [->|Hdne].
    { unfold bind, return_if. rewrite (truthy_nonempty title Htne). constructor. }
    unfold bind at 1. unfold return_if.
    rewrite (truthy_nonempty title Htne), (truthy_nonempty date Hdne).
    cbn. now apply (task_created ctx e w u title date c).
  - (* GET /tasks *)
    unfold Index.get_tasks. rewrite run_auth, Hc'.
    destruct (given (query ctx !! "search")) eqn:Hg; [|constructor].
    apply given_Some in Hg as (s & Hq & _). rewrite Hq. constructor.
  - (* PATCH /tasks/:id *)
    unfold Index.patch_tasks. rewrite run_auth, Hc'.
    destruct (Number (params ctx !! "id")) as [i|] eqn:Hn; [|constructor].
    cbn. destruct (tasks w !! i) as [task|] eqn:Hi; [|constructor].
    destruct (decide (Task.userId task = JwtUserPayload.id u)) as [Hown|Hother].
    2:{ rewrite bool_decide_eq_true_2 by assumption. constructor. }
    rewrite bool_decide_eq_false_2 by (intros Hne; now apply Hne). cbn.
    assert ((let (s, w') :=
               bind
                 (prisma.task.update (Some i)
                    (prisma.mkTaskUpdateInput
                       (if defined (prop (body ctx) "title")
                        then Some (prop (body ctx) "title") else None)
                       (if defined (prop (body ctx) "date")
                        then Some (prop (body ctx) "date") else None)
                       (if defined (prop (body ctx) "isChecked")
                        then Some (prop (body ctx) "isChecked") else None)))
                 (fun updated => ret (ok (BTask updated))) e w in
             match s with
             | Next r | Return r => (r, w')
             | Throw x => (status 500 (BFailure x), w')
             end).2 = set_tasks <[i := merged task (body ctx)]> w) as ->.
    { destruct (patch_body_fields ctx Hv) as (Htitle & Hdate & Hchecked).
      unfold merged.
      destruct Htitle as [->|[? ->]], Hdate as [->|[? ->]],
        Hchecked as [->|[? ->]];
        unfold prisma.task.update, bind; cbn; rewrite Hi; reflexivity. }
    now apply (task_patched ctx e w u i task).
  - (* GET /profile *)
    unfold Index.get_profile. rewrite run_auth, Hc'. cbn.
    destruct (users w !! JwtUserPayload.id u); constructor.
  - (* POST /profile/image *)
    destruct (upload_body_fields ctx Hv) as (file & Hf & _ & _).
    unfold Index.post_profile_image. rewrite run_auth, Hc', Hf. cbn [name_of].
    destruct (decide (File.name file = "")) as [Hname|Hname].
    { rewrite Hname. constructor. }
    rewrite (truthy_nonempty _ Hname).
    unfold prisma.user.update_image, bind. cbn.
    destruct (users w !! JwtUserPayload.id u) as [user|] eqn:Hu.
    + now apply (image_replaced ctx e w u file user).
    + now apply (file_orphaned ctx e w u file).
Qed.

End Effects.

Section Frames.
Context `{jwt.Codec, Ecma, NodePath}.

(** X1.  Whatever the request, a protected route leaves the world as it
    was or makes exactly one of four changes: POST /tasks adds one task
    under the next id, owned by the caller, with a non-empty title and
    date; PATCH /tasks/:id replaces one task of the caller by its merge
    with the body; POST /profile/image writes the file and sets the
    caller's image to its path, or, when the caller is no stored user,
    only writes the file.  The two files leave the same world behind. *)
Theorem request_effects (r : Route) (ctx : Context) (e : Env) (w : World) :
  Effect ctx e w r (Index.app r ctx e w).2 /\
  Effect ctx e w r (Part000.app r ctx e w).2 /\
  (Part000.app r ctx e w).2 = (Index.app r ctx e w).2.
Proof.
  split_and!; [| rewrite worlds_agree | apply worlds_agree];
    apply effect_of_index.
Qed.

(** X2.  GET /tasks and GET /profile never change the world, whatever the
    request and whoever sends it. *)
Theorem reads_change_nothing (r : Route) (ctx : Context) (e : Env) (w : World) :
  r = GET_tasks \/ r = GET_profile ->
  (Index.app r ctx e w).2 = w /\ (Part000.app r ctx e w).2 = w.
Proof.
  intros Hr. rewrite worlds_agree.
  pose proof (effect_of_index r ctx e w) as Heff.
  remember (Index.app r ctx e w).2 as w' eqn:Hw'. clear Hw'.
  destruct Heff; try (destruct Hr; discriminate). now split.
Qed.

(** X3.  In a well-formed world no request deletes a task, changes a
    task's id or owner, or changes a task of anybody but the caller: a
    task that differs afterwards belonged to the authenticated caller and
    was addressed by a PATCH. *)
Theorem tasks_change_only_by_owner
  (r : Route) (ctx : Context) (e : Env) (w : World) (j : Z) (task : Task.t) :
  well_formed w ->
  tasks w !! j = Some task ->
  exists task',
    tasks (Index.app r ctx e w).2 !! j = Some task' /\
    tasks (Part000.app r ctx e w).2 !! j = Some task' /\
    Task.id task' = Task.id task /\
    Task.userId task' = Task.userId task /\
    (task' <> task ->
     r = PATCH_tasks_id /\
     Number (params ctx !! "id") = Some j /\
     exists u, caller e ctx = Some u /\ JwtUserPayload.id u = Task.userId task).
Proof.
  intros (_ & Hkeys & _) Hj. rewrite worlds_agree.
  pose proof (effect_of_index r ctx e w) as Heff.
  remember (Index.app r ctx e w).2 as w' eqn:Hw'. clear Hw'.
  destruct Heff as [ r | u title date c Hc _ _ _ _ _ | u i old Hc Hn Hi Hown Hv
                   | u file Hc _ _ _ | u file user Hc _ _ _ ]; cbn.
  - exists task. split_and!; auto. intros Hne. now destruct Hne.
  - exists task. destruct (Hkeys j task Hj) as [_ Hlt].
    rewrite lookup_insert_ne by lia. split_and!; auto.
    intros Hne. now destruct Hne.
  - destruct (decide (i = j)) as [->|Hij].
    + rewrite Hj in Hi. injection Hi as <-.
      exists (merged task (body ctx)). rewrite lookup_insert_eq.
      split_and!; auto. intros _. split_and!; eauto.
    + exists task. rewrite lookup_insert_ne by assumption.
      split_and!; auto. intros Hne. now destruct Hne.
  - exists task. split_and!; auto. intros Hne. now destruct Hne.
  - exists task. split_and!; auto. intros Hne. now destruct Hne.
Qed.

(** X4.  No request to a protected route deletes a user or changes a
    user's id, email or password; the image changes only for the
    authenticated caller, through POST /profile/image. *)
Theorem users_keep_their_credentials
  (r : Route) (ctx : Context) (e : Env) (w : World) (j : Z) (user : User.t) :
  users w !! j = Some user ->
  exists user',
    users (Index.app r ctx e w).2 !! j = Some user' /\
    users (Part000.app r ctx e w).2 !! j = Some user' /\
    User.id user' = User.id user /\
    User.email user' = User.email user /\
    User.password user' = User.password user /\
    (User.image user' <> User.image user ->
     r = POST_profile_image /\
     exists u, caller e ctx = Some u /\ JwtUserPayload.id u = j).
Proof.
  intros Hj. rewrite worlds_agree.
  pose proof (effect_of_index r ctx e w) as Heff.
  remember (Index.app r ctx e w).2 as w' eqn:Hw'. clear Hw'.
  destruct Heff as [ r | u title date c Hc _ _ _ _ _ | u i old Hc Hn Hi Hown Hv
                   | u file Hc _ _ Hu | u file old Hc _ _ Hu ]; cbn.
  1-4: exists user; split_and!; auto; intros Hne; now destruct Hne.
  destruct (decide (JwtUserPayload.id u = j)) as [Huj|Huj].
  - rewrite Huj, Hj in Hu. injection Hu as <-.
    exists (with_image (upload_path u e file) user).
    rewrite Huj, lookup_insert_eq. split_and!; eauto.
  - exists user. rewrite lookup_insert_ne by assumption.
    split_and!; auto. intros Hne. now destruct Hne.
Qed.

(** X5.  Well-formedness of the store is an invariant of every protected
    route, in both files: rows stay under their ids, ids stay below the
    next id, emails stay unique. *)
Theorem protected_routes_keep_well_formed
  (r : Route) (ctx : Context) (e : Env) (w : World) :
  well_formed w ->
  well_formed (Index.app r ctx e w).2 /\ well_formed (Part000.app r ctx e w).2.
Proof.
  intros Hwf. rewrite worlds_agree.
  enough (well_formed (Index.app r ctx e w).2) by auto.
  pose proof Hwf as (Husers & Htasks & Hemails).
  pose proof (effect_of_index r ctx e w) as Heff.
  remember (Index.app r ctx e w).2 as w' eqn:Hw'. clear Hw'.
  destruct Heff as [ r | u title date c Hc _ _ _ _ _ | u i old Hc Hn Hi Hown Hv
                   | u file Hc _ _ Hu | u file old Hc _ _ Hu ].
  - exact Hwf.
  - split_and!; cbn; [exact Husers | | exact Hemails].
    intros j task [[<- <-]|[Hne Hj]]%lookup_insert_Some; cbn; [lia|].
    destruct (Htasks j task Hj). lia.
  - split_and!; cbn; [exact Husers | | exact Hemails].
    intros j task [[<- <-]|[Hne Hj]]%lookup_insert_Some; cbn.
    + apply (Htasks i old Hi).
    + apply (Htasks j task Hj).
  - exact Hwf.
  - assert (forall j v, <[JwtUserPayload.id u :=
                            with_image (upload_path u e file) old]> (users w) !! j
                        = Some v ->
                        exists v0, users w !! j = Some v0 /\ User.id v = User.id v0
                                   /\ User.email v = User.email v0) as Hback.
    { intros j v [[<- <-]|[Hne Hj]]%lookup_insert_Some; eauto. }
    split_and!; cbn; [ | exact Htasks | ].
    + intros j v Hj. destruct (Hback j v Hj) as (v0 & Hj0 & -> & _).
      apply (Husers j v0 Hj0).
    + intros j k v v' Hj Hk Heq.
      destruct (Hback j v Hj) as (v0 & Hj0 & _ & Hev).
      destruct (Hback k v' Hk) as (v0' & Hk0 & _ & Hev').
      apply (Hemails j k v0 v0' Hj0 Hk0). congruence.
Qed.

End Frames.

Ltac by_computation :=
  match goal with
  | |- ?P => apply (bool_decide_unpack P); vm_compute; exact I
  end.

(** The fixture world is well formed. *)
Lemma fixture_world_well_formed : well_formed Fixture.world.
Proof.
  split_and!.
  - change (map_Forall (fun i user => User.id user = i /\ i < 3)
                       (users Fixture.world)).
    by_computation.
  - change (map_Forall (fun i task => Task.id task = i /\ i < 3)
                       (tasks Fixture.world)).
    by_computation.
  - intros i j u v Hi Hj.
    revert j v Hj. change (map_Forall (fun j v => User.email u = User.email v -> i = j)
                                      (users Fixture.world)).
    revert i u Hi.
    change (map_Forall
              (fun i u =>
                 map_Forall (fun j v => User.email u = User.email v -> i = j)
                            (users Fixture.world))
              (users Fixture.world)).
    by_computation.
Qed.

(** User 1 lists the tasks. *)
Lemma reads_change_nothing_witness :
  (@Index.app Fixture.codec Fixture.ecma Fixture.nodepath
     GET_tasks (Fixture.list_with ∅) Fixture.env Fixture.world).2 = Fixture.world /\
  (@Part000.app Fixture.codec Fixture.ecma Fixture.nodepath
     GET_tasks (Fixture.list_with ∅) Fixture.env Fixture.world).2 = Fixture.world.
Proof.
  apply (@reads_change_nothing Fixture.codec Fixture.ecma Fixture.nodepath).
  left. reflexivity.
Defined.

(** User 1 patches task 1; task 2, of user 2, is as it was. *)
Lemma tasks_change_only_by_owner_witness :
  tasks (@Index.app Fixture.codec Fixture.ecma Fixture.nodepath
           PATCH_tasks_id (Fixture.patch_check "1") Fixture.env Fixture.world).2
    !! 2 = Some Fixture.task2.
Proof.
  destruct (@tasks_change_only_by_owner
              Fixture.codec Fixture.ecma Fixture.nodepath
              PATCH_tasks_id (Fixture.patch_check "1") Fixture.env Fixture.world
              2 Fixture.task2 fixture_world_well_formed eq_refl)
    as (task' & Hafter & _ & _ & _ & Hchanged).
  destruct (decide (task' = Fixture.task2)) as [<-|Hne]; [exact Hafter|].
  destruct (Hchanged Hne) as (_ & Hid & _). discriminate Hid.
Defined.

(** User 1 uploads an image; user 2 is as before. *)
Lemma users_keep_their_credentials_witness :
  users (@Index.app Fixture.codec Fixture.ecma Fixture.nodepath
           POST_profile_image
           (Fixture.upload (File.mk "me.png" "image/png" 5 "bytes"))
           Fixture.env Fixture.world).2
    !! 2 = Some Fixture.bob.
Proof.
  destruct (@users_keep_their_credentials
              Fixture.codec Fixture.ecma Fixture.nodepath
              POST_profile_image
              (Fixture.upload (File.mk "me.png" "image/png" 5 "bytes"))
              Fixture.env Fixture.world 2 Fixture.bob eq_refl)
    as (user' & Hafter & _ & Hid & Hemail & Hpassword & Himage).
  destruct (decide (User.image user' = User.image Fixture.bob)) as [Heq|Hne].
  - rewrite Hafter. f_equal. destruct user'. cbn in *. now subst.
  - destruct (Himage Hne) as (_ & u & Hc & Hu).
    vm_compute in Hc. injection Hc as <-. discriminate Hu.
Defined.

Lemma protected_routes_keep_well_formed_witness :
  well_formed
    (@Index.app Fixture.codec Fixture.ecma Fixture.nodepath
       POST_tasks
       (Fixture.create_with
          {[ "title" := JStr "x"; "date" := JStr "2024-02-02";
             "isChecked" := JBool false ]})
       Fixture.env Fixture.world).2.
Proof.
  apply (@protected_routes_keep_well_formed
           Fixture.codec Fixture.ecma Fixture.nodepath).
  exact fixture_world_well_formed.
Defined.

(** * Further properties: the Authorization header *)

Lemma split_whole (sep : ascii) (s : string) :
  occurs sep s = false -> split sep s = [s].
Proof.
  induction s as [|a s IH]; [reflexivity|]. cbn [occurs split].
  intros [Ha Hs]%orb_false_elim. apply bool_decide_eq_false in Ha.
  rewrite decide_False by assumption. now rewrite (IH Hs).
Qed.

Lemma split_first (sep : ascii) (s rest : string) :
  occurs sep s = false ->
  split sep (s +:+ String sep rest) = s :: split sep rest.
Proof.
  induction s as [|a s IH].
  - intros _. change ("" +:+ String sep rest) with (String sep rest).
    cbn [split]. now rewrite decide_True.
  - cbn [occurs]. intros [Ha Hs]%orb_false_elim. apply bool_decide_eq_false in Ha.
    change (String a s +:+ String sep rest) with (String a (s +:+ String sep rest)).
    cbn [split]. rewrite decide_False by assumption. now rewrite (IH Hs).
Qed.

Section Header.
Context `{jwt.Codec, Ecma, NodePath}.

(** X6.  The handlers never look at the scheme of the Authorization
    header: for a scheme and a token without spaces, every protected
    route of both files treats a request whose header is
    [<scheme> <token>], or that followed by further words, exactly as it
    treats the same request with the header [Bearer <token>]: same
    answer, same world. *)
Theorem scheme_is_not_checked
  (r : Route) (ctx ctx' : Context) (e : Env) (w : World)
  (scheme token : string) :
  occurs " " scheme = false ->
  occurs " " token = false ->
  body ctx' = body ctx -> query ctx' = query ctx -> params ctx' = params ctx ->
  headers ctx !! "authorization" = Some ("Bearer " +:+ token) ->
  headers ctx' !! "authorization" = Some (scheme +:+ " " +:+ token)
  \/ (exists rest,
         headers ctx' !! "authorization"
         = Some (scheme +:+ " " +:+ token +:+ " " +:+ rest)) ->
  Index.app r ctx' e w = Index.app r ctx e w /\
  Part000.app r ctx' e w = Part000.app r ctx e w.
Proof.
  intros Hscheme Htoken Hb Hq Hp Hbearer Hother.
  assert (forall c h, split " " h !! 1%nat = Some token ->
                      headers c !! "authorization" = Some h ->
                      caller e c = verified e (Some token)) as Hgo.
  { intros c h Hh Hhdr. unfold caller, bearer. rewrite Hhdr. cbn. now rewrite Hh. }
  apply handlers_read_headers_through_caller; [assumption..|].
  transitivity (verified e (Some token)); [|symmetry].
  - destruct Hother as [Hhdr | [rest Hhdr]]; apply (Hgo _ _) with (2 := Hhdr).
    + change (scheme +:+ " " +:+ token) with (scheme +:+ String " " token).
      now rewrite (split_first _ _ _ Hscheme), (split_whole _ _ Htoken).
    + change (scheme +:+ " " +:+ token +:+ " " +:+ rest)
        with (scheme +:+ String " " (token +:+ String " " rest)).
      now rewrite (split_first _ _ _ Hscheme), (split_first _ _ _ Htoken).
  - apply (Hgo _ _) with (2 := Hbearer).
    change ("Bearer " +:+ token) with ("Bearer" +:+ String " " token).
    now rewrite (split_first " " "Bearer" token eq_refl), (split_whole _ _ Htoken).
Qed.

End Header.

(** GET /profile of user 1 under [Basic t1] is answered as under
    [Bearer t1]: with the profile. *)
Lemma scheme_is_not_checked_witness :
  let app := @Index.app Fixture.codec Fixture.ecma Fixture.nodepath in
  let basic := mkContext {[ "authorization" := "Basic t1" ]} ∅ ∅ ∅ in
  app GET_profile basic Fixture.env Fixture.world
  = app GET_profile Fixture.profile Fixture.env Fixture.world
  /\ app GET_profile basic Fixture.env Fixture.world
     = (ok (BProfile "a@example.com" "" 1 0), Fixture.world).
Proof.
  cbv zeta. split; [|vm_compute; reflexivity].
  apply (@scheme_is_not_checked Fixture.codec Fixture.ecma Fixture.nodepath
           GET_profile Fixture.profile
           (mkContext {[ "authorization" := "Basic t1" ]} ∅ ∅ ∅)
           Fixture.env Fixture.world "Basic" "t1");
    [reflexivity | reflexivity | reflexivity | reflexivity | reflexivity
    | vm_compute; reflexivity | left; vm_compute; reflexivity].
Defined.

(** * Further properties: how the task routes compose *)

Section Composition.
Context `{jwt.Codec, Ecma, NodePath}.

(** What POST /tasks does with a complete body. *)
Lemma post_tasks_run
  (ctx : Context) (e : Env) (w : World) (u : JwtUserPayload.t)
  (title date : string) (isChecked : bool) :
  caller e ctx = Some u ->
  prop (body ctx) "title" = JStr title -> title <> "" ->
  prop (body ctx) "date" = JStr date -> date <> "" ->
  prop (body ctx) "isChecked" = JBool isChecked ->
  let task := Task.mk (task_seq w) (JwtUserPayload.id u) title date isChecked in
  Index.app POST_tasks ctx e w
  = (ok (BTask task),
     set_task_seq (task_seq w + 1) (set_tasks <[task_seq w := task]> w)).
Proof.
  intros Hc Ht Htne Hd Hdne Hb task.
  assert (valid_request post_tasks_schema ctx = true) as Hv.
  { unfold valid_request, post_tasks_schema. cbn. now rewrite Ht, Hd, Hb. }
  enter Hc. rewrite Hv, Ht, Hd, Hb. cbn [bind return_if]. unfold bind at 1.
  rewrite (truthy_nonempty _ Htne), (truthy_nonempty _ Hdne). reflexivity.
Qed.

(** What GET /tasks answers when no search term is given. *)
Lemma get_tasks_run (ctx : Context) (e : Env) (w : World) (u : JwtUserPayload.t) :
  caller e ctx = Some u ->
  given (query ctx !! "search") = false ->
  exists rows,
    Index.app GET_tasks ctx e w = (ok (BTasks rows), w) /\
    forall row, row ∈ rows <-> listed w u ctx row.
Proof.
  intros Hc Hs. eexists. split.
  - enter Hc. rewrite get_tasks_always_valid, Hs. reflexivity.
  - intros row. apply task_matches_listed.
Qed.

(** What GET /tasks answers when a search term is given: the store
    refuses the query, and nothing catches that. *)
Lemma get_tasks_search_run
  (ctx : Context) (e : Env) (w : World) (u : JwtUserPayload.t) :
  caller e ctx = Some u ->
  given (query ctx !! "search") = true ->
  Index.app GET_tasks ctx e w
  = (status 500 (BFailure "PrismaClientValidationError"), w) /\
  Part000.app GET_tasks ctx e w
  = (status 500 (BFailure "PrismaClientValidationError"), w).
Proof.
  intros Hc Hs. pose proof Hs as (s & Hq & _)%given_Some.
  split; enter Hc; rewrite get_tasks_always_valid, Hs, Hq; reflexivity.
Qed.

(** Where index.ts answers 200, part_000 gives the same answer. *)
Lemma agree_on_success
  (r : Route) (ctx : Context) (e : Env) (w w' : World) (answer : Response) :
  Index.app r ctx e w = (answer, w') ->
  code answer = 200 ->
  Part000.app r ctx e w = (answer, w').
Proof.
  unfold Part000.app, Index.app, route.
  destruct (valid_request (schema_of r) ctx); [|auto].
  unfold respond. rewrite handlers_agree.
  destruct (Index.handler_of r ctx e w) as [[a|a|x] w0]; cbn; auto.
  intros [= <- <-] Hcode. unfold flatten.
  destruct (payload a); try reflexivity.
  rewrite bool_decide_eq_false_2; [reflexivity|]. rewrite Hcode.
  rewrite !elem_of_cons, elem_of_nil. intros [?|[?|[?|[]]]]; discriminate.
Qed.

(** X7.  A task created by POST /tasks is in the answer to the creator's
    next unfiltered GET /tasks, with the id, owner and values the creation
    returned, and is in no answer to anybody else's GET /tasks: a listing
    without a search term answers and leaves it out, and no answer at all
    contains it. *)
Theorem created_task_is_listed_to_its_owner_only
  (app : Route -> Context -> Env -> World -> Response * World)
  (create : Context) (e : Env) (w : World) (u : JwtUserPayload.t)
  (title date : string) (isChecked : bool) :
  app = Index.app \/ app = Part000.app ->
  caller e create = Some u ->
  prop (body create) "title" = JStr title -> title <> "" ->
  prop (body create) "date" = JStr date -> date <> "" ->
  prop (body create) "isChecked" = JBool isChecked ->
  let task := Task.mk (task_seq w) (JwtUserPayload.id u) title date isChecked in
  let w' := (app POST_tasks create e w).2 in
  (app POST_tasks create e w).1 = ok (BTask task) /\
  (forall list e',
      caller e' list = Some u ->
      query list !! "date" = None ->
      query list !! "search" = None ->
      exists rows,
        app GET_tasks list e' w' = (ok (BTasks rows), w') /\ task ∈ rows) /\
  (forall list e' v,
      caller e' list = Some v ->
      JwtUserPayload.id v <> JwtUserPayload.id u ->
      (query list !! "search" = None \/ query list !! "search" = Some "" ->
       exists rows,
         app GET_tasks list e' w' = (ok (BTasks rows), w') /\ task ∉ rows) /\
      (forall rows,
          (app GET_tasks list e' w').1 = ok (BTasks rows) -> task ∉ rows)).
Proof.
  intros Happ Hc Ht Htne Hd Hdne Hb task w'. subst w'.
  pose proof (post_tasks_run create e w u title date isChecked Hc Ht Htne Hd Hdne Hb)
    as Hcreate. cbv zeta in Hcreate. fold task in Hcreate.
  assert (app POST_tasks create e w
          = (ok (BTask task),
             set_task_seq (task_seq w + 1) (set_tasks <[task_seq w := task]> w)))
    as ->.
  { destruct Happ as [-> | ->]; [exact Hcreate|].
    now apply (agree_on_success POST_tasks create e w _ _ Hcreate). }
  assert (forall list e' w0 v,
             caller e' list = Some v ->
             given (query list !! "search") = false ->
             exists rows,
               app GET_tasks list e' w0 = (ok (BTasks rows), w0) /\
               forall row, row ∈ rows <-> listed w0 v list row) as Hlist.
  { intros list e' w0 v Hl Hs.
    destruct (get_tasks_run list e' w0 v Hl Hs) as (rows & Hrun & Hrows).
    exists rows. split; [|exact Hrows].
    destruct Happ as [-> | ->]; [exact Hrun|].
    now apply (agree_on_success GET_tasks list e' w0 _ _ Hrun). }
  assert (forall list e' w0 v,
             caller e' list = Some v ->
             given (query list !! "search") = true ->
             app GET_tasks list e' w0
             = (status 500 (BFailure "PrismaClientValidationError"), w0))
    as Hrefused.
  { intros list e' w0 v Hl Hs.
    destruct (get_tasks_search_run list e' w0 v Hl Hs) as [Hindex Hpart].
    now destruct Happ as [-> | ->]. }
  cbn [fst snd]. split_and!; [reflexivity | |].
  - intros list e' Hl Hdate Hsearch.
    destruct (Hlist list e'
                (set_task_seq (task_seq w + 1) (set_tasks <[task_seq w := task]> w))
                u Hl) as (rows & Hrun & Hrows).
    { apply given_unset. now left. }
    exists rows. split; [exact Hrun|]. apply Hrows. split_and!.
    + exists (task_seq w). cbn. apply lookup_insert_eq.
    + reflexivity.
    + intros d Hq. congruence.
  - intros list e' v Hl Hv.
    assert (given (query list !! "search") = false ->
            exists rows,
              app GET_tasks list e'
                (set_task_seq (task_seq w + 1) (set_tasks <[task_seq w := task]> w))
              = (ok (BTasks rows),
                 set_task_seq (task_seq w + 1)
                   (set_tasks <[task_seq w := task]> w))
              /\ task ∉ rows) as Hleft_out.
    { intros Hs.
      destruct (Hlist list e'
                  (set_task_seq (task_seq w + 1)
                     (set_tasks <[task_seq w := task]> w))
                  v Hl Hs) as (rows & Hrun & Hrows).
      exists rows. split; [exact Hrun|]. intros Hin.
      apply Hrows in Hin as (_ & Howner & _). cbn in Howner. congruence. }
    split.
    + intros Hs. apply Hleft_out. now apply given_unset.
    + intros rows.
      destruct (given (query list !! "search")) eqn:Hs.
      * rewrite (Hrefused list e' _ v Hl Hs). discriminate.
      * destruct (Hleft_out eq_refl) as (rows' & -> & Hout).
        cbn [fst]. now intros [= <-].
Qed.


(** X8.  Whenever GET /profile answers with statistics, [completed] lies
    between 0 and [total]. *)
Theorem profile_completed_within_total
  (ctx : Context) (e : Env) (w : World)
  (email image : string) (total completed : Z) :
  payload (Index.app GET_profile ctx e w).1 = BProfile email image total completed
  \/ payload (Part000.app GET_profile ctx e w).1
     = BProfile email image total completed ->
  0 <= completed <= total.
Proof.
  assert (payload (Index.app GET_profile ctx e w).1
          = BProfile email image total completed -> 0 <= completed <= total) as Hindex.
  { unfold Index.app, route. cbn [schema_of valid_request get_profile_schema
      body_schema query_schema params_schema from_option andb].
    unfold respond. cbn [Index.handler_of]. unfold Index.get_profile.
    rewrite run_auth. destruct (verified e _) as [u|]; [|discriminate].
    cbn. destruct (users w !! JwtUserPayload.id u) as [user|]; [|discriminate].
    cbn. intros [= _ _ <- <-]. split; [lia|].
    apply inj_le, length_filter. }
  intros [Hp|Hp]; [now apply Hindex|]. apply Hindex.
  rewrite <- Hp. clear Hp Hindex.
  unfold Part000.app, Index.app, route.
  destruct (valid_request (schema_of GET_profile) ctx); [|reflexivity].
  unfold respond. rewrite handlers_agree.
  destruct (Index.handler_of GET_profile ctx e w) as [[a|a|x] w']; try reflexivity.
  cbn. unfold flatten. destruct (payload a) eqn:Hp; rewrite ?Hp; try reflexivity.
  destruct (bool_decide _); [reflexivity | now rewrite Hp].
Qed.

(** X9.  POST /profile/image writes the file before it updates the user
    row: for a caller whose token is valid but who is no stored user, an
    acceptable upload ends in an uncaught exception (status 500) with the
    file left under uploads/ and no user changed. *)
Theorem upload_without_user_leaves_file
  (ctx : Context) (e : Env) (w : World) (u : JwtUserPayload.t) (file : File.t) :
  caller e ctx = Some u ->
  prop (body ctx) "image" = JFile file ->
  File.type file ∈ ["image/jpeg"; "image/png"; "image/gif"] ->
  File.size file <= 5 * 1024 * 1024 ->
  File.name file <> "" ->
  users w !! JwtUserPayload.id u = None ->
  let failure := status 500 (BFailure "PrismaClientKnownRequestError: P2025") in
  Index.app POST_profile_image ctx e w = (failure, with_upload u e file w) /\
  Part000.app POST_profile_image ctx e w = (failure, with_upload u e file w) /\
  files (with_upload u e file w) !! upload_path u e file = Some (File.bytes file) /\
  users (with_upload u e file w) = users w.
Proof.
  intros Hc Hf Htype Hsize Hname Hu failure.
  assert (valid_request post_profile_image_schema ctx = true) as Hv.
  { unfold valid_request, post_profile_image_schema. cbn. rewrite Hf. cbn.
    rewrite !andb_true_r. apply andb_true_intro. split.
    - now apply bool_decide_eq_true.
    - now apply Z.leb_le. }
  split_and!.
  - enter Hc. rewrite Hv, Hf. cbn [name_of]. rewrite (truthy_nonempty _ Hname).
    unfold prisma.user.update_image, bind. cbn. rewrite Hu. reflexivity.
  - enter Hc. rewrite Hv, Hf. cbn [name_of]. rewrite (truthy_nonempty _ Hname).
    unfold prisma.user.update_image, bind. cbn. rewrite Hu. reflexivity.
  - cbn. apply lookup_insert_eq.
  - reflexivity.
Qed.

End Composition.

(** * Further properties: registration *)

Section RegistrationEffects.
Context `{bcrypt.Digest}.

Lemma register_body_fields (ctx : Context) :
  valid_request register_schema ctx = true ->
  exists email password,
    prop (body ctx) "email" = JStr email /\
    prop (body ctx) "password" = JStr password.
Proof.
  unfold valid_request, register_schema. cbn. intros Hv.
  repeat (apply andb_prop in Hv as [Hv ?]).
  destruct (prop (body ctx) "email"); try discriminate;
    destruct (prop (body ctx) "password"); try discriminate; eauto.
Qed.

(** POST /register either changes nothing or adds one user, under the next
    id, with an email nobody had, the digest of the submitted password and
    no image. *)
Lemma register_effect (ctx : Context) (e : Env) (w : World) :
  (Part000.app_register ctx e w).2 = w \/
  exists email password,
    prop (body ctx) "email" = JStr email /\ email <> "" /\
    prop (body ctx) "password" = JStr password /\ password <> "" /\
    prisma.by_email email (users w) = None /\
    Part000.app_register ctx e w
    = (ok (BMessage "Registered successfully"),
       with_user email (bcrypt.digest password 10 (entropy e)) w).
Proof.
  unfold Part000.app_register, route.
  destruct (valid_request register_schema ctx) eqn:Hv; [|now left].
  destruct (register_body_fields ctx Hv) as (email & password & He & Hp).
  unfold respond, Part000.register. rewrite He, Hp.
  destruct (decide (email = "")) as [->|Hene]; [now left|].
  destruct (decide (password = "")) as [->|Hpne].
  { left. unfold bind, return_if. now rewrite (truthy_nonempty _ Hene). }
  rewrite (truthy_nonempty _ Hene), (truthy_nonempty _ Hpne).
  unfold prisma.user.findUnique_email, prisma.user.create, bind. cbn.
  destruct (prisma.by_email email (users w)) as [existing|] eqn:Hfind.
  - left. cbn. reflexivity.
  - right. exists email, password. cbn. rewrite Hfind. split_and!; auto.
Qed.

(** X10.  POST /register never stores the submitted password.  Whatever
    the request, tasks, the task counter and the upload directory are
    untouched, and every user in the store afterwards was there before,
    unchanged, or is the one new user, whose stored password is the bcrypt
    digest (cost 10) of the submitted one, which by the hasher's law
    differs from it. *)
Theorem register_stores_only_the_digest (ctx : Context) (e : Env) (w : World) :
  let w' := (Part000.app_register ctx e w).2 in
  tasks w' = tasks w /\
  task_seq w' = task_seq w /\
  dirs w' = dirs w /\
  files w' = files w /\
  forall j user,
    users w' !! j = Some user ->
    users w !! j = Some user
    \/ exists email password,
        prop (body ctx) "email" = JStr email /\
        prop (body ctx) "password" = JStr password /\
        j = user_seq w /\
        user = User.mk (user_seq w) email
                 (bcrypt.digest password 10 (entropy e)) "" /\
        User.password user <> password.
Proof.
  cbv zeta.
  destruct (register_effect ctx e w)
    as [Hsame|(email & password & He & _ & Hp & _ & _ & Hrun)].
  - rewrite Hsame. split_and!; auto.
  - rewrite Hrun. cbn. split_and!; [reflexivity..|].
    intros j user [[<- <-]|[Hne Hj]]%lookup_insert_Some; [right | now left].
    exists email, password. split_and!; auto.
    cbn. apply bcrypt.digest_opaque.
Qed.

(** X11.  POST /register for an email some stored user already has
    answers [{error: "User exists"}] and changes nothing, whatever the
    password, as long as neither is empty. *)
Theorem register_refuses_known_email
  (ctx : Context) (e : Env) (w : World) (email password : string)
  (i : Z) (user : User.t) :
  prop (body ctx) "email" = JStr email -> email <> "" ->
  prop (body ctx) "password" = JStr password -> password <> "" ->
  users w !! i = Some user ->
  User.email user = email ->
  Part000.app_register ctx e w = (ok (BError "User exists"), w).
Proof.
  intros He Hene Hp Hpne Hi Hemail.
  assert (valid_request register_schema ctx = true) as Hv.
  { unfold valid_request, register_schema. cbn. now rewrite He, Hp. }
  unfold Part000.app_register, route. rewrite Hv.
  unfold respond, Part000.register. rewrite He, Hp.
  rewrite (truthy_nonempty _ Hene), (truthy_nonempty _ Hpne).
  unfold prisma.user.findUnique_email, bind. cbn.
  destruct (prisma.by_email email (users w)) as [existing|] eqn:Hfind.
  - reflexivity.
  - exfalso. eapply by_email_None; eauto.
Qed.

(** X12.  POST /register keeps the store well formed; in particular the
    handler's own lookup keeps emails unique. *)
Theorem register_keeps_well_formed (ctx : Context) (e : Env) (w : World) :
  well_formed w -> well_formed (Part000.app_register ctx e w).2.
Proof.
  intros Hwf.
  destruct (register_effect ctx e w)
    as [->|(email & password & _ & _ & _ & _ & Hfresh & ->)]; [exact Hwf|].
  destruct Hwf as (Husers & Htasks & Hemails).
  assert (forall i u, users w !! i = Some u -> User.email u <> email) as Hnew
      by now apply by_email_None.
  split_and!; cbn.
  - intros j user [[<- <-]|[Hne Hj]]%lookup_insert_Some; cbn; [lia|].
    destruct (Husers j user Hj). lia.
  - exact Htasks.
  - intros j k u v [[<- <-]|[Hnj Hj]]%lookup_insert_Some
                    [[<- <-]|[Hnk Hk]]%lookup_insert_Some; cbn; intros Heq.
    + reflexivity.
    + now destruct (Hnew k v Hk).
    + now destruct (Hnew j u Hj).
    + now apply (Hemails j k u v).
Qed.

End RegistrationEffects.

(** * Further properties: login *)

Section Login.
Context `{jwt.Codec, bcrypt.Digest, !Issuer, !Comparer}.

Lemma by_email_Some (email : string) (table : gmap Z User.t) (user : User.t) :
  prisma.by_email email table = Some user ->
  (exists i, table !! i = Some user) /\ User.email user = email.
Proof.
  unfold prisma.by_email. intros Hfind.
  apply fmap_Some in Hfind as ([n u] & Hfind & ->).
  apply list_find_Some in Hfind as (Hn & Hemail & _). cbn.
  split; [|exact Hemail]. apply elem_of_rows. eapply list_elem_of_lookup_2, Hn.
Qed.

(** A token of [jwt_sign] is accepted as the user it was made for until
    its time to live has passed, and refused from then on. *)
Lemma token_for_verified (user : User.t) (e e' : Env) (expiresIn : Z) :
  verified e' (Some (token_for user e expiresIn))
  = if decide (now e' / 1000 < now e / 1000 + expiresIn)
    then Some (JwtUserPayload.mk (User.id user) (User.email user))
    else None.
Proof.
  unfold verified, token_for. cbv zeta.
  rewrite decide_False by apply compact_not_empty.
  rewrite parse_compact. cbn [jwt.exp jwt.id jwt.email].
  destruct (decide (now e' / 1000 < now e / 1000 + expiresIn)) as [Hlt|Hge].
  - now rewrite decide_True.
  - rewrite decide_False; [reflexivity | now intros [_ ?]].
Qed.

(** Every way POST /login of index.ts can end. *)
Lemma index_login_effect (ctx : Context) (e : Env) (w : World) :
  (exists r, index_login_app ctx e w = (Refused r, w)) \/
  (exists email password user,
      prop (body ctx) "email" = JStr email /\
      prop (body ctx) "password" = JStr password /\
      prisma.by_email email (users w) = Some user /\
      compare password (User.password user) = true /\
      index_login_app ctx e w = (Token (token_for user e span_7d), w)) \/
  (exists email password,
      prop (body ctx) "email" = JStr email /\ email <> "" /\
      prop (body ctx) "password" = JStr password /\ password <> "" /\
      prisma.by_email email (users w) = None /\
      let hashedPassword := bcrypt.digest password 10 (entropy e) in
      index_login_app ctx e w
      = (Token (token_for (User.mk (user_seq w) email hashedPassword "") e span_7d),
         with_user email hashedPassword w)).
Proof.
  unfold index_login_app, login_route.
  destruct (valid_request login_schema ctx) eqn:Hv; [|left; eauto].
  destruct (register_body_fields ctx Hv) as (email & password & He & Hp).
  unfold answer_login, index_login. rewrite He, Hp.
  destruct (decide (email = "")) as [->|Hene]; [left; eauto|].
  destruct (decide (password = "")) as [->|Hpne].
  { left. unfold bind, return_if. rewrite (truthy_nonempty _ Hene). eauto. }
  rewrite (truthy_nonempty _ Hene), (truthy_nonempty _ Hpne).
  unfold prisma.user.findUnique_email, prisma.user.create, bind. cbn.
  destruct (prisma.by_email email (users w)) as [user|] eqn:Hfind.
  - cbn. destruct (compare password (User.password user)) eqn:Hcmp; cbn.
    + right. left. exists email, password, user. split_and!; auto.
    + left. eauto.
  - right. right. exists email, password. cbn. rewrite Hfind. split_and!; auto.
Qed.

(** Every way POST /login of part_000 can end. *)
Lemma part000_login_effect (ctx : Context) (e : Env) (w : World) :
  (exists r, part000_login_app ctx e w = (Refused r, w)) \/
  (exists email password user,
      prop (body ctx) "email" = JStr email /\
      prop (body ctx) "password" = JStr password /\
      prisma.by_email email (users w) = Some user /\
      compare password (User.password user) = true /\
      part000_login_app ctx e w = (Token (token_for user e span_1h), w)).
Proof.
  unfold part000_login_app, login_route.
  destruct (valid_request login_schema ctx) eqn:Hv; [|left; eauto].
  destruct (register_body_fields ctx Hv) as (email & password & He & Hp).
  unfold answer_login, part000_login. rewrite He, Hp.
  unfold prisma.user.findUnique_email, bind. cbn.
  destruct (prisma.by_email email (users w)) as [user|] eqn:Hfind; [|left; eauto].
  cbn. destruct (compare password (User.password user)) eqn:Hcmp; cbn.
  - right. exists email, password, user. split_and!; auto.
  - left. eauto.
Qed.

End Login.

Section LoginProperties.
Context `{jwt.Codec, bcrypt.Digest, !Issuer, !Comparer}.

(** With no user of that email before, the lookup finds the one just
    stored. *)
Lemma by_email_with_user (email password : string) (w : World) :
  prisma.by_email email (users w) = None ->
  prisma.by_email email (users (with_user email password w))
  = Some (User.mk (user_seq w) email password "").
Proof.
  intros Hfresh. cbn.
  destruct (by_email_insert (users w) (user_seq w)
              (User.mk (user_seq w) email password "")) as [found Hfound].
  cbn in Hfound. rewrite Hfound. f_equal.
  apply by_email_Some in Hfound as ([i Hi] & Hemail).
  apply lookup_insert_Some in Hi as [[_ <-]|[_ Hi]]; [reflexivity|].
  exfalso. eapply by_email_None; eauto.
Qed.

(** What part_000 answers when the email is unknown or the password is
    not accepted. *)
Lemma part000_login_refuses
  (ctx : Context) (e : Env) (w : World) (email password : string) :
  prop (body ctx) "email" = JStr email ->
  prop (body ctx) "password" = JStr password ->
  prisma.by_email email (users w) = None
  \/ (exists user,
         prisma.by_email email (users w) = Some user /\
         compare password (User.password user) = false) ->
  part000_login_app ctx e w = (Refused (ok (BError "Invalid credentials")), w).
Proof.
  intros He Hp Hwho.
  assert (valid_request login_schema ctx = true) as Hv.
  { unfold valid_request, login_schema. cbn. now rewrite He, Hp. }
  unfold part000_login_app, login_route. rewrite Hv.
  unfold answer_login, part000_login. rewrite He, Hp.
  unfold prisma.user.findUnique_email, bind. cbn.
  destruct Hwho as [->|(user & -> & Hcmp)]; [reflexivity|].
  cbn. now rewrite Hcmp.
Qed.

Lemma part000_login_reads_only (ctx : Context) (e : Env) (w : World) :
  (part000_login_app ctx e w).2 = w.
Proof.
  destruct (part000_login_effect ctx e w)
    as [[r ->]|(? & ? & ? & _ & _ & _ & _ & ->)]; reflexivity.
Qed.

(** What index.ts does with an email nobody has. *)
Lemma index_login_register_run
  (ctx : Context) (e : Env) (w : World) (email password : string) :
  prop (body ctx) "email" = JStr email -> email <> "" ->
  prop (body ctx) "password" = JStr password -> password <> "" ->
  prisma.by_email email (users w) = None ->
  let hashedPassword := bcrypt.digest password 10 (entropy e) in
  index_login_app ctx e w
  = (Token (token_for (User.mk (user_seq w) email hashedPassword "") e span_7d),
     with_user email hashedPassword w).
Proof.
  intros He Hene Hp Hpne Hfresh hashedPassword.
  assert (valid_request login_schema ctx = true) as Hv.
  { unfold valid_request, login_schema. cbn. now rewrite He, Hp. }
  unfold index_login_app, login_route. rewrite Hv.
  unfold answer_login, index_login. rewrite He, Hp.
  rewrite (truthy_nonempty _ Hene), (truthy_nonempty _ Hpne).
  unfold prisma.user.findUnique_email, prisma.user.create, bind. cbn.
  rewrite Hfresh. cbn. rewrite Hfresh. reflexivity.
Qed.

(** X13.  POST /login of part_000 never changes the world, and it answers
    an unknown email and a wrong password alike, with
    [{error: "Invalid credentials"}]. *)
Theorem part000_login_fails_alike (ctx : Context) (e : Env) (w : World) :
  (part000_login_app ctx e w).2 = w /\
  (forall email password,
      prop (body ctx) "email" = JStr email ->
      prop (body ctx) "password" = JStr password ->
      prisma.by_email email (users w) = None
      \/ (exists user,
             prisma.by_email email (users w) = Some user /\
             compare password (User.password user) = false) ->
      part000_login_app ctx e w = (Refused (ok (BError "Invalid credentials")), w)).
Proof.
  split.
  - apply part000_login_reads_only.
  - intros email password. apply part000_login_refuses.
Qed.

(** X14.  POST /login of index.ts with a non-empty email no stored user
    has and a non-empty password registers it: a user is added under the
    next id with the bcrypt digest (cost 10) of the password, not the
    password itself, and a token for that user is returned; part_000
    refuses the same request and changes nothing. *)
Theorem index_login_registers_unknown_email
  (ctx : Context) (e : Env) (w : World) (email password : string) :
  prop (body ctx) "email" = JStr email -> email <> "" ->
  prop (body ctx) "password" = JStr password -> password <> "" ->
  (forall i user, users w !! i = Some user -> User.email user <> email) ->
  let hashedPassword := bcrypt.digest password 10 (entropy e) in
  let user := User.mk (user_seq w) email hashedPassword "" in
  index_login_app ctx e w
  = (Token (token_for user e span_7d), with_user email hashedPassword w) /\
  users (with_user email hashedPassword w) !! user_seq w = Some user /\
  User.password user <> password /\
  part000_login_app ctx e w = (Refused (ok (BError "Invalid credentials")), w).
Proof.
  intros He Hene Hp Hpne Hfresh hashedPassword user.
  apply by_email_None in Hfresh.
  split_and!.
  - now apply index_login_register_run.
  - cbn. apply lookup_insert_eq.
  - apply bcrypt.digest_opaque.
  - apply (part000_login_refuses ctx e w email password He Hp). now left.
Qed.

(** X15.  A token from POST /login stands for a user of the store with the
    submitted email, and [getUserFromToken] accepts it as that user until
    its time to live has passed (7 days in index.ts, 1 hour in part_000,
    counted in whole seconds from the login) and refuses it from then on. *)
Theorem login_token_lifetime
  (ctx : Context) (e : Env) (w : World) (token : string) :
  let accepted_until (span : Z) (user : User.t) :=
    forall e' w',
      getUserFromToken (Some token) e' w'
      = (Next (if decide (now e' / 1000 < now e / 1000 + span)
               then Some (JwtUserPayload.mk (User.id user) (User.email user))
               else None), w') in
  ((index_login_app ctx e w).1 = Token token ->
   exists i user,
     users (index_login_app ctx e w).2 !! i = Some user /\
     prop (body ctx) "email" = JStr (User.email user) /\
     accepted_until (7 * 24 * 60 * 60) user) /\
  ((part000_login_app ctx e w).1 = Token token ->
   exists i user,
     users (part000_login_app ctx e w).2 !! i = Some user /\
     prop (body ctx) "email" = JStr (User.email user) /\
     accepted_until (60 * 60) user).
Proof.
  cbv zeta. split.
  - destruct (index_login_effect ctx e w)
      as [[r ->]|[(email & password & user & He & _ & Hfind & _ & ->)
                 |(email & password & He & _ & _ & _ & _ & ->)]];
      [discriminate| |]; cbn [fst snd]; intros [= <-].
    + apply by_email_Some in Hfind as ([i Hi] & <-).
      exists i, user. split_and!; auto.
      intros e' w'. now rewrite getUserFromToken_run, token_for_verified.
    + eexists (user_seq w), _. split_and!.
      * cbn. apply lookup_insert_eq.
      * exact He.
      * intros e' w'. now rewrite getUserFromToken_run, token_for_verified.
  - destruct (part000_login_effect ctx e w)
      as [[r ->]|(email & password & user & He & _ & Hfind & _ & ->)];
      [discriminate|]; cbn [fst snd]; intros [= <-].
    apply by_email_Some in Hfind as ([i Hi] & <-).
    exists i, user. split_and!; auto.
    intros e' w'. now rewrite getUserFromToken_run, token_for_verified.
Qed.

(** X16.  Neither login hands out a token for a stored user unless
    [bcrypt.compare] has accepted the submitted password against that
    user's stored digest. *)
Theorem login_requires_matching_password
  (ctx : Context) (e : Env) (w : World) (token email : string) (user : User.t) :
  (index_login_app ctx e w).1 = Token token
  \/ (part000_login_app ctx e w).1 = Token token ->
  prop (body ctx) "email" = JStr email ->
  prisma.by_email email (users w) = Some user ->
  exists password,
    prop (body ctx) "password" = JStr password /\
    compare password (User.password user) = true.
Proof.
  intros Htoken He Hfind.
  assert (forall email' password user',
             prop (body ctx) "email" = JStr email' ->
             prop (body ctx) "password" = JStr password ->
             prisma.by_email email' (users w) = Some user' ->
             compare password (User.password user') = true ->
             exists password,
               prop (body ctx) "password" = JStr password /\
               compare password (User.password user) = true) as Hsame.
  { intros email' password user' He' Hp Hfind' Hcmp.
    rewrite He in He'. injection He' as <-.
    rewrite Hfind in Hfind'. injection Hfind' as <-. eauto. }
  destruct Htoken as [Htoken|Htoken].
  - destruct (index_login_effect ctx e w)
      as [[r Hr]|[(email' & password & user' & He' & Hp & Hfind' & Hcmp & _)
                 |(email' & password & He' & _ & _ & _ & Hnone & _)]].
    + rewrite Hr in Htoken. discriminate.
    + eauto.
    + rewrite He in He'. injection He' as <-. congruence.
  - destruct (part000_login_effect ctx e w)
      as [[r Hr]|(email' & password & user' & He' & Hp & Hfind' & Hcmp & _)].
    + rewrite Hr in Htoken. discriminate.
    + eauto.
Qed.

(** X17.  POST /login keeps the store well formed in both files: part_000
    by changing nothing, index.ts because it registers only an email its
    lookup did not find. *)
Theorem login_keeps_well_formed (ctx : Context) (e : Env) (w : World) :
  well_formed w ->
  well_formed (index_login_app ctx e w).2 /\
  well_formed (part000_login_app ctx e w).2.
Proof.
  intros Hwf. split.
  2:{ now rewrite part000_login_reads_only. }
  destruct (index_login_effect ctx e w)
    as [[r ->]|[(? & ? & ? & _ & _ & _ & _ & ->)
               |(email & password & _ & _ & _ & _ & Hfresh & ->)]];
    [exact Hwf | exact Hwf |].
  destruct Hwf as (Husers & Htasks & Hemails).
  assert (forall i u, users w !! i = Some u -> User.email u <> email) as Hnew
      by now apply by_email_None.
  split_and!; cbn.
  - intros j user [[<- <-]|[Hne Hj]]%lookup_insert_Some; cbn; [lia|].
    destruct (Husers j user Hj). lia.
  - exact Htasks.
  - intros j k u v [[<- <-]|[Hnj Hj]]%lookup_insert_Some
                    [[<- <-]|[Hnk Hk]]%lookup_insert_Some; cbn; intros Heq.
    + reflexivity.
    + now destruct (Hnew k v Hk).
    + now destruct (Hnew j u Hj).
    + now apply (Hemails j k u v).
Qed.

(** X18.  After index.ts has registered an email through POST /login, a
    later login with the same email and password is accepted for the same
    user and changes nothing more. *)
Theorem index_login_again_is_accepted
  (first second : Context) (e1 e2 : Env) (w : World) (email password : string) :
  prop (body first) "email" = JStr email ->
  prop (body first) "password" = JStr password ->
  prop (body second) "email" = JStr email ->
  prop (body second) "password" = JStr password ->
  email <> "" -> password <> "" ->
  (forall i user, users w !! i = Some user -> User.email user <> email) ->
  let w1 := (index_login_app first e1 w).2 in
  let user := User.mk (user_seq w) email (bcrypt.digest password 10 (entropy e1)) "" in
  index_login_app second e2 w1 = (Token (token_for user e2 span_7d), w1).
Proof.
  intros He1 Hp1 He2 Hp2 Hene Hpne Hfresh w1 user. subst w1.
  apply by_email_None in Hfresh.
  rewrite (index_login_register_run first e1 w email password
             He1 Hene Hp1 Hpne Hfresh).
  cbn [snd].
  pose proof (by_email_with_user email (bcrypt.digest password 10 (entropy e1))
                w Hfresh) as Hfound.
  assert (valid_request login_schema second = true) as Hv.
  { unfold valid_request, login_schema. cbn. now rewrite He2, Hp2. }
  unfold index_login_app, login_route. rewrite Hv.
  unfold answer_login, index_login. rewrite He2, Hp2.
  rewrite (truthy_nonempty _ Hene), (truthy_nonempty _ Hpne).
  unfold prisma.user.findUnique_email, bind. cbn. cbn in Hfound.
  rewrite Hfound. cbn. rewrite compare_digest. reflexivity.
Qed.

End LoginProperties.

(** * Further properties: repeating a request *)

Lemma merged_merged (task : Task.t) (b : jsobj) :
  merged (merged task b) b = merged task b.
Proof.
  unfold merged. cbn.
  destruct (prop b "title"), (prop b "date"), (prop b "isChecked"); reflexivity.
Qed.

Lemma append_cancel_r (s1 s2 t : string) : s1 +:+ t = s2 +:+ t -> s1 = s2.
Proof.
  intros Heq.
  assert (String.length s1 = String.length s2) as Hlen.
  { apply (f_equal String.length) in Heq.
    rewrite !Fixture.length_append in Heq. lia. }
  revert s2 Heq Hlen. induction s1 as [|a s1 IH]; intros [|b s2] Heq Hlen;
    try discriminate; [reflexivity|].
  change (String a (s1 +:+ t) = String b (s2 +:+ t)) in Heq.
  injection Heq as -> Heq. injection Hlen as Hlen. f_equal. now apply IH.
Qed.

Section Repetition.
Context `{jwt.Codec, Ecma, NodePath}.

(** What PATCH /tasks/:id does for the owner. *)
Lemma patch_tasks_run
  (ctx : Context) (e : Env) (w : World) (u : JwtUserPayload.t) (i : Z)
  (task : Task.t) :
  valid_request patch_tasks_schema ctx = true ->
  caller e ctx = Some u ->
  Number (params ctx !! "id") = Some i ->
  tasks w !! i = Some task ->
  Task.userId task = JwtUserPayload.id u ->
  Index.app PATCH_tasks_id ctx e w
  = (ok (BTask (merged task (body ctx))),
     set_tasks <[i := merged task (body ctx)]> w).
Proof.
  intros Hv Hc Hn Ht Hown.
  destruct (patch_body_fields ctx Hv) as (Htitle & Hdate & Hchecked).
  unfold merged. enter Hc. rewrite Hv, Hn. cbn. rewrite Ht. cbn.
  rewrite bool_decide_eq_false_2 by (intros Hne; now apply Hne). cbn.
  destruct Htitle as [->|[? ->]], Hdate as [->|[? ->]],
    Hchecked as [->|[? ->]];
    unfold prisma.task.update, bind; cbn; rewrite Ht; reflexivity.
Qed.

(** What POST /profile/image does for a stored user. *)
Lemma upload_run
  (ctx : Context) (e : Env) (w : World) (u : JwtUserPayload.t) (file : File.t)
  (user : User.t) :
  caller e ctx = Some u ->
  prop (body ctx) "image" = JFile file ->
  File.type file ∈ ["image/jpeg"; "image/png"; "image/gif"] ->
  File.size file <= 5 * 1024 * 1024 ->
  File.name file <> "" ->
  users w !! JwtUserPayload.id u = Some user ->
  Index.app POST_profile_image ctx e w
  = (ok (BImage "Image updated" (upload_path u e file)),
     set_users <[JwtUserPayload.id u := with_image (upload_path u e file) user]>
       (with_upload u e file w)).
Proof.
  intros Hc Hf Htype Hsize Hname Hu.
  assert (valid_request post_profile_image_schema ctx = true) as Hv.
  { unfold valid_request, post_profile_image_schema. cbn. rewrite Hf. cbn.
    rewrite !andb_true_r. apply andb_true_intro. split.
    - now apply bool_decide_eq_true.
    - now apply Z.leb_le. }
  enter Hc. rewrite Hv, Hf. cbn [name_of]. rewrite (truthy_nonempty _ Hname).
  unfold prisma.user.update_image, bind. cbn. rewrite Hu. reflexivity.
Qed.

(** X19.  PATCH /tasks/:id is idempotent: the owner who sends the same
    partial update a second time gets the same answer and leaves the world
    exactly as the first one left it. *)
Theorem patch_twice_is_patch_once
  (app : Route -> Context -> Env -> World -> Response * World)
  (ctx : Context) (e1 e2 : Env) (w : World) (u : JwtUserPayload.t) (i : Z)
  (task : Task.t) :
  app = Index.app \/ app = Part000.app ->
  valid_request patch_tasks_schema ctx = true ->
  caller e1 ctx = Some u ->
  caller e2 ctx = Some u ->
  Number (params ctx !! "id") = Some i ->
  tasks w !! i = Some task ->
  Task.userId task = JwtUserPayload.id u ->
  app PATCH_tasks_id ctx e2 (app PATCH_tasks_id ctx e1 w).2
  = app PATCH_tasks_id ctx e1 w.
Proof.
  intros Happ Hv Hc1 Hc2 Hn Ht Hown.
  assert (forall e w0 old,
             caller e ctx = Some u ->
             tasks w0 !! i = Some old ->
             Task.userId old = JwtUserPayload.id u ->
             app PATCH_tasks_id ctx e w0
             = (ok (BTask (merged old (body ctx))),
                set_tasks <[i := merged old (body ctx)]> w0)) as Hrun.
  { intros e w0 old Hc Hi Ho.
    pose proof (patch_tasks_run ctx e w0 u i old Hv Hc Hn Hi Ho) as Hindex.
    destruct Happ as [-> | ->]; [exact Hindex|].
    now apply (agree_on_success PATCH_tasks_id ctx e w0 _ _ Hindex). }
  rewrite (Hrun e1 w task Hc1 Ht Hown). cbn [snd].
  rewrite (Hrun e2 _ (merged task (body ctx)) Hc2);
    [| cbn; apply lookup_insert_eq | exact Hown].
  rewrite merged_merged. f_equal.
  unfold set_tasks. cbn. now rewrite insert_insert_eq.
Qed.

(** X20.  POST /tasks is not idempotent, and ids are never handed out
    twice: two creations in a row return tasks whose ids differ by one,
    and after the second both tasks are in the store. *)
Theorem successive_creations_get_new_ids
  (app : Route -> Context -> Env -> World -> Response * World)
  (first second : Context) (e1 e2 : Env) (w : World)
  (u1 u2 : JwtUserPayload.t) (title1 date1 title2 date2 : string)
  (isChecked1 isChecked2 : bool) :
  app = Index.app \/ app = Part000.app ->
  caller e1 first = Some u1 ->
  prop (body first) "title" = JStr title1 -> title1 <> "" ->
  prop (body first) "date" = JStr date1 -> date1 <> "" ->
  prop (body first) "isChecked" = JBool isChecked1 ->
  caller e2 second = Some u2 ->
  prop (body second) "title" = JStr title2 -> title2 <> "" ->
  prop (body second) "date" = JStr date2 -> date2 <> "" ->
  prop (body second) "isChecked" = JBool isChecked2 ->
  let task1 := Task.mk (task_seq w) (JwtUserPayload.id u1) title1 date1 isChecked1 in
  let task2 :=
    Task.mk (task_seq w + 1) (JwtUserPayload.id u2) title2 date2 isChecked2 in
  let w1 := (app POST_tasks first e1 w).2 in
  let w2 := (app POST_tasks second e2 w1).2 in
  (app POST_tasks first e1 w).1 = ok (BTask task1) /\
  (app POST_tasks second e2 w1).1 = ok (BTask task2) /\
  tasks w2 !! Task.id task1 = Some task1 /\
  tasks w2 !! Task.id task2 = Some task2 /\
  task_seq w2 = task_seq w + 2.
Proof.
  intros Happ Hc1 Ht1 Htne1 Hd1 Hdne1 Hb1 Hc2 Ht2 Htne2 Hd2 Hdne2 Hb2
         task1 task2 w1 w2. subst w1 w2.
  assert (forall ctx e w0 u title date isChecked,
             caller e ctx = Some u ->
             prop (body ctx) "title" = JStr title -> title <> "" ->
             prop (body ctx) "date" = JStr date -> date <> "" ->
             prop (body ctx) "isChecked" = JBool isChecked ->
             app POST_tasks ctx e w0
             = (ok (BTask (Task.mk (task_seq w0) (JwtUserPayload.id u)
                                   title date isChecked)),
                set_task_seq (task_seq w0 + 1)
                  (set_tasks
                     <[task_seq w0 :=
                         Task.mk (task_seq w0) (JwtUserPayload.id u)
                                 title date isChecked]> w0))) as Hrun.
  { intros ctx e w0 u title date isChecked Hc Ht Htne Hd Hdne Hb.
    pose proof (post_tasks_run ctx e w0 u title date isChecked Hc Ht Htne Hd Hdne Hb)
      as Hindex. cbv zeta in Hindex.
    destruct Happ as [-> | ->]; [exact Hindex|].
    now apply (agree_on_success POST_tasks ctx e w0 _ _ Hindex). }
  rewrite (Hrun first e1 w u1 title1 date1 isChecked1 Hc1 Ht1 Htne1 Hd1 Hdne1 Hb1).
  cbn [fst snd].
  rewrite (Hrun second e2 _ u2 title2 date2 isChecked2 Hc2 Ht2 Htne2 Hd2 Hdne2 Hb2).
  cbn. split_and!; try reflexivity.
  - rewrite lookup_insert_ne by lia. apply lookup_insert_eq.
  - apply lookup_insert_eq.
  - lia.
Qed.

(** X21.  Uploads of one user whose file names have the same extension
    are stored under different paths whenever they happen at different
    milliseconds, so the second upload of a stored user leaves the first
    file in place; the user's image then points at the second. *)
Theorem uploads_at_different_times_do_not_collide
  (app : Route -> Context -> Env -> World -> Response * World)
  (first second : Context) (e1 e2 : Env) (w : World)
  (u : JwtUserPayload.t) (file1 file2 : File.t) (user : User.t) :
  app = Index.app \/ app = Part000.app ->
  caller e1 first = Some u ->
  caller e2 second = Some u ->
  prop (body first) "image" = JFile file1 ->
  prop (body second) "image" = JFile file2 ->
  File.type file1 ∈ ["image/jpeg"; "image/png"; "image/gif"] ->
  File.type file2 ∈ ["image/jpeg"; "image/png"; "image/gif"] ->
  File.size file1 <= 5 * 1024 * 1024 ->
  File.size file2 <= 5 * 1024 * 1024 ->
  File.name file1 <> "" ->
  File.name file2 <> "" ->
  extname (File.name file1) = extname (File.name file2) ->
  now e1 <> now e2 ->
  users w !! JwtUserPayload.id u = Some user ->
  let w2 := (app POST_profile_image second e2
               (app POST_profile_image first e1 w).2).2 in
  upload_path u e1 file1 <> upload_path u e2 file2 /\
  files w2 !! upload_path u e1 file1 = Some (File.bytes file1) /\
  files w2 !! upload_path u e2 file2 = Some (File.bytes file2) /\
  users w2 !! JwtUserPayload.id u = Some (with_image (upload_path u e2 file2) user).
Proof.
  intros Happ Hc1 Hc2 Hf1 Hf2 Ht1 Ht2 Hs1 Hs2 Hn1 Hn2 Hext Hnow Hu w2. subst w2.
  assert (upload_path u e1 file1 <> upload_path u e2 file2) as Hpaths.
  { unfold upload_path. rewrite Hext. intros Heq.
    apply (inj (String.app _)) in Heq.
    apply (inj (String.app _)) in Heq.
    apply (inj (String.app _)) in Heq.
    apply append_cancel_r in Heq. now apply (inj pretty) in Heq. }
  assert (forall ctx e w0 file old,
             caller e ctx = Some u ->
             prop (body ctx) "image" = JFile file ->
             File.type file ∈ ["image/jpeg"; "image/png"; "image/gif"] ->
             File.size file <= 5 * 1024 * 1024 ->
             File.name file <> "" ->
             users w0 !! JwtUserPayload.id u = Some old ->
             (app POST_profile_image ctx e w0).2
             = set_users
                 <[JwtUserPayload.id u := with_image (upload_path u e file) old]>
                 (with_upload u e file w0)) as Hrun.
  { intros ctx e w0 file old Hc Hf Ht Hs Hn Hold.
    pose proof (upload_run ctx e w0 u file old Hc Hf Ht Hs Hn Hold) as Hindex.
    destruct Happ as [-> | ->]; [now rewrite Hindex|].
    now rewrite (agree_on_success POST_profile_image ctx e w0 _ _ Hindex). }
  rewrite (Hrun first e1 w file1 user Hc1 Hf1 Ht1 Hs1 Hn1 Hu).
  rewrite (Hrun second e2 _ file2 (with_image (upload_path u e1 file1) user)
             Hc2 Hf2 Ht2 Hs2 Hn2);
    [|cbn; apply lookup_insert_eq].
  cbn. split_and!.
  - exact Hpaths.
  - rewrite lookup_insert_ne by (intros Heq; now apply Hpaths).
    apply lookup_insert_eq.
  - apply lookup_insert_eq.
  - apply lookup_insert_eq.
Qed.

(** X22.  The handlers read nothing of a body but [title], [date],
    [isChecked] and [image]: run on two requests that agree on these and
    on headers, query and path, a handler gives the same answer and leaves
    the same world.  In particular an [id] or [userId] sent in the body
    never reaches the store. *)
Theorem other_body_fields_are_ignored
  (r : Route) (ctx ctx' : Context) (e : Env) (w : World) :
  headers ctx' = headers ctx ->
  query ctx' = query ctx ->
  params ctx' = params ctx ->
  (forall k, k ∈ ["title"; "date"; "isChecked"; "image"] ->
             prop (body ctx') k = prop (body ctx) k) ->
  Index.handler_of r ctx' e w = Index.handler_of r ctx e w /\
  Part000.handler_of r ctx' e w = Part000.handler_of r ctx e w.
Proof.
  destruct ctx as [h b q p], ctx' as [h' b' q' p']. cbn [headers query params body].
  intros -> -> -> Hbody.
  assert (prop b' "title" = prop b "title") as Ht by (apply Hbody; set_solver).
  assert (prop b' "date" = prop b "date") as Hd by (apply Hbody; set_solver).
  assert (prop b' "isChecked" = prop b "isChecked") as Hc by (apply Hbody; set_solver).
  assert (prop b' "image" = prop b "image") as Hi by (apply Hbody; set_solver).
  split; destruct r; cbn [Index.handler_of Part000.handler_of];
    unfold Index.post_tasks, Index.get_tasks, Index.patch_tasks, Index.get_profile,
      Index.post_profile_image, Part000.post_tasks, Part000.get_tasks,
      Part000.patch_tasks, Part000.get_profile, Part000.post_profile_image;
    cbn [body query params headers];
    rewrite ?Ht, ?Hd, ?Hc, ?Hi; reflexivity.
Qed.

End Repetition.

(** * Further properties: from registration to login *)

Section RegisterThenLogin.
Context `{jwt.Codec, bcrypt.Digest, !Issuer, !Comparer}.

(** What POST /register does with a new email. *)
Lemma register_run
  (ctx : Context) (e : Env) (w : World) (email password : string) :
  prop (body ctx) "email" = JStr email -> email <> "" ->
  prop (body ctx) "password" = JStr password -> password <> "" ->
  prisma.by_email email (users w) = None ->
  Part000.app_register ctx e w
  = (ok (BMessage "Registered successfully"),
     with_user email (bcrypt.digest password 10 (entropy e)) w).
Proof.
  intros He Hene Hp Hpne Hfresh.
  assert (valid_request register_schema ctx = true) as Hv.
  { unfold valid_request, register_schema. cbn. now rewrite He, Hp. }
  unfold Part000.app_register, route. rewrite Hv.
  unfold respond, Part000.register. rewrite He, Hp.
  rewrite (truthy_nonempty _ Hene), (truthy_nonempty _ Hpne).
  unfold prisma.user.findUnique_email, prisma.user.create, bind. cbn.
  rewrite Hfresh. cbn. rewrite Hfresh. reflexivity.
Qed.

(** X24.  In part_000, a POST /register that went through can be followed
    by a POST /login with the same email and password: the login is
    accepted, its token is made for the user the registration stored, good
    for an hour, and the login changes nothing. *)
Theorem register_then_login
  (registration login : Context) (e1 e2 : Env) (w : World)
  (email password : string) :
  prop (body registration) "email" = JStr email -> email <> "" ->
  prop (body registration) "password" = JStr password -> password <> "" ->
  prop (body login) "email" = JStr email ->
  prop (body login) "password" = JStr password ->
  (forall i user, users w !! i = Some user -> User.email user <> email) ->
  let w1 := (Part000.app_register registration e1 w).2 in
  let user :=
    User.mk (user_seq w) email (bcrypt.digest password 10 (entropy e1)) "" in
  (Part000.app_register registration e1 w).1
  = ok (BMessage "Registered successfully") /\
  users w1 !! user_seq w = Some user /\
  part000_login_app login e2 w1 = (Token (token_for user e2 span_1h), w1) /\
  forall e3 w3,
    getUserFromToken (Some (token_for user e2 span_1h)) e3 w3
    = (Next (if decide (now e3 / 1000 < now e2 / 1000 + 60 * 60)
             then Some (JwtUserPayload.mk (user_seq w) email)
             else None), w3).
Proof.
  intros He1 Hene Hp1 Hpne He2 Hp2 Hfresh w1 user. subst w1.
  apply by_email_None in Hfresh.
  rewrite (register_run registration e1 w email password He1 Hene Hp1 Hpne Hfresh).
  cbn [fst snd]. split_and!.
  - reflexivity.
  - cbn. apply lookup_insert_eq.
  - pose proof (by_email_with_user email (bcrypt.digest password 10 (entropy e1))
                  w Hfresh) as Hfound.
    assert (valid_request login_schema login = true) as Hv.
    { unfold valid_request, login_schema. cbn. now rewrite He2, Hp2. }
    unfold part000_login_app, login_route. rewrite Hv.
    unfold answer_login, part000_login. rewrite He2, Hp2.
    unfold prisma.user.findUnique_email, bind. cbn. cbn in Hfound.
    rewrite Hfound. cbn. rewrite compare_digest. reflexivity.
  - intros e3 w3. now rewrite getUserFromToken_run, token_for_verified.
Qed.

End RegisterThenLogin.

(** * Further properties: from an upload to the profile *)

Section UploadThenProfile.
Context `{jwt.Codec, Ecma, NodePath}.

(** What GET /profile answers for a stored user. *)
Lemma get_profile_run
  (ctx : Context) (e : Env) (w : World) (u : JwtUserPayload.t) (user : User.t) :
  caller e ctx = Some u ->
  users w !! JwtUserPayload.id u = Some user ->
  let user_tasks :=
    filter (fun row => Task.userId row = JwtUserPayload.id u)
           (prisma.rows (tasks w)) in
  let total := Z.of_nat (length user_tasks) in
  let completed :=
    Z.of_nat (length (filter (fun task => Task.isChecked task) user_tasks)) in
  Index.app GET_profile ctx e w
  = (ok (BProfile (User.email user) (User.image user) total completed), w).
Proof.
  intros Hc Hu user_tasks total completed.
  enter Hc. cbn. rewrite Hu. reflexivity.
Qed.

(** X25.  After an accepted POST /profile/image of a stored user, that
    user's GET /profile reports the path the upload returned as image, the
    file is stored under that path, and email and task statistics are what
    GET /profile reported before the upload. *)
Theorem uploaded_image_shows_in_profile
  (app : Route -> Context -> Env -> World -> Response * World)
  (upload profile : Context) (e e' : Env) (w : World)
  (u : JwtUserPayload.t) (file : File.t) (user : User.t) :
  app = Index.app \/ app = Part000.app ->
  caller e upload = Some u ->
  caller e' profile = Some u ->
  prop (body upload) "image" = JFile file ->
  File.type file ∈ ["image/jpeg"; "image/png"; "image/gif"] ->
  File.size file <= 5 * 1024 * 1024 ->
  File.name file <> "" ->
  users w !! JwtUserPayload.id u = Some user ->
  let w1 := (app POST_profile_image upload e w).2 in
  exists image total completed,
    (app POST_profile_image upload e w).1 = ok (BImage "Image updated" image) /\
    files w1 !! image = Some (File.bytes file) /\
    app GET_profile profile e' w1
    = (ok (BProfile (User.email user) image total completed), w1) /\
    app GET_profile profile e' w
    = (ok (BProfile (User.email user) (User.image user) total completed), w).
Proof.
  intros Happ Hc Hc' Hf Htype Hsize Hname Hu w1. subst w1.
  pose proof (upload_run upload e w u file user Hc Hf Htype Hsize Hname Hu)
    as Hupload.
  assert (app POST_profile_image upload e w
          = (ok (BImage "Image updated" (upload_path u e file)),
             set_users
               <[JwtUserPayload.id u := with_image (upload_path u e file) user]>
               (with_upload u e file w))) as ->.
  { destruct Happ as [-> | ->]; [exact Hupload|].
    now apply (agree_on_success POST_profile_image upload e w _ _ Hupload). }
  assert (forall w0 user0,
             users w0 !! JwtUserPayload.id u = Some user0 ->
             tasks w0 = tasks w ->
             app GET_profile profile e' w0
             = (ok (BProfile (User.email user0) (User.image user0)
                      (Z.of_nat (length
                         (filter (fun row => Task.userId row = JwtUserPayload.id u)
                                 (prisma.rows (tasks w)))))
                      (Z.of_nat (length
                         (filter (fun task => Task.isChecked task)
                            (filter (fun row => Task.userId row = JwtUserPayload.id u)
                                    (prisma.rows (tasks w))))))), w0)) as Hprofile.
  { intros w0 user0 Hu0 Htasks.
    pose proof (get_profile_run profile e' w0 u user0 Hc' Hu0) as Hrun.
    cbv zeta in Hrun. rewrite Htasks in Hrun.
    destruct Happ as [-> | ->]; [exact Hrun|].
    now apply (agree_on_success GET_profile profile e' w0 _ _ Hrun). }
  eexists (upload_path u e file), _, _. cbn [fst snd]. split_and!.
  - reflexivity.
  - cbn. apply lookup_insert_eq.
  - apply (Hprofile _ (with_image (upload_path u e file) user)).
    + cbn. apply lookup_insert_eq.
    + reflexivity.
  - apply (Hprofile w user Hu). reflexivity.
Qed.

End UploadThenProfile.

(** * Further properties: from login to a protected route *)

Section LoginThenRequest.
Context `{jwt.Codec, Ecma, NodePath, bcrypt.Digest, !Issuer, !Comparer}.

(** X23.  In a well-formed store, a token returned by POST /login of
    either file, sent as [Bearer <token>] within the hour, is accepted by
    [getUserFromToken] as the user who logged in, a stored user with the
    submitted email, and GET /profile of either file answers that request
    with this user's email and image.  (The token is one word, as a JWT
    is.) *)
Theorem login_token_authenticates
  (login : Context -> Env -> World -> LoginAnswer * World)
  (app : Route -> Context -> Env -> World -> Response * World)
  (ctx request : Context) (e e' : Env) (w : World) (token : string) :
  login = index_login_app \/ login = part000_login_app ->
  app = Index.app \/ app = Part000.app ->
  well_formed w ->
  (login ctx e w).1 = Token token ->
  occurs " " token = false ->
  headers request !! "authorization" = Some ("Bearer " +:+ token) ->
  now e' / 1000 < now e / 1000 + 60 * 60 ->
  let w1 := (login ctx e w).2 in
  exists user,
    users w1 !! User.id user = Some user /\
    prop (body ctx) "email" = JStr (User.email user) /\
    getUserFromToken (Some token) e' w1
    = (Next (Some (JwtUserPayload.mk (User.id user) (User.email user))), w1) /\
    exists total completed,
      app GET_profile request e' w1
      = (ok (BProfile (User.email user) (User.image user) total completed), w1).
Proof.
  intros Hlogin Happ Hwf Htoken Hword Hheader Hsoon w1. subst w1.
  assert (bearer request = Some token) as Hbearer.
  { unfold bearer. rewrite Hheader. cbn.
    change ("Bearer " +:+ token) with ("Bearer" +:+ String " " token).
    now rewrite (split_first " " "Bearer" token eq_refl), (split_whole _ _ Hword). }
  assert (exists user span,
             token = token_for user e span /\ 60 * 60 <= span /\
             users (login ctx e w).2 !! User.id user = Some user /\
             prop (body ctx) "email" = JStr (User.email user))
    as (user & span & -> & Hspan & Hu & He).
  { destruct Hwf as (Hkeys & _ & _).
    destruct Hlogin as [-> | ->].
    - destruct (index_login_effect ctx e w)
        as [[r Hr]|[(email & password & user & He & _ & Hfind & _ & Hr)
                   |(email & password & He & _ & _ & _ & _ & Hr)]];
        rewrite Hr in *; cbn [fst snd] in *; [discriminate| |];
        injection Htoken as Htoken; symmetry in Htoken.
      + apply by_email_Some in Hfind as ([i Hi] & <-).
        exists user, span_7d. destruct (Hkeys i user Hi) as [-> _].
        split_and!; auto. unfold span_7d. lia.
      + eexists _, span_7d. split_and!; [exact Htoken | unfold span_7d; lia | |].
        * cbn. apply lookup_insert_eq.
        * exact He.
    - destruct (part000_login_effect ctx e w)
        as [[r Hr]|(email & password & user & He & _ & Hfind & _ & Hr)];
        rewrite Hr in *; cbn [fst snd] in *; [discriminate|].
      injection Htoken as Htoken; symmetry in Htoken.
      apply by_email_Some in Hfind as ([i Hi] & <-).
      exists user, span_1h. destruct (Hkeys i user Hi) as [-> _].
      split_and!; auto. unfold span_1h. lia. }
  assert (verified e' (Some (token_for user e span))
          = Some (JwtUserPayload.mk (User.id user) (User.email user))) as Hverified.
  { rewrite token_for_verified. apply decide_True. lia. }
  exists user. split_and!; [exact Hu | exact He | |].
  - now rewrite getUserFromToken_run, Hverified.
  - assert (caller e' request
            = Some (JwtUserPayload.mk (User.id user) (User.email user))) as Hcaller.
    { unfold caller. now rewrite Hbearer. }
    pose proof (get_profile_run request e' (login ctx e w).2 _ user Hcaller Hu)
      as Hrun. cbv zeta in Hrun.
    eexists _, _. destruct Happ as [-> | ->]; [exact Hrun|].
    now apply (agree_on_success GET_profile request e' _ _ _ Hrun).
Qed.

End LoginThenRequest.

(** * The properties above on concrete requests *)

Ltac settle :=
  lazymatch goal with
  | |- _ \/ _ => left; reflexivity
  | |- _ <> _ => discriminate
  | |- _ ∈ _ => vm_compute; set_solver
  | |- _ <= _ => vm_compute; discriminate
  | |- _ => first [ reflexivity | vm_compute; reflexivity ]
  end.

(** User 1 creates a task and lists; user 2 lists. *)
Lemma created_task_is_listed_to_its_owner_only_witness :
  let app := @Index.app Fixture.codec Fixture.ecma Fixture.nodepath in
  let create :=
    Fixture.create_with (Scenario.complete_task "x" "2024-02-02" false) in
  let task := Task.mk 3 1 "x" "2024-02-02" false in
  let w' := (app POST_tasks create Fixture.env Fixture.world).2 in
  (exists rows,
      app GET_tasks (Fixture.list_with ∅) Fixture.env w' = (ok (BTasks rows), w')
      /\ task ∈ rows) /\
  (exists rows,
      app GET_tasks (mkContext (Fixture.authorization "t2") ∅ ∅ ∅) Fixture.env w'
      = (ok (BTasks rows), w')
      /\ task ∉ rows).
Proof.
  cbv zeta.
  destruct (@created_task_is_listed_to_its_owner_only
              Fixture.codec Fixture.ecma Fixture.nodepath
              (@Index.app Fixture.codec Fixture.ecma Fixture.nodepath)
              (Fixture.create_with (Scenario.complete_task "x" "2024-02-02" false))
              Fixture.env Fixture.world Fixture.user1 "x" "2024-02-02" false)
    as (_ & Hown & Hother); try settle.
  split.
  - apply (Hown (Fixture.list_with ∅) Fixture.env); settle.
  - apply (Hother (mkContext (Fixture.authorization "t2") ∅ ∅ ∅) Fixture.env
                  (JwtUserPayload.mk 2 "b@example.com")); settle.
Defined.


(** The profile of user 1 with three tasks, two of them checked. *)
Lemma profile_completed_within_total_witness :
  payload (@Index.app Fixture.codec Fixture.ecma Fixture.nodepath
             GET_profile Fixture.profile Fixture.env Fixture.world_three_tasks).1
  = BProfile "a@example.com" "" 3 2
  /\ 0 <= 2 <= 3.
Proof.
  split; [settle|].
  apply (@profile_completed_within_total
           Fixture.codec Fixture.ecma Fixture.nodepath
           Fixture.profile Fixture.env Fixture.world_three_tasks
           "a@example.com" "" 3 2).
  left. settle.
Defined.

(** User 1 holds a valid token but is no longer stored. *)
Lemma upload_without_user_leaves_file_witness :
  let failure := status 500 (BFailure "PrismaClientKnownRequestError: P2025") in
  let w' :=
    @with_upload Fixture.nodepath Fixture.user1 Fixture.env Scenario.png
      Scenario.world_without_user1 in
  @Index.app Fixture.codec Fixture.ecma Fixture.nodepath
    POST_profile_image (Fixture.upload Scenario.png) Fixture.env
    Scenario.world_without_user1
  = (failure, w') /\
  files w' !! "uploads/user_1_1500000.png" = Some "bytes".
Proof.
  cbv zeta.
  destruct (@upload_without_user_leaves_file
              Fixture.codec Fixture.ecma Fixture.nodepath
              (Fixture.upload Scenario.png) Fixture.env
              Scenario.world_without_user1 Fixture.user1 Scenario.png)
    as (Hindex & _ & Hfile & _); try settle.
  split; [exact Hindex | exact Hfile].
Defined.

(** A new email is registered: user 3 holds a digest. *)
Lemma register_stores_only_the_digest_witness :
  let ctx := Fixture.registration "c@example.com" "pw1" in
  let w' :=
    (@Part000.app_register Fixture.bcrypt ctx Fixture.env Fixture.world).2 in
  tasks w' = tasks Fixture.world /\
  files w' = files Fixture.world /\
  users w' !! 3 = Some (User.mk 3 "c@example.com" "$pw1salt" "") /\
  (users Fixture.world !! 3 = Some (User.mk 3 "c@example.com" "$pw1salt" "")
   \/ exists email password,
       prop (body ctx) "email" = JStr email /\
       prop (body ctx) "password" = JStr password /\
       3 = user_seq Fixture.world /\
       User.mk 3 "c@example.com" "$pw1salt" ""
       = User.mk (user_seq Fixture.world) email
           (@bcrypt.digest Fixture.bcrypt password 10 (entropy Fixture.env)) "" /\
       "$pw1salt" <> password).
Proof.
  cbv zeta.
  destruct (@register_stores_only_the_digest Fixture.bcrypt
              (Fixture.registration "c@example.com" "pw1") Fixture.env
              Fixture.world)
    as (Htasks & _ & _ & Hfiles & Husers).
  split_and!; [exact Htasks | exact Hfiles | vm_compute; reflexivity |].
  apply (Husers 3 (User.mk 3 "c@example.com" "$pw1salt" "")).
  vm_compute. reflexivity.
Defined.

(** The email of user 1 is taken. *)
Lemma register_refuses_known_email_witness :
  @Part000.app_register Fixture.bcrypt
    (Fixture.registration "a@example.com" "pw") Fixture.env Fixture.world
  = (ok (BError "User exists"), Fixture.world).
Proof.
  apply (@register_refuses_known_email Fixture.bcrypt
           (Fixture.registration "a@example.com" "pw") Fixture.env Fixture.world
           "a@example.com" "pw" 1 Fixture.alice); settle.
Defined.

Lemma register_keeps_well_formed_witness :
  well_formed
    (@Part000.app_register Fixture.bcrypt
       (Fixture.registration "c@example.com" "pw1") Fixture.env Fixture.world).2.
Proof.
  apply (@register_keeps_well_formed Fixture.bcrypt). exact fixture_world_well_formed.
Defined.

(** User 1 patches task 1 twice. *)
Lemma patch_twice_is_patch_once_witness :
  let app := @Index.app Fixture.codec Fixture.ecma Fixture.nodepath in
  app PATCH_tasks_id (Fixture.patch_check "1") Fixture.env
      (app PATCH_tasks_id (Fixture.patch_check "1") Fixture.env Fixture.world).2
  = app PATCH_tasks_id (Fixture.patch_check "1") Fixture.env Fixture.world.
Proof.
  apply (@patch_twice_is_patch_once
           Fixture.codec Fixture.ecma Fixture.nodepath
           (@Index.app Fixture.codec Fixture.ecma Fixture.nodepath)
           (Fixture.patch_check "1") Fixture.env Fixture.env Fixture.world
           Fixture.user1 1 Fixture.task1); settle.
Defined.

(** User 1, then user 2, create a task. *)
Lemma successive_creations_get_new_ids_witness :
  let app := @Index.app Fixture.codec Fixture.ecma Fixture.nodepath in
  let first := Fixture.create_with (Scenario.complete_task "x" "2024-02-02" false) in
  let second :=
    mkContext (Fixture.authorization "t2")
              (Scenario.complete_task "y" "2024-03-03" true) ∅ ∅ in
  let w1 := (app POST_tasks first Fixture.env Fixture.world).2 in
  let w2 := (app POST_tasks second Fixture.env w1).2 in
  (app POST_tasks first Fixture.env Fixture.world).1
  = ok (BTask (Task.mk 3 1 "x" "2024-02-02" false)) /\
  (app POST_tasks second Fixture.env w1).1
  = ok (BTask (Task.mk 4 2 "y" "2024-03-03" true)) /\
  tasks w2 !! 3 = Some (Task.mk 3 1 "x" "2024-02-02" false) /\
  tasks w2 !! 4 = Some (Task.mk 4 2 "y" "2024-03-03" true) /\
  task_seq w2 = 5.
Proof.
  apply (@successive_creations_get_new_ids
           Fixture.codec Fixture.ecma Fixture.nodepath
           (@Index.app Fixture.codec Fixture.ecma Fixture.nodepath)
           (Fixture.create_with (Scenario.complete_task "x" "2024-02-02" false))
           (mkContext (Fixture.authorization "t2")
                      (Scenario.complete_task "y" "2024-03-03" true) ∅ ∅)
           Fixture.env Fixture.env Fixture.world
           Fixture.user1 (JwtUserPayload.mk 2 "b@example.com")
           "x" "2024-02-02" "y" "2024-03-03" false true); settle.
Defined.

(** User 1 uploads two PNG files one millisecond apart. *)
Lemma uploads_at_different_times_do_not_collide_witness :
  let app := @Index.app Fixture.codec Fixture.ecma Fixture.nodepath in
  let later := mkEnv 1500001 "salt" in
  let w2 :=
    (app POST_profile_image (Fixture.upload Scenario.png') later
         (app POST_profile_image (Fixture.upload Scenario.png) Fixture.env
              Fixture.world).2).2 in
  files w2 !! "uploads/user_1_1500000.png" = Some "bytes" /\
  files w2 !! "uploads/user_1_1500001.png" = Some "more bytes" /\
  users w2 !! 1
  = Some (User.mk 1 "a@example.com" "$secret1" "uploads/user_1_1500001.png").
Proof.
  cbv zeta.
  destruct (@uploads_at_different_times_do_not_collide
              Fixture.codec Fixture.ecma Fixture.nodepath
              (@Index.app Fixture.codec Fixture.ecma Fixture.nodepath)
              (Fixture.upload Scenario.png) (Fixture.upload Scenario.png')
              Fixture.env (mkEnv 1500001 "salt") Fixture.world
              Fixture.user1 Scenario.png Scenario.png' Fixture.alice)
    as (_ & Hfirst & Hsecond & Huser); try settle.
  split_and!; [exact Hfirst | exact Hsecond | exact Huser].
Defined.

(** A PATCH that also sends [userId] and [id]. *)
Lemma other_body_fields_are_ignored_witness :
  let handler :=
    @Index.handler_of Fixture.codec Fixture.ecma Fixture.nodepath PATCH_tasks_id in
  let plain := Fixture.patch_check "1" in
  let greedy :=
    mkContext (Fixture.authorization "t1")
              {[ "isChecked" := JBool true; "userId" := JNum 2; "id" := JNum 9 ]}
              ∅ {[ "id" := "1" ]} in
  handler greedy Fixture.env Fixture.world = handler plain Fixture.env Fixture.world.
Proof.
  apply (@other_body_fields_are_ignored
           Fixture.codec Fixture.ecma Fixture.nodepath PATCH_tasks_id
           (Fixture.patch_check "1")
           (mkContext (Fixture.authorization "t1")
              {[ "isChecked" := JBool true; "userId" := JNum 2; "id" := JNum 9 ]}
              ∅ {[ "id" := "1" ]})
           Fixture.env Fixture.world); try settle.
  intros k Hk. rewrite !elem_of_cons, elem_of_nil in Hk.
  destruct Hk as [->|[->|[->|[->|[]]]]]; settle.
Defined.

(** User 1 uploads a picture and reads the profile. *)
Lemma uploaded_image_shows_in_profile_witness :
  let app := @Index.app Fixture.codec Fixture.ecma Fixture.nodepath in
  let w1 :=
    (app POST_profile_image (Fixture.upload Scenario.png) Fixture.env
       Fixture.world).2 in
  exists image total completed,
    (app POST_profile_image (Fixture.upload Scenario.png) Fixture.env
       Fixture.world).1 = ok (BImage "Image updated" image) /\
    files w1 !! image = Some "bytes" /\
    app GET_profile Fixture.profile Fixture.env w1
    = (ok (BProfile "a@example.com" image total completed), w1) /\
    app GET_profile Fixture.profile Fixture.env Fixture.world
    = (ok (BProfile "a@example.com" "" total completed), Fixture.world).
Proof.
  cbv zeta.
  apply (@uploaded_image_shows_in_profile
           Fixture.codec Fixture.ecma Fixture.nodepath
           (@Index.app Fixture.codec Fixture.ecma Fixture.nodepath)
           (Fixture.upload Scenario.png) Fixture.profile Fixture.env Fixture.env
           Fixture.world Fixture.user1 Scenario.png Fixture.alice); settle.
Defined.

(** ** Login on concrete requests *)

Lemma fixture_world_lacks_carol :
  forall i user,
    users Fixture.world !! i = Some user -> User.email user <> "c@example.com".
Proof. apply by_email_None. vm_compute. reflexivity. Qed.

(** An unknown email and a wrong password of user 1 get the same answer. *)
Lemma part000_login_fails_alike_witness :
  Scenario.part000_login_app (Scenario.login "c@example.com" "secret1")
    Fixture.env Fixture.world
  = (Refused (ok (BError "Invalid credentials")), Fixture.world) /\
  Scenario.part000_login_app (Scenario.login "a@example.com" "secret2")
    Fixture.env Fixture.world
  = (Refused (ok (BError "Invalid credentials")), Fixture.world).
Proof.
  split.
  - apply (proj2 (@part000_login_fails_alike
                    Scenario.codec Fixture.bcrypt Scenario.issuer Scenario.comparer
                    (Scenario.login "c@example.com" "secret1")
                    Fixture.env Fixture.world) "c@example.com" "secret1");
      [reflexivity | reflexivity | left; vm_compute; reflexivity].
  - apply (proj2 (@part000_login_fails_alike
                    Scenario.codec Fixture.bcrypt Scenario.issuer Scenario.comparer
                    (Scenario.login "a@example.com" "secret2")
                    Fixture.env Fixture.world) "a@example.com" "secret2");
      [reflexivity | reflexivity |].
    right. exists Fixture.alice. split; vm_compute; reflexivity.
Defined.

(** index.ts registers c@example.com as user 3; part_000 refuses. *)
Lemma index_login_registers_unknown_email_witness :
  let ctx := Scenario.login "c@example.com" "pw" in
  let carol := User.mk 3 "c@example.com" "$pwsalt" "" in
  let w' := with_user "c@example.com" "$pwsalt" Fixture.world in
  Scenario.index_login_app ctx Fixture.env Fixture.world
  = (Token (Scenario.token_for carol Fixture.env span_7d), w') /\
  users w' !! 3 = Some carol /\
  "$pwsalt" <> "pw" /\
  Scenario.part000_login_app ctx Fixture.env Fixture.world
  = (Refused (ok (BError "Invalid credentials")), Fixture.world).
Proof.
  cbv zeta.
  apply (@index_login_registers_unknown_email
           Scenario.codec Fixture.bcrypt Scenario.issuer Scenario.comparer
           (Scenario.login "c@example.com" "pw") Fixture.env Fixture.world
           "c@example.com" "pw");
    [reflexivity | discriminate | reflexivity | discriminate
    | exact fixture_world_lacks_carol].
Defined.

(** User 1 logs in at part_000; the token is good for an hour. *)
Lemma login_token_lifetime_witness :
  let token := Scenario.token_for Fixture.alice Fixture.env span_1h in
  exists i user,
    users Fixture.world !! i = Some user /\
    User.email user = "a@example.com" /\
    @getUserFromToken Scenario.codec (Some token) Scenario.later Fixture.world
    = (Next (Some (JwtUserPayload.mk (User.id user) (User.email user))),
       Fixture.world) /\
    @getUserFromToken Scenario.codec (Some token)
      (mkEnv (1500000 + 3600000) "") Fixture.world
    = (Next None, Fixture.world).
Proof.
  cbv zeta.
  destruct (proj2 (@login_token_lifetime
                     Scenario.codec Fixture.bcrypt Scenario.issuer Scenario.comparer
                     (Scenario.login "a@example.com" "secret1")
                     Fixture.env Fixture.world
                     (Scenario.token_for Fixture.alice Fixture.env span_1h)))
    as (i & user & Hi & He & Huntil); [vm_compute; reflexivity|].
  exists i, user. split_and!.
  - exact Hi.
  - cbn in He. now injection He.
  - exact (Huntil Scenario.later Fixture.world).
  - exact (Huntil (mkEnv (1500000 + 3600000) "") Fixture.world).
Defined.

(** The token of user 1 was handed out for the password of user 1. *)
Lemma login_requires_matching_password_witness :
  exists password,
    prop (body (Scenario.login "a@example.com" "secret1")) "password"
    = JStr password /\
    Scenario.compare password "$secret1" = true.
Proof.
  apply (@login_requires_matching_password
           Scenario.codec Fixture.bcrypt Scenario.issuer Scenario.comparer
           (Scenario.login "a@example.com" "secret1") Fixture.env Fixture.world
           (Scenario.token_for Fixture.alice Fixture.env span_1h)
           "a@example.com" Fixture.alice);
    [right; vm_compute; reflexivity | reflexivity | vm_compute; reflexivity].
Defined.

(** A registering login and a refused one, from the fixture world. *)
Lemma login_keeps_well_formed_witness :
  well_formed
    (Scenario.index_login_app (Scenario.login "c@example.com" "pw")
       Fixture.env Fixture.world).2 /\
  well_formed
    (Scenario.part000_login_app (Scenario.login "c@example.com" "pw")
       Fixture.env Fixture.world).2.
Proof.
  apply (@login_keeps_well_formed
           Scenario.codec Fixture.bcrypt Scenario.issuer Scenario.comparer
           (Scenario.login "c@example.com" "pw") Fixture.env Fixture.world).
  exact fixture_world_well_formed.
Defined.

(** c@example.com logs in twice at index.ts. *)
Lemma index_login_again_is_accepted_witness :
  let ctx := Scenario.login "c@example.com" "pw" in
  let carol := User.mk 3 "c@example.com" "$pwsalt" "" in
  let w1 := (Scenario.index_login_app ctx Fixture.env Fixture.world).2 in
  Scenario.index_login_app ctx Scenario.later w1
  = (Token (Scenario.token_for carol Scenario.later span_7d), w1).
Proof.
  cbv zeta.
  apply (@index_login_again_is_accepted
           Scenario.codec Fixture.bcrypt Scenario.issuer Scenario.comparer
           (Scenario.login "c@example.com" "pw")
           (Scenario.login "c@example.com" "pw")
           Fixture.env Scenario.later Fixture.world "c@example.com" "pw");
    [reflexivity | reflexivity | reflexivity | reflexivity
    | discriminate | discriminate | exact fixture_world_lacks_carol].
Defined.

(** User 1 logs in at part_000 and reads the profile at index.ts a hundred
    seconds later. *)
Lemma login_token_authenticates_witness :
  let token := Scenario.token_for Fixture.alice Fixture.env span_1h in
  let request := mkContext (Fixture.authorization token) ∅ ∅ ∅ in
  exists user,
    users Fixture.world !! User.id user = Some user /\
    prop (body (Scenario.login "a@example.com" "secret1")) "email"
    = JStr (User.email user) /\
    @getUserFromToken Scenario.codec (Some token) Scenario.later Fixture.world
    = (Next (Some (JwtUserPayload.mk (User.id user) (User.email user))),
       Fixture.world) /\
    exists total completed,
      @Index.app Scenario.codec Fixture.ecma Fixture.nodepath
        GET_profile request Scenario.later Fixture.world
      = (ok (BProfile (User.email user) (User.image user) total completed),
         Fixture.world).
Proof.
  cbv zeta.
  apply (@login_token_authenticates
           Scenario.codec Fixture.ecma Fixture.nodepath
           Fixture.bcrypt Scenario.issuer Scenario.comparer
           Scenario.part000_login_app
           (@Index.app Scenario.codec Fixture.ecma Fixture.nodepath)
           (Scenario.login "a@example.com" "secret1")
           (mkContext
              (Fixture.authorization
                 (Scenario.token_for Fixture.alice Fixture.env span_1h)) ∅ ∅ ∅)
           Fixture.env Scenario.later Fixture.world
           (Scenario.token_for Fixture.alice Fixture.env span_1h));
    [right; reflexivity | left; reflexivity | exact fixture_world_well_formed
    | vm_compute; reflexivity | vm_compute; reflexivity
    | vm_compute; reflexivity | vm_compute; reflexivity].
Defined.

(** c@example.com registers and logs in at part_000. *)
Lemma register_then_login_witness :
  let registration := Fixture.registration "c@example.com" "pw" in
  let carol := User.mk 3 "c@example.com" "$pwsalt" "" in
  let w1 := (@Part000.app_register Fixture.bcrypt registration
               Fixture.env Fixture.world).2 in
  users w1 !! 3 = Some carol /\
  Scenario.part000_login_app (Scenario.login "c@example.com" "pw")
    Scenario.later w1
  = (Token (Scenario.token_for carol Scenario.later span_1h), w1).
Proof.
  cbv zeta.
  destruct (@register_then_login
              Scenario.codec Fixture.bcrypt Scenario.issuer Scenario.comparer
              (Fixture.registration "c@example.com" "pw")
              (Scenario.login "c@example.com" "pw")
              Fixture.env Scenario.later Fixture.world "c@example.com" "pw")
    as (_ & Hstored & Hlogin & _);
    [reflexivity | discriminate | reflexivity | discriminate
    | reflexivity | reflexivity | exact fixture_world_lacks_carol |].
  split; [exact Hstored | exact Hlogin].
Defined.
